(** * MemoryCacheAI: the memory orchestration workflow

    A shallow embedding of the Go code of MemoryCacheAI that saves, queries
    and cleans memories: the service of [services/memory.go], the Redis,
    vector and embedding clients of package [clients], the records of
    [models/memory.go] and the dimensions of package [config]; and the
    properties of this orchestration that its specification states.

    The three remote collaborators (the Redis REST endpoint, the vector
    index and the embedding provider) are modelled as explicit state: every
    HTTP round trip is logged in a trace, consumes one scheduled outcome
    (served, rejected, or applied without an acknowledgement) and, when it
    is applied, transforms the remote store the way the Redis command or
    the index endpoint does. *)

From Stdlib Require Import ZArith QArith String List.
From stdpp Require Import gmap strings list fin_maps sorting pretty.

Set Warnings "-register-all,-clear-no-such-hyp".

Local Open Scope string_scope.
Local Open Scope Z_scope.

(** ** JSON values

    A Go [interface{}] that travelled through [encoding/json] is one of
    nil, bool, float64, string, []interface{} or map[string]interface{}.
    JSON numbers are finite, so a decoded float64 is a rational and the
    float comparisons of the code are the comparisons of [Q]. *)

Inductive jvalue : Type :=
| JNull
| JBool (b : bool)
| JNum (q : Q)
| JStr (s : string)
| JArr (xs : list jvalue)
| JObj (fields : list (string * jvalue)).

(** float64 comparisons [a < b] and [a <= b]. *)
Definition Qltb (a b : Q) : bool := negb (Qle_bool b a).
Definition Qleb (a b : Q) : bool := Qle_bool a b.

(** [int64(f)] for a float64 [f]: truncation toward zero; out of range the
    amd64 conversion yields the minimum int64. *)
Definition int64_min : Z := - 2 ^ 63.
Definition int64_max : Z := 2 ^ 63 - 1.

Definition int64_of_float (q : Q) : Z :=
  let t := Z.quot (Qnum q) (Z.pos (Qden q)) in
  if (int64_min <=? t) && (t <=? int64_max) then t else int64_min.

(** int64 addition wraps around. *)
Definition wrap64 (z : Z) : Z := (z + 2 ^ 63) mod 2 ^ 64 - 2 ^ 63.
Definition add64 (a b : Z) : Z := wrap64 (a + b).

(** ** Time

    A [time.Time] is the number of nanoseconds since the Unix epoch;
    [Unix()] gives whole seconds, [time.Unix(sec, 0)] the converse. *)

Definition Time : Type := Z.
Definition Unix (t : Time) : Z := t / 1000000000.
Definition time_Unix (sec : Z) : Time := sec * 1000000000.
(** The zero [time.Time] is January 1 of year 1. *)
Definition zero_Time : Time := time_Unix (-62135596800).

(** ** models/memory.go *)

Record Message : Type := {
  msg_ID : string;
  msg_Role : string;
  msg_Content : string;
  msg_Timestamp : Time;
}.

(** [Context] is a Go map and may be nil (a record decoded from
    ["context": null]). *)
Record SessionData : Type := {
  sd_UserID : string;
  sd_SessionID : string;
  sd_Messages : list Message;
  sd_Context : option (gmap string jvalue);
  sd_LastActivity : Time;
  sd_CreatedAt : Time;
}.

Record MemoryEntry : Type := {
  me_ID : string;
  me_UserID : string;
  me_Content : string;
  me_Embedding : list Q;
  me_Metadata : gmap string jvalue;
  me_Timestamp : Time;
  me_TTL : Z;
}.

Record SaveMemoryRequest : Type := {
  smr_UserID : string;
  smr_SessionID : string;
  smr_Content : string;
  smr_Role : string;
}.

Record QueryMemoryRequest : Type := {
  qmr_UserID : string;
  qmr_Query : string;
  qmr_Limit : Z;
  qmr_MinScore : Q;
}.

Record MemoryResult : Type := {
  mr_ID : string;
  mr_Content : string;
  mr_Score : Q;
  mr_Metadata : gmap string jvalue;
  mr_Timestamp : Time;
}.

Record QueryMemoryResponse : Type := {
  resp_Results : list MemoryResult;
  resp_Total : Z;
}.

(** ** Wire formats of the clients *)

(** The string stored under a session key: the output of [json.Marshal] on
    a [SessionData], or some other text that [json.Unmarshal] rejects. *)
Inductive json_text : Type :=
| Encoded (sd : SessionData)
| Malformed (raw : string).

Inductive RedisCommand : Type :=
| SETEX (key : string) (seconds : Z) (value : json_text)
| SADD (key member : string)
| EXPIRE (key : string) (seconds : Z)
| GET (key : string)
| DEL (key : string).

(** [RedisResponse.Result], an [interface{}]. *)
Inductive RedisResult : Type :=
| RNil
| RStatus (s : string)
| RBulk (v : json_text)
| RInt (n : Z).

Record UpsertRequest : Type := {
  ur_ID : string;
  ur_Vector : list Q;
  ur_Metadata : gmap string jvalue;
}.

Record QueryRequest : Type := {
  qr_Vector : list Q;
  qr_TopK : Z;
  qr_IncludeMetadata : bool;
  qr_IncludeVectors : bool;
  qr_Filter : string;
}.

(** [Metadata] is nil when the index holds none for the match. *)
Record QueryMatch : Type := {
  qm_ID : string;
  qm_Score : Q;
  qm_Metadata : option (gmap string jvalue);
}.

(** ** Errors *)

(** How a call ends without a value. A Go [error] is a message or
    [fmt.Errorf("msg: %w", cause)]. A run-time panic is no value a caller
    sees: it passes every [if err != nil] on its way up to the recovery of
    the HTTP server. *)
Inductive error : Type :=
| errors_New (msg : string)
| Errorf (msg : string) (cause : error)
| runtime_panic (msg : string).

Inductive result (A : Type) : Type :=
| Ok (a : A)
| Err (e : error).
Arguments Ok {A} a.
Arguments Err {A} e.

Definition is_Ok {A} (r : result A) : bool :=
  match r with Ok _ => true | Err _ => false end.

(** ** The remote stores *)

Inductive redis_value : Type :=
| RString (v : json_text)
| RSet (members : gset string).

(** A key of the Redis store: its value and the seconds to live it was
    last given, if any. *)
Record redis_entry : Type := {
  re_value : redis_value;
  re_ttl : option Z;
}.

(** A vector of the index with the metadata it was upserted with. *)
Record vector_entry : Type := {
  ve_Vector : list Q;
  ve_Metadata : option (gmap string jvalue);
}.

(** One HTTP round trip. *)
Inductive request : Type :=
| ReqRedis (cmd : RedisCommand)
| ReqEmbed (text : string)
| ReqUpsert (r : UpsertRequest)
| ReqQuery (r : QueryRequest)
| ReqDelete (id : string)
| ReqInfo.

(** What happens to a round trip: it is served; it is rejected (no
    connection, a status other than 200) and leaves the remote store as it
    was; or the store applies it and the reply is lost (a timeout), which the
    client sees as an error too. *)
Inductive outcome : Type :=
| Served
| Rejected
| Unacked.

(** What the code does not decide: the similarity metric and the filter
    language of the index, the dimension the index reports as the client
    reads it, [int(dim)] of the number under [result.dimension] (none when
    the statistics lack the field or it is no number), the embeddings the
    provider returns for a text, the uuid generator and the
    configuration. *)
Record env : Type := {
  similarity : list Q → list Q → Q;
  filter_holds : string → option (gmap string jvalue) → bool;
  index_dimension : option Z;
  provider_data : string → list (list Q);
  uuid_gen : nat → string;
  cfg_EmbeddingProvider : string;
  cfg_OpenAIEmbeddingModel : string;
}.

(** The state the operations run in: the two remote stores, the dimension
    cached by the vector client (0 when none is), the clock, the number of
    uuids drawn, the outcomes scheduled for the round trips to come and the
    round trips made so far. *)
Record world : Type := {
  redis : gmap string redis_entry;
  vectors : gmap string vector_entry;
  vc_dimensions : Z;
  clock : Time;
  uuid_next : nat;
  upstream : list outcome;
  trace : list request;
}.

Definition set_redis (f : gmap string redis_entry → gmap string redis_entry)
    (w : world) : world :=
  {| redis := f (redis w); vectors := vectors w;
     vc_dimensions := vc_dimensions w; clock := clock w;
     uuid_next := uuid_next w; upstream := upstream w; trace := trace w |}.

Definition set_vectors (f : gmap string vector_entry → gmap string vector_entry)
    (w : world) : world :=
  {| redis := redis w; vectors := f (vectors w);
     vc_dimensions := vc_dimensions w; clock := clock w;
     uuid_next := uuid_next w; upstream := upstream w; trace := trace w |}.

Definition set_vc_dimensions (d : Z) (w : world) : world :=
  {| redis := redis w; vectors := vectors w;
     vc_dimensions := d; clock := clock w;
     uuid_next := uuid_next w; upstream := upstream w; trace := trace w |}.

Definition set_uuid_next (n : nat) (w : world) : world :=
  {| redis := redis w; vectors := vectors w;
     vc_dimensions := vc_dimensions w; clock := clock w;
     uuid_next := n; upstream := upstream w; trace := trace w |}.

(** A round trip is logged and uses up the next scheduled outcome; past the
    end of the schedule every round trip is served. *)
Definition sent (rq : request) (w : world) : world :=
  {| redis := redis w; vectors := vectors w;
     vc_dimensions := vc_dimensions w; clock := clock w;
     uuid_next := uuid_next w; upstream := tail (upstream w);
     trace := trace w ++ [rq] |}.

Definition next_outcome (w : world) : outcome :=
  match upstream w with
  | [] => Served
  | o :: _ => o
  end.

(** ** The state and error monad of the services *)

Definition M (A : Type) : Type := world → result A * world.

Global Instance M_ret : MRet M := λ A a w, (Ok a, w).

Global Instance M_bind : MBind M := λ A B f m w,
  match m w with
  | (Ok a, w') => f a w'
  | (Err e, w') => (Err e, w')
  end.

Definition fail {A} (e : error) : M A := λ w, (Err e, w).

(** [x, err := m], the error kept as a value; a panic is not kept. *)
Definition try {A} (m : M A) : M (result A) := λ w,
  match m w with
  | (Err (runtime_panic p), w') => (Err (runtime_panic p), w')
  | (r, w') => (Ok r, w')
  end.

(** What [fmt.Errorf("msg: %w", err)] makes of the error of a callee; a
    panic of the callee is not its to wrap. *)
Definition annotate (msg : string) (e : error) : error :=
  match e with
  | runtime_panic p => runtime_panic p
  | _ => Errorf msg e
  end.

(** [if err != nil { return fmt.Errorf("msg: %w", err) }] *)
Definition wrap {A} (msg : string) (m : M A) : M A := λ w,
  match m w with
  | (Ok a, w') => (Ok a, w')
  | (Err e, w') => (Err (annotate msg e), w')
  end.

(** [make([]float64, n)]: a run-time panic when [n] is negative; any
    other length is taken to be allocated. *)
Definition make_float64 (n : Z) : M (list Q) :=
  if n <? 0 then fail (runtime_panic "runtime error: makeslice: len out of range")
  else mret (replicate (Z.to_nat n) 0%Q).

(** An HTTP round trip: [reply] is computed on the store the request
    meets, [effect] is what the store does with it. *)
Definition round_trip {A} (rq : request) (reply : world → result A)
    (effect : world → world) : M A := λ w,
  match next_outcome w with
  | Served => (reply w, effect (sent rq w))
  | Rejected => (Err (errors_New "request failed"), sent rq w)
  | Unacked => (Err (errors_New "request failed"), effect (sent rq w))
  end.

Definition time_Now : M Time := λ w, (Ok (clock w), w).

(** [uuid.New().String()] *)
Definition uuid_New (gen : nat → string) : M string := λ w,
  (Ok (gen (uuid_next w)), set_uuid_next (S (uuid_next w)) w).

(** [for k, v := range src { dst[k] = v }]; the keys of a map are distinct,
    so the order of the iteration does not matter. *)
Definition assign_all {V} (src dst : gmap string V) : gmap string V :=
  map_fold (λ k v acc, <[k:=v]> acc) dst src.

(** Assignments to the fields of a session. *)
Definition with_LastActivity (t : Time) (s : SessionData) : SessionData :=
  {| sd_UserID := sd_UserID s; sd_SessionID := sd_SessionID s;
     sd_Messages := sd_Messages s; sd_Context := sd_Context s;
     sd_LastActivity := t; sd_CreatedAt := sd_CreatedAt s |}.

Definition with_Messages (ms : list Message) (s : SessionData) : SessionData :=
  {| sd_UserID := sd_UserID s; sd_SessionID := sd_SessionID s;
     sd_Messages := ms; sd_Context := sd_Context s;
     sd_LastActivity := sd_LastActivity s; sd_CreatedAt := sd_CreatedAt s |}.

Definition with_Context (c : option (gmap string jvalue)) (s : SessionData)
    : SessionData :=
  {| sd_UserID := sd_UserID s; sd_SessionID := sd_SessionID s;
     sd_Messages := sd_Messages s; sd_Context := c;
     sd_LastActivity := sd_LastActivity s; sd_CreatedAt := sd_CreatedAt s |}.

(** ** The Redis client *)

Module RedisClient.

(** The Redis commands the client sends, as the server executes them
    (SETEX, SADD, EXPIRE, GET and DEL of Redis); [None] is an error reply
    ([RedisResponse.Error] not empty): a time to live that is not positive, a
    command on a key that holds the wrong kind of value. *)
Definition redis_exec (cmd : RedisCommand) (db : gmap string redis_entry)
    : option RedisResult * gmap string redis_entry :=
  match cmd with
  | SETEX key seconds value =>
      if seconds <=? 0 then (None, db)
      else (Some (RStatus "OK"),
            <[key := {| re_value := RString value; re_ttl := Some seconds |}]> db)
  | SADD key member =>
      match db !! key with
      | None =>
          (Some (RInt 1),
           <[key := {| re_value := RSet {[ member ]}; re_ttl := None |}]> db)
      | Some {| re_value := RSet s; re_ttl := t |} =>
          (Some (RInt (if decide (member ∈ s) then 0 else 1)),
           <[key := {| re_value := RSet ({[ member ]} ∪ s); re_ttl := t |}]> db)
      | Some {| re_value := RString _ |} => (None, db)
      end
  | EXPIRE key seconds =>
      match db !! key with
      | None => (Some (RInt 0), db)
      | Some e =>
          (Some (RInt 1),
           <[key := {| re_value := re_value e; re_ttl := Some seconds |}]> db)
      end
  | GET key =>
      match db !! key with
      | None => (Some RNil, db)
      | Some {| re_value := RString v |} => (Some (RBulk v), db)
      | Some {| re_value := RSet _ |} => (None, db)
      end
  | DEL key =>
      (Some (RInt match db !! key with Some _ => 1 | None => 0 end),
       delete key db)
  end.

Definition executeCommand (cmd : RedisCommand) : M RedisResult :=
  round_trip (ReqRedis cmd)
    (λ w, match (redis_exec cmd (redis w)).1 with
          | Some r => Ok r
          | None => Err (errors_New "Redis error")
          end)
    (set_redis (λ db, (redis_exec cmd db).2)).

Definition session_key (sessionID : string) : string := "session:" +:+ sessionID.
Definition user_sessions_key (userID : string) : string :=
  "user_sessions:" +:+ userID.

(** [json.Marshal] does not fail on a session whose context came from
    JSON; the three commands follow. *)
Definition SaveSession (sessionData : SessionData) : M unit :=
  let key := session_key (sd_SessionID sessionData) in
  wrap "failed to save session"
    (executeCommand (SETEX key 86400 (Encoded sessionData)));;
  let userKey := user_sessions_key (sd_UserID sessionData) in
  wrap "failed to save user session mapping"
    (executeCommand (SADD userKey (sd_SessionID sessionData)));;
  executeCommand (EXPIRE userKey 86400);;
  mret ().

Definition json_Unmarshal (jsonStr : json_text) : result SessionData :=
  match jsonStr with
  | Encoded sd => Ok sd
  | Malformed _ => Err (errors_New "invalid character")
  end.

Definition GetSession (sessionID : string) : M SessionData :=
  let key := session_key sessionID in
  resp ← wrap "failed to get session" (executeCommand (GET key));
  match resp with
  | RNil => fail (errors_New "session not found")
  | RBulk jsonStr =>
      match json_Unmarshal jsonStr with
      | Ok sessionData => mret sessionData
      | Err e => fail (Errorf "failed to unmarshal session data" e)
      end
  | _ => fail (errors_New "invalid session data format")
  end.

Definition DeleteSession (sessionID : string) : M unit :=
  let key := session_key sessionID in
  wrap "failed to delete session" (executeCommand (DEL key));;
  mret ().

Definition UpdateSessionActivity (sessionID : string) : M unit :=
  session ← GetSession sessionID;
  now ← time_Now;
  SaveSession (with_LastActivity now session).

Definition SetSessionContext (sessionID : string)
    (context : gmap string jvalue) : M unit :=
  session ← GetSession sessionID;
  let ctx :=
    match sd_Context session with
    | None => ∅
    | Some c => c
    end in
  let session := with_Context (Some (assign_all context ctx)) session in
  now ← time_Now;
  SaveSession (with_LastActivity now session).

End RedisClient.

(** ** Configuration *)

Definition GetEmbeddingDimensions (E : env) : Z :=
  if String.eqb (cfg_EmbeddingProvider E) "jina" then 1024
  else if String.eqb (cfg_EmbeddingProvider E) "openai" then
    if String.eqb (cfg_OpenAIEmbeddingModel E) "text-embedding-3-small" then 1536
    else if String.eqb (cfg_OpenAIEmbeddingModel E) "text-embedding-3-large" then 3072
    else if String.eqb (cfg_OpenAIEmbeddingModel E) "text-embedding-ada-002" then 1536
    else 1536
  else 1024.

(** ** The embedding client *)

(** [GenerateEmbedding]: one request to the provider; the first embedding
    of the reply, an error when the reply holds none. *)
Definition GenerateEmbedding (E : env) (text : string) : M (list Q) :=
  round_trip (ReqEmbed text)
    (λ _, match provider_data E text with
          | [] => Err (errors_New "no embeddings returned")
          | embedding :: _ => Ok embedding
          end)
    id.

(** ** The vector client *)

Module VectorClient.
Section WithEnv.
Context (E : env).

(** The index ranks by descending score. *)
Definition ranks_before (a b : QueryMatch) : Prop :=
  Is_true (Qle_bool (qm_Score b) (qm_Score a)).

Global Instance ranks_before_dec a b : Decision (ranks_before a b).
Proof. unfold ranks_before. apply _. Defined.

Definition to_match (r : QueryRequest) (kv : string * vector_entry)
    : QueryMatch :=
  {| qm_ID := kv.1;
     qm_Score := similarity E (qr_Vector r) (ve_Vector kv.2);
     qm_Metadata := if qr_IncludeMetadata r then ve_Metadata kv.2 else None |}.

Definition passes_filter (r : QueryRequest) (kv : string * vector_entry)
    : bool :=
  if String.eqb (qr_Filter r) "" then true
  else filter_holds E (qr_Filter r) (ve_Metadata kv.2).

(** The index endpoint [/query]: the [topK] best-scoring vectors among
    those the filter keeps, the best first; an empty filter keeps all. *)
Definition index_query (r : QueryRequest) (idx : gmap string vector_entry)
    : list QueryMatch :=
  take (Z.to_nat (qr_TopK r))
    (merge_sort ranks_before
       (to_match r <$> List.filter (passes_filter r) (map_to_list idx))).

(** [/upsert]; an empty metadata object is omitted from the request. *)
Definition index_upsert (r : UpsertRequest) (idx : gmap string vector_entry)
    : gmap string vector_entry :=
  <[ur_ID r := {| ve_Vector := ur_Vector r;
                  ve_Metadata := match map_to_list (ur_Metadata r) with
                                 | [] => None
                                 | _ => Some (ur_Metadata r)
                                 end |}]> idx.

Definition UpsertMemory (memory : MemoryEntry) : M unit :=
  let metadata : gmap string jvalue :=
    <["ttl" := JNum (inject_Z (me_TTL memory))]>
      (<["timestamp" := JNum (inject_Z (Unix (me_Timestamp memory)))]>
         (<["content" := JStr (me_Content memory)]>
            (<["user_id" := JStr (me_UserID memory)]> ∅))) in
  let metadata := assign_all (me_Metadata memory) metadata in
  let request := {| ur_ID := me_ID memory; ur_Vector := me_Embedding memory;
                    ur_Metadata := metadata |} in
  wrap "failed to upsert memory"
    (round_trip (ReqUpsert request) (λ _, Ok ())
       (set_vectors (index_upsert request))).

Definition to_result (m : QueryMatch) : MemoryResult :=
  (* [result.Metadata] and [match.Metadata] are one map once it is not
     nil: the id written to the first is read through the second. *)
  let shared := <["id" := JStr (qm_ID m)]> <$> qm_Metadata m in
  {| mr_ID := "";
     mr_Content := match shared ≫= (.!! "content") with
                   | Some (JStr content) => content
                   | _ => ""
                   end;
     mr_Score := qm_Score m;
     mr_Metadata := match shared with
                    | Some md => md
                    | None => <["id" := JStr (qm_ID m)]> ∅
                    end;
     mr_Timestamp := match shared ≫= (.!! "timestamp") with
                     | Some (JNum timestampFloat) =>
                         time_Unix (int64_of_float timestampFloat)
                     | _ => zero_Time
                     end |}.

(** The loop over [response.Result]. *)
Fixpoint collect (minScore : Q) (matches : list QueryMatch)
    (results : list MemoryResult) : list MemoryResult :=
  match matches with
  | [] => results
  | m :: rest =>
      if Qltb (qm_Score m) minScore then collect minScore rest results
      else collect minScore rest (results ++ [to_result m])
  end.

Definition user_filter (userID : string) : string :=
  "user_id = '" +:+ userID +:+ "'".

Definition QueryMemories (userID : string) (queryVector : list Q)
    (limit : Z) (minScore : Q) : M (list MemoryResult) :=
  let limit := if limit <=? 0 then 10 else limit in
  let request := {| qr_Vector := queryVector; qr_TopK := limit;
                    qr_IncludeMetadata := true; qr_IncludeVectors := false;
                    qr_Filter := user_filter userID |} in
  response ← wrap "failed to query memories"
    (round_trip (ReqQuery request)
       (λ w, Ok (index_query request (vectors w))) id);
  mret (collect minScore response []).

Definition DeleteMemory (id : string) : M unit :=
  wrap "failed to delete memory"
    (round_trip (ReqDelete id) (λ _, Ok ()) (set_vectors (delete id))).

(** [/info]: the statistics of the index, of which the client reads
    [result.dimension]. *)
Definition GetStats : M (option Z) :=
  wrap "failed to get vector stats"
    (round_trip ReqInfo (λ _, Ok (index_dimension E)) id).

(** [GetDimensions]: the cached dimension when it is positive; else the
    dimension of the statistics, an error only when it is 0 or missing. A
    negative one is stored and returned like any other. *)
Definition GetDimensions : M Z := λ w,
  if 0 <? vc_dimensions w then (Ok (vc_dimensions w), w)
  else
    (stats ← wrap "failed to get vector stats" GetStats;
     let dimensions :=
       match stats with
       | Some dim => dim
       | None => 0
       end in
     if dimensions =? 0 then
       fail (errors_New "could not determine vector dimensions from database")
     else λ w', (Ok dimensions, set_vc_dimensions dimensions w')) w.

(** The expiration test on one match: both [timestamp] and [ttl] must be
    numbers. *)
Definition expired (now : Z) (m : QueryMatch) : bool :=
  match qm_Metadata m ≫= (.!! "timestamp") with
  | Some (JNum timestampFloat) =>
      match qm_Metadata m ≫= (.!! "ttl") with
      | Some (JNum ttlFloat) =>
          let expirationTime :=
            add64 (int64_of_float timestampFloat) (int64_of_float ttlFloat) in
          expirationTime <? now
      | _ => false
      end
  | _ => false
  end.

(** The loop that deletes the expired matches; a failed delete is logged
    and the loop goes on. *)
Fixpoint sweep (now : Z) (matches : list QueryMatch) : M unit :=
  match matches with
  | [] => mret ()
  | m :: rest =>
      (if expired now m then _ ← try (DeleteMemory (qm_ID m)); mret ()
       else mret ());;
      sweep now rest
  end.

Definition DeleteExpiredMemories : M unit :=
  t ← time_Now;
  let now := Unix t in
  d ← try GetDimensions;
  let dimensions :=
    match d with
    | Ok dimensions => dimensions
    | Err _ => GetEmbeddingDimensions E
    end in
  zeros ← make_float64 dimensions;
  let queryRequest :=
    {| qr_Vector := zeros; qr_TopK := 10000;
       qr_IncludeMetadata := true; qr_IncludeVectors := false;
       qr_Filter := "" |} in
  response ← wrap "failed to query memories for cleanup"
    (round_trip (ReqQuery queryRequest)
       (λ w, Ok (index_query queryRequest (vectors w))) id);
  sweep now response.

End WithEnv.
End VectorClient.

(** ** services/memory.go *)

Module MemoryService.
Section WithEnv.
Context (E : env).

Definition SaveMemory (req : SaveMemoryRequest) : M unit :=
  now ← time_Now;
  messageID ← uuid_New (uuid_gen E);
  let message :=
    {| msg_ID := messageID; msg_Role := smr_Role req;
       msg_Content := smr_Content req; msg_Timestamp := now |} in
  got ← try (RedisClient.GetSession (smr_SessionID req));
  let session :=
    match got with
    | Ok session => session
    | Err _ =>
        {| sd_UserID := smr_UserID req; sd_SessionID := smr_SessionID req;
           sd_Messages := []; sd_Context := Some ∅;
           sd_LastActivity := now; sd_CreatedAt := now |}
    end in
  let session := with_Messages (sd_Messages session ++ [message]) session in
  let session := with_LastActivity now session in
  wrap "failed to save session" (RedisClient.SaveSession session);;
  embedding ← wrap "failed to generate embedding"
    (GenerateEmbedding E (smr_Content req));
  let memoryEntry :=
    {| me_ID := messageID; me_UserID := smr_UserID req;
       me_Content := smr_Content req; me_Embedding := embedding;
       me_Metadata := <["role" := JStr (smr_Role req)]>
                        (<["session_id" := JStr (smr_SessionID req)]> ∅);
       me_Timestamp := now;
       me_TTL := 30 * 24 * 60 * 60 |} in
  wrap "failed to save vector memory" (VectorClient.UpsertMemory memoryEntry);;
  mret ().

Definition QueryMemory (req : QueryMemoryRequest) : M QueryMemoryResponse :=
  queryEmbedding ← wrap "failed to generate query embedding"
    (GenerateEmbedding E (qmr_Query req));
  let limit := if qmr_Limit req <=? 0 then 10 else qmr_Limit req in
  let minScore :=
    if Qleb (qmr_MinScore req) 0 then (1 # 2)%Q else qmr_MinScore req in
  results ← wrap "failed to query memories"
    (VectorClient.QueryMemories E (qmr_UserID req) queryEmbedding limit minScore);
  mret {| resp_Results := results; resp_Total := Z.of_nat (length results) |}.

Definition GetSession (sessionID : string) : M SessionData :=
  session ← wrap "failed to get session" (RedisClient.GetSession sessionID);
  _ ← try (RedisClient.UpdateSessionActivity sessionID);
  mret session.

Definition DeleteSession (sessionID : string) (deleteMemories : bool)
    : M unit :=
  (if deleteMemories then
     _ ← wrap "failed to get session" (RedisClient.GetSession sessionID);
     mret ()
   else mret ());;
  wrap "failed to delete session from Redis"
    (RedisClient.DeleteSession sessionID);;
  mret ().

Definition SetSessionContext (sessionID : string)
    (context : gmap string jvalue) : M unit :=
  RedisClient.SetSessionContext sessionID context.

Definition CleanupExpiredMemories : M unit :=
  VectorClient.DeleteExpiredMemories E.

(** [id, ok := result.Metadata["id"].(string); ok && id == memoryID] *)
Definition names_memory (memoryID : string) (result : MemoryResult) : bool :=
  match mr_Metadata result !! "id" with
  | Some (JStr id) => String.eqb id memoryID
  | _ => false
  end.

Definition DeleteMemory (memoryID userID : string) : M unit :=
  let request :=
    {| qmr_UserID := userID; qmr_Query := "verify memory ownership";
       qmr_Limit := 100; qmr_MinScore := 0%Q |} in
  response ← wrap "failed to verify memory ownership" (QueryMemory request);
  let memoryFound := existsb (names_memory memoryID) (resp_Results response) in
  if negb memoryFound then
    fail (errors_New
            "memory not found or does not belong to the specified user")
  else
    wrap "failed to delete memory" (VectorClient.DeleteMemory memoryID);;
    mret ().

End WithEnv.
End MemoryService.

(** * More of the clients, the service and the handlers *)

(** ** The Redis client: session sets and single messages *)

Module RedisSessions.

(** A round trip that the trace has no entry for: it uses up the next
    outcome and logs nothing. The trace lists the commands of the session
    operations, the embedding requests and the requests to the index; the
    reads of a session set and the requests to the task dispatcher are not
    in it. *)
Definition unlogged (w : world) : world :=
  {| redis := redis w; vectors := vectors w;
     vc_dimensions := vc_dimensions w; clock := clock w;
     uuid_next := uuid_next w; upstream := tail (upstream w);
     trace := trace w |}.

(** [SMEMBERS key] as the server answers it: the members of the set in
    some order, an empty array for a missing key, an error reply for a key
    that holds a string. *)
Definition smembers (key : string) (db : gmap string redis_entry)
    : option jvalue :=
  match db !! key with
  | None => Some (JArr [])
  | Some {| re_value := RSet s |} => Some (JArr (JStr <$> elements s))
  | Some {| re_value := RString _ |} => None
  end.

(** [executeCommand(RedisCommand{"SMEMBERS", key})] *)
Definition executeSMEMBERS (key : string) : M jvalue := λ w,
  match next_outcome w with
  | Served =>
      (match smembers key (redis w) with
       | Some r => Ok r
       | None => Err (errors_New "Redis error")
       end, unlogged w)
  | _ => (Err (errors_New "request failed"), unlogged w)
  end.

Definition GetUserSessions (userID : string) : M (list string) :=
  let key := RedisClient.user_sessions_key userID in
  resp ← wrap "failed to get user sessions" (executeSMEMBERS key);
  match resp with
  | JNull => mret []
  | JArr resultSlice =>
      mret ((λ v, match v with JStr str => str | _ => "" end) <$> resultSlice)
  | _ => mret []
  end.

Definition AddMessageToSession (sessionID : string) (message : Message)
    : M unit :=
  session ← RedisClient.GetSession sessionID;
  let session := with_Messages (sd_Messages session ++ [message]) session in
  now ← time_Now;
  RedisClient.SaveSession (with_LastActivity now session).

End RedisSessions.

(** ** The vector client: the memories of one owner *)

Module VectorOwner.
Section WithEnv.
Context (E : env).

(** The loop that deletes every match; the first failed delete ends it. *)
Fixpoint delete_each (matches : list QueryMatch) : M unit :=
  match matches with
  | [] => mret ()
  | m :: rest =>
      wrap ("failed to delete memory " +:+ qm_ID m)
        (VectorClient.DeleteMemory (qm_ID m));;
      delete_each rest
  end.

Definition DeleteUserMemories (userID : string) : M unit :=
  d ← try (VectorClient.GetDimensions E);
  let dimensions :=
    match d with
    | Ok dimensions => dimensions
    | Err _ => GetEmbeddingDimensions E
    end in
  zeros ← make_float64 dimensions;
  let queryRequest :=
    {| qr_Vector := zeros; qr_TopK := 1000;
       qr_IncludeMetadata := true; qr_IncludeVectors := false;
       qr_Filter := VectorClient.user_filter userID |} in
  response ← wrap "failed to query user memories for deletion"
    (round_trip (ReqQuery queryRequest)
       (λ w, Ok (VectorClient.index_query E queryRequest (vectors w))) id);
  delete_each response.

End WithEnv.
End VectorOwner.

(** ** The embedding clients: dimensions *)

Module EmbeddingDims.

(** [JinaClient.GetDimensions] *)
Definition Jina_GetDimensions : Z := 1024.

(** The model [NewOpenAIClient] gives its client. *)
Definition NewOpenAIClient_model (E : env) : string :=
  if String.eqb (cfg_OpenAIEmbeddingModel E) "" then "text-embedding-3-small"
  else cfg_OpenAIEmbeddingModel E.

(** [OpenAIClient.GetDimensions] *)
Definition OpenAI_GetDimensions (model : string) : Z :=
  if String.eqb model "text-embedding-3-small" then 1536
  else if String.eqb model "text-embedding-3-large" then 3072
  else if String.eqb model "text-embedding-ada-002" then 1536
  else 1536.

End EmbeddingDims.

(** ** The service: listings, searches and the cleanup of an owner *)

(** The float64 nearest to 0.1 and to 0.6, the thresholds of the two
    searches. *)
Definition float64_0_1 : Q := (3602879701896397 # 36028797018963968)%Q.
Definition float64_0_6 : Q := (5404319552844595 # 9007199254740992)%Q.

Module MemoryOwner.
Section WithEnv.
Context (E : env).

Definition GetUserSessions (userID : string) : M (list string) :=
  RedisSessions.GetUserSessions userID.

(** The loop over the sessions of the owner; a failed delete is logged and
    the loop goes on. *)
Fixpoint delete_sessions (sessions : list string) : M unit :=
  match sessions with
  | [] => mret ()
  | sessionID :: rest =>
      _ ← try (RedisClient.DeleteSession sessionID);
      delete_sessions rest
  end.

Definition CleanupUserMemories (userID : string) : M unit :=
  wrap "failed to delete user memories from vector DB"
    (VectorOwner.DeleteUserMemories E userID);;
  sessions ← wrap "failed to get user sessions"
    (RedisSessions.GetUserSessions userID);
  delete_sessions sessions;;
  mret ().

Definition GetRecentMemories (userID : string) (limit : Z)
    : M (list MemoryResult) :=
  let limit := if limit <=? 0 then 20 else limit in
  let queryReq :=
    {| qmr_UserID := userID; qmr_Query := "recent conversation";
       qmr_Limit := limit; qmr_MinScore := float64_0_1 |} in
  response ← MemoryService.QueryMemory E queryReq;
  mret (resp_Results response).

Definition SearchMemoriesByKeyword (userID keyword : string) (limit : Z)
    : M (list MemoryResult) :=
  let queryReq :=
    {| qmr_UserID := userID; qmr_Query := keyword;
       qmr_Limit := limit; qmr_MinScore := float64_0_6 |} in
  response ← MemoryService.QueryMemory E queryReq;
  mret (resp_Results response).

End WithEnv.
End MemoryOwner.

(** ** The cleanup tasks and the task dispatcher *)

Record CleanupTask : Type := {
  ct_TaskType : string;
  ct_UserID : string;
  ct_Timestamp : Time;
  ct_TTL : Z;
}.

(** A request to publish: the body is the JSON text of a task. Fields the
    client leaves at their zero value are omitted. *)
Record PublishRequest : Type := {
  pr_URL : string;
  pr_Body : CleanupTask;
  pr_Headers : list (string * string);
  pr_Delay : Z;
  pr_Retries : Z;
}.

Record ScheduleRequest : Type := {
  sr_Destination : string;
  sr_Body : CleanupTask;
  sr_Headers : list (string * string);
  sr_Cron : string;
  sr_Retries : Z;
}.

(** The dispatcher: what was published and scheduled so far, the outcomes
    of the round trips to come, the clock, and the ids it hands out. *)
Record qstash : Type := {
  q_published : list PublishRequest;
  q_scheduled : list ScheduleRequest;
  q_upstream : list outcome;
  q_clock : Time;
  q_id : nat → string;
}.

Module QStashClient.

Definition QM (A : Type) : Type := qstash → result A * qstash.

Definition q_next_outcome (q : qstash) : outcome :=
  match q_upstream q with
  | [] => Served
  | o :: _ => o
  end.

Definition q_used (q : qstash) : qstash :=
  {| q_published := q_published q; q_scheduled := q_scheduled q;
     q_upstream := tail (q_upstream q); q_clock := q_clock q;
     q_id := q_id q |}.

Definition q_publish (r : PublishRequest) (q : qstash) : qstash :=
  {| q_published := q_published q ++ [r]; q_scheduled := q_scheduled q;
     q_upstream := q_upstream q; q_clock := q_clock q; q_id := q_id q |}.

Definition q_schedule (r : ScheduleRequest) (q : qstash) : qstash :=
  {| q_published := q_published q; q_scheduled := q_scheduled q ++ [r];
     q_upstream := q_upstream q; q_clock := q_clock q; q_id := q_id q |}.

Definition q_fresh (q : qstash) : string :=
  q_id q (length (q_published q) + length (q_scheduled q))%nat.

(** [makeRequest] to the dispatcher. *)
Definition q_round_trip (effect : qstash → qstash) : QM string := λ q,
  match q_next_outcome q with
  | Served => (Ok (q_fresh q), effect (q_used q))
  | Rejected => (Err (errors_New "request failed"), q_used q)
  | Unacked => (Err (errors_New "request failed"), effect (q_used q))
  end.

Definition q_wrap (msg : string) (m : QM string) : QM string := λ q,
  match m q with
  | (Ok a, q') => (Ok a, q')
  | (Err e, q') => (Err (Errorf msg e), q')
  end.

Definition PublishCleanupTask (callbackURL : string) (task : CleanupTask)
    (delay : Z) : QM string :=
  let request :=
    {| pr_URL := callbackURL; pr_Body := task;
       pr_Headers := [("Content-Type", "application/json")];
       pr_Delay := delay; pr_Retries := 3 |} in
  q_wrap "failed to publish cleanup task" (q_round_trip (q_publish request)).

Definition ScheduleCleanupTask (callbackURL cronExpression : string)
    : QM string := λ q,
  let task :=
    {| ct_TaskType := "cleanup_expired_memories"; ct_UserID := "";
       ct_Timestamp := q_clock q; ct_TTL := 0 |} in
  let request :=
    {| sr_Destination := callbackURL; sr_Body := task;
       sr_Headers := [("Content-Type", "application/json")];
       sr_Cron := cronExpression; sr_Retries := 3 |} in
  q_wrap "failed to schedule cleanup task" (q_round_trip (q_schedule request)) q.

Definition PublishDelayedMemoryCleanup (callbackURL userID : string)
    (delaySeconds : Z) : QM string := λ q,
  let task :=
    {| ct_TaskType := "cleanup_user_memories"; ct_UserID := userID;
       ct_Timestamp := q_clock q; ct_TTL := delaySeconds |} in
  PublishCleanupTask callbackURL task delaySeconds q.

Definition PublishSessionCleanup (callbackURL sessionID : string)
    (delaySeconds : Z) : QM string := λ q,
  let task :=
    {| ct_TaskType := "cleanup_session"; ct_UserID := sessionID;
       ct_Timestamp := q_clock q; ct_TTL := delaySeconds |} in
  PublishCleanupTask callbackURL task delaySeconds q.

(** The service's [ScheduleCleanup] and [ScheduleDelayedUserCleanup]. *)
Definition ScheduleCleanup (callbackURL : string) : QM string :=
  let cronExpression := "0 2 * * *" in
  q_wrap "failed to schedule cleanup"
    (ScheduleCleanupTask callbackURL cronExpression).

Definition ScheduleDelayedUserCleanup (callbackURL userID : string)
    (delaySeconds : Z) : QM string :=
  q_wrap "failed to schedule user cleanup"
    (PublishDelayedMemoryCleanup callbackURL userID delaySeconds).

End QStashClient.

(** ** The handlers *)

Definition StatusOK : Z := 200.
Definition StatusBadRequest : Z := 400.
Definition StatusNotFound : Z := 404.
Definition StatusInternalServerError : Z := 500.

(** The status a handler answers once the service has run; a panic is
    answered 500 by the recovery of [gin.Default()]. *)
Definition respond {A} (failure : Z) (run : result A * world) : Z * world :=
  match run with
  | (Ok _, w) => (StatusOK, w)
  | (Err (runtime_panic _), w) => (StatusInternalServerError, w)
  | (Err _, w) => (failure, w)
  end.

(** The body of [POST /webhook/schedule-user-cleanup]. *)
Record ScheduleUserCleanupRequest : Type := {
  sucr_CallbackURL : string;
  sucr_UserID : string;
  sucr_DelaySeconds : Z;
}.

Module WebhookHandler.
Section WithEnv.
Context (E : env).

(** [HandleCleanupWebhook]; the body is the task it decodes to, none when
    it is not JSON for a task. *)
Definition HandleCleanupWebhook (body : option CleanupTask)
    : world → Z * world := λ w,
  match body with
  | None => (StatusBadRequest, w)
  | Some task =>
      if String.eqb (ct_TaskType task) "cleanup_expired_memories" then
        respond StatusInternalServerError
          (MemoryService.CleanupExpiredMemories E w)
      else if String.eqb (ct_TaskType task) "cleanup_user_memories" then
        if String.eqb (ct_UserID task) "" then (StatusBadRequest, w)
        else respond StatusInternalServerError
               (MemoryOwner.CleanupUserMemories E (ct_UserID task) w)
      else if String.eqb (ct_TaskType task) "cleanup_session" then
        if String.eqb (ct_UserID task) "" then (StatusBadRequest, w)
        else respond StatusInternalServerError
               (MemoryService.DeleteSession (ct_UserID task) false w)
      else (StatusBadRequest, w)
  end.

(** [binding:"required"] on the callback and the owner. *)
Definition schedule_request_bound (req : ScheduleUserCleanupRequest) : bool :=
  negb (String.eqb (sucr_CallbackURL req) "") &&
  negb (String.eqb (sucr_UserID req) "").

(** [ScheduleUserCleanup]; the body is the request it decodes to, none
    when it is not JSON for one (a delay that is no integer, say). The
    delay defaults to an hour. *)
Definition ScheduleUserCleanup (body : option ScheduleUserCleanupRequest)
    : qstash → Z * qstash := λ q,
  match body with
  | None => (StatusBadRequest, q)
  | Some req =>
      if schedule_request_bound req then
        let delaySeconds :=
          if sucr_DelaySeconds req <=? 0 then 3600
          else sucr_DelaySeconds req in
        match QStashClient.ScheduleDelayedUserCleanup (sucr_CallbackURL req)
                (sucr_UserID req) delaySeconds q with
        | (Ok _, q') => (StatusOK, q')
        | (Err _, q') => (StatusInternalServerError, q')
        end
      else (StatusBadRequest, q)
  end.

End WithEnv.
End WebhookHandler.

Module MemoryHandler.
Section WithEnv.
Context (E : env).

(** [binding:"required"] on every field of a save request. *)
Definition save_request_bound (req : SaveMemoryRequest) : bool :=
  negb (String.eqb (smr_UserID req) "") &&
  negb (String.eqb (smr_SessionID req) "") &&
  negb (String.eqb (smr_Content req) "") &&
  negb (String.eqb (smr_Role req) "").

(** [SaveMemory]; the body is the request it decodes to, if any. *)
Definition SaveMemory (body : option SaveMemoryRequest) : world → Z * world :=
  λ w,
  match body with
  | None => (StatusBadRequest, w)
  | Some req =>
      if save_request_bound req then
        respond StatusInternalServerError (MemoryService.SaveMemory E req w)
      else (StatusBadRequest, w)
  end.

Definition GetSession (sessionID : string) : world → Z * world := λ w,
  if String.eqb sessionID "" then (StatusBadRequest, w)
  else respond StatusNotFound (MemoryService.GetSession sessionID w).

Definition DeleteSession (sessionID deleteMemoriesStr : string)
    : world → Z * world := λ w,
  if String.eqb sessionID "" then (StatusBadRequest, w)
  else
    let deleteMemories := String.eqb deleteMemoriesStr "true" in
    respond StatusInternalServerError
      (MemoryService.DeleteSession sessionID deleteMemories w).

Definition DeleteMemory (memoryID userID : string) : world → Z * world := λ w,
  if String.eqb memoryID "" then (StatusBadRequest, w)
  else if String.eqb userID "" then (StatusBadRequest, w)
  else respond StatusInternalServerError
         (MemoryService.DeleteMemory E memoryID userID w).

Definition CleanupUserMemories (userID : string) : world → Z * world := λ w,
  if String.eqb userID "" then (StatusBadRequest, w)
  else respond StatusInternalServerError
         (MemoryOwner.CleanupUserMemories E userID w).

End WithEnv.
End MemoryHandler.

(** * Vocabulary of the properties *)

(** A run that ends in an error, not in a panic. *)
Definition is_panic (e : error) : bool :=
  match e with runtime_panic _ => true | _ => false end.

(** An operation none of whose runs ends in a panic. *)
Definition no_panic {A} (m : M A) : Prop :=
  ∀ w e, (m w).1 = Err e → is_panic e = false.

(** The outcome scheduled for the [i]-th round trip from [w] on. *)
Definition outcome_at (i : nat) (w : world) : outcome := nth i (upstream w) Served.

Definition is_redis (rq : request) : Prop :=
  match rq with ReqRedis _ => True | _ => False end.

Definition cmd_key (cmd : RedisCommand) : string :=
  match cmd with
  | SETEX key _ _ | SADD key _ | EXPIRE key _ | GET key | DEL key => key
  end.

(** The entry that [SaveSession] writes for a session. *)
Definition stored (s : SessionData) : redis_entry :=
  {| re_value := RString (Encoded s); re_ttl := Some 86400 |}.

(** What [GetSession] makes of the entry under a session key. *)
Definition decode (e : option redis_entry) : result SessionData :=
  match e with
  | None => Err (errors_New "session not found")
  | Some {| re_value := RString (Encoded sd) |} => Ok sd
  | Some {| re_value := RString (Malformed _) |} =>
      Err (Errorf "failed to unmarshal session data"
             (errors_New "invalid character"))
  | Some {| re_value := RSet _ |} =>
      Err (Errorf "failed to get session" (errors_New "Redis error"))
  end.

(** A run that talks to Redis only: the vector store is untouched, the
    requests [l] it logged are Redis commands, each used up one scheduled
    outcome, and only the keys of [keys] may have changed. *)
Definition redis_step (keys : list string) (l : list request) (w w' : world)
    : Prop :=
  vectors w' = vectors w ∧
  trace w' = (trace w ++ l)%list ∧
  Forall is_redis l ∧
  upstream w' = drop (length l) (upstream w) ∧
  ∀ k, k ∉ keys → redis w' !! k = redis w !! k.

(** The request [UpsertMemory] builds for an entry. *)
Definition upsert_request (memory : MemoryEntry) : UpsertRequest :=
  {| ur_ID := me_ID memory; ur_Vector := me_Embedding memory;
     ur_Metadata :=
       assign_all (me_Metadata memory)
         (<["ttl" := JNum (inject_Z (me_TTL memory))]>
            (<["timestamp" := JNum (inject_Z (Unix (me_Timestamp memory)))]>
               (<["content" := JStr (me_Content memory)]>
                  (<["user_id" := JStr (me_UserID memory)]> ∅)))) |}.

(** The message of a save: a fresh uuid, the role and content of the
    request, the time of the call. *)
Definition new_message (E : env) (req : SaveMemoryRequest) (w : world) : Message :=
  {| msg_ID := uuid_gen E (uuid_next w); msg_Role := smr_Role req;
     msg_Content := smr_Content req; msg_Timestamp := clock w |}.

(** The record the save hands to [SaveSession]: what [GetSession] read, or
    a new record when that read failed, with the message appended. *)
Definition pending_session (E : env) (req : SaveMemoryRequest) (w : world)
    : SessionData :=
  let session :=
    match (RedisClient.GetSession (smr_SessionID req) w).1 with
    | Ok session => session
    | Err _ =>
        {| sd_UserID := smr_UserID req; sd_SessionID := smr_SessionID req;
           sd_Messages := []; sd_Context := Some ∅;
           sd_LastActivity := clock w; sd_CreatedAt := clock w |}
    end in
  with_LastActivity (clock w)
    (with_Messages (sd_Messages session ++ [new_message E req w]) session).

(** The entry the save hands to [UpsertMemory]. *)
Definition pending_entry (E : env) (req : SaveMemoryRequest) (w : world)
    (embedding : list Q) : MemoryEntry :=
  {| me_ID := uuid_gen E (uuid_next w); me_UserID := smr_UserID req;
     me_Content := smr_Content req; me_Embedding := embedding;
     me_Metadata := <["role" := JStr (smr_Role req)]>
                      (<["session_id" := JStr (smr_SessionID req)]> ∅);
     me_Timestamp := clock w;
     me_TTL := 2592000 |}.

(** The record under a session key, when it can be read, is the record of
    that session. [SaveSession] files every record under its own id, so the
    records this system wrote are. *)
Definition session_consistent (sessionID : string) (w : world) : Prop :=
  ∀ sd, decode (redis w !! RedisClient.session_key sessionID) = Ok sd →
        sd_SessionID sd = sessionID.

(** The request [QueryMemories] sends. *)
Definition query_request (userID : string) (queryVector : list Q) (limit : Z)
    : QueryRequest :=
  {| qr_Vector := queryVector; qr_TopK := if limit <=? 0 then 10 else limit;
     qr_IncludeMetadata := true; qr_IncludeVectors := false;
     qr_Filter := VectorClient.user_filter userID |}.

(** The limit and the threshold a query works with. *)
Definition effective_limit (req : QueryMemoryRequest) : Z :=
  if qmr_Limit req <=? 0 then 10 else qmr_Limit req.

Definition effective_min_score (req : QueryMemoryRequest) : Q :=
  if Qle_bool (qmr_MinScore req) 0 then (1 # 2)%Q else qmr_MinScore req.

(** The session [SetSessionContext] saves: the context merged key by key,
    the last activity set to the time of the call. *)
Definition with_merged_context (context : gmap string jvalue) (now : Time)
    (session : SessionData) : SessionData :=
  with_LastActivity now
    (with_Context
       (Some (assign_all context (default ∅ (sd_Context session)))) session).

(** What the service reports for a memory it does not find. *)
Definition absent_report : error :=
  errors_New "memory not found or does not belong to the specified user".





(** The members of the session set of an owner, none when the key is
    absent or holds a string. *)
Definition listed (userID : string) (w : world) : gset string :=
  match redis w !! RedisClient.user_sessions_key userID with
  | Some {| re_value := RSet members |} => members
  | _ => ∅
  end.

(** The key of the owner's session set does not hold a string. *)
Definition set_key_free (userID : string) (w : world) : Prop :=
  ∀ v t, redis w !! RedisClient.user_sessions_key userID ≠
         Some {| re_value := RString v; re_ttl := t |}.

(** ** Scenarios

    A concrete environment and a few worlds on which the operations can be
    run: a dot-product index of dimension 2 whose filter is the equality on
    [user_id], a provider that embeds every non-empty text as (1, 0). *)

Module Scenario.

Definition dot (a b : list Q) : Q :=
  foldr Qplus 0%Q (zip_with Qmult a b).

Definition E0 : env :=
  {| similarity := dot;
     filter_holds := λ f md,
       match md ≫= (.!! "user_id") with
       | Some (JStr u) => String.eqb f (VectorClient.user_filter u)
       | _ => false
       end;
     index_dimension := Some 2;
     provider_data := λ text,
       if String.eqb text "" then [] else [[1%Q; 0%Q]];
     uuid_gen := λ n, "memory-" +:+ pretty n;
     cfg_EmbeddingProvider := "jina";
     cfg_OpenAIEmbeddingModel := "text-embedding-3-small" |}.

(** Nothing stored, every round trip served, the clock at 1700000000 s. *)
Definition w0 : world :=
  {| redis := ∅; vectors := ∅; vc_dimensions := 0;
     clock := 1700000000000000000; uuid_next := 0;
     upstream := []; trace := [] |}.

Definition with_upstream (os : list outcome) (w : world) : world :=
  {| redis := redis w; vectors := vectors w;
     vc_dimensions := vc_dimensions w; clock := clock w;
     uuid_next := uuid_next w; upstream := os; trace := trace w |}.

Definition alice_cat : SaveMemoryRequest :=
  {| smr_UserID := "alice"; smr_SessionID := "s1";
     smr_Content := "I have a cat"; smr_Role := "user" |}.

Definition alice_grey : SaveMemoryRequest :=
  {| smr_UserID := "alice"; smr_SessionID := "s1";
     smr_Content := "It is grey"; smr_Role := "user" |}.

(** The world after alice's first save. *)
Definition w1 : world := (MemoryService.SaveMemory E0 alice_cat w0).2.

(** The session record of [w1]. *)
Definition s1 : SessionData := pending_session E0 alice_cat w0.

Definition query_pet : QueryMemoryRequest :=
  {| qmr_UserID := "alice"; qmr_Query := "pet";
     qmr_Limit := 5; qmr_MinScore := (1 # 10)%Q |}.

Definition query_defaults : QueryMemoryRequest :=
  {| qmr_UserID := "alice"; qmr_Query := "pet";
     qmr_Limit := 0; qmr_MinScore := 0%Q |}.

(** A vector store with one entry long expired and one that is not. *)
Definition entry (timestamp ttl : Z) : vector_entry :=
  {| ve_Vector := [1%Q; 0%Q];
     ve_Metadata :=
       Some (<["ttl" := JNum (inject_Z ttl)]>
               (<["timestamp" := JNum (inject_Z timestamp)]>
                  (<["user_id" := JStr "alice"]> ∅))) |}.

Definition w_sweep : world :=
  set_vectors (λ _, <["old" := entry 1000 10]>
                      (<["new" := entry 1699999999 2592000]> ∅)) w0.


(** An index that reports a negative dimension. *)
Definition E_negative : env :=
  {| similarity := similarity E0; filter_holds := filter_holds E0;
     index_dimension := Some (-3);
     provider_data := provider_data E0; uuid_gen := uuid_gen E0;
     cfg_EmbeddingProvider := cfg_EmbeddingProvider E0;
     cfg_OpenAIEmbeddingModel := cfg_OpenAIEmbeddingModel E0 |}.

(** bob saves a memory after alice: the store holds a memory and a session
    of each. *)
Definition bob_dog : SaveMemoryRequest :=
  {| smr_UserID := "bob"; smr_SessionID := "s2";
     smr_Content := "I have a dog"; smr_Role := "user" |}.

Definition w_both : world := (MemoryService.SaveMemory E0 bob_dog w1).2.

(** An entry of alice whose own metadata names another owner. *)
Definition forged : MemoryEntry :=
  {| me_ID := "m-forged"; me_UserID := "alice"; me_Content := "note";
     me_Embedding := [1%Q; 0%Q];
     me_Metadata := {[ "user_id" := JStr "mallory" ]};
     me_Timestamp := 1700000000000000000; me_TTL := 60 |}.

Definition hello : Message :=
  {| msg_ID := "m-hello"; msg_Role := "assistant"; msg_Content := "Hello";
     msg_Timestamp := 1700000000000000000 |}.

(** The task that asks for the cleanup of alice's session. *)
Definition session_task : CleanupTask :=
  {| ct_TaskType := "cleanup_session"; ct_UserID := "s1";
     ct_Timestamp := 1700000000000000000; ct_TTL := 60 |}.

(** A dispatcher that has sent nothing and serves every request. *)
Definition q0 : qstash :=
  {| q_published := []; q_scheduled := []; q_upstream := [];
     q_clock := 1700000000000000000;
     q_id := λ n, "msg-" +:+ pretty n |}.

Definition callback : string := "https://memory.example/webhook/cleanup".

(** The request to clean up alice at once, and one that names no owner. *)
Definition cleanup_alice : ScheduleUserCleanupRequest :=
  {| sucr_CallbackURL := callback; sucr_UserID := "alice";
     sucr_DelaySeconds := 0 |}.

Definition cleanup_nobody : ScheduleUserCleanupRequest :=
  {| sucr_CallbackURL := callback; sucr_UserID := "";
     sucr_DelaySeconds := 0 |}.

End Scenario.

(** * Properties *)

(** ** Runs of the monad *)

Lemma bind_inv {A B} (m : M A) (f : A → M B) w r w' :
  (m ≫= f) w = (r, w') →
  (∃ e, m w = (Err e, w') ∧ r = Err e) ∨
  (∃ a w1, m w = (Ok a, w1) ∧ f a w1 = (r, w')).
Proof.
  unfold mbind, M_bind. destruct (m w) as [[a|e] w1]; intros H.
  - right. eauto.
  - left. inversion H; subst. eauto.
Qed.

Lemma wrap_inv {A} msg (m : M A) w r w' :
  wrap msg m w = (r, w') →
  (∃ a, m w = (Ok a, w') ∧ r = Ok a) ∨
  (∃ e, m w = (Err e, w') ∧ r = Err (annotate msg e)).
Proof.
  unfold wrap. destruct (m w) as [[a|e] w1]; intros H; inversion H; subst; eauto.
Qed.

Lemma bind_Ok {A B} (m : M A) (f : A → M B) w a w1 :
  m w = (Ok a, w1) → (m ≫= f) w = f a w1.
Proof. unfold mbind, M_bind. intros ->. reflexivity. Qed.

Lemma bind_Err {A B} (m : M A) (f : A → M B) w e w1 :
  m w = (Err e, w1) → (m ≫= f) w = (Err e, w1).
Proof. unfold mbind, M_bind. intros ->. reflexivity. Qed.

Lemma wrap_Ok {A} msg (m : M A) w a w1 :
  m w = (Ok a, w1) → wrap msg m w = (Ok a, w1).
Proof. unfold wrap. intros ->. reflexivity. Qed.

Lemma wrap_Err {A} msg (m : M A) w e w1 :
  m w = (Err e, w1) → wrap msg m w = (Err (annotate msg e), w1).
Proof. unfold wrap. intros ->. reflexivity. Qed.

(** ** Panics *)

Lemma annotate_error msg e :
  is_panic e = false → annotate msg e = Errorf msg e.
Proof. destruct e; [reflexivity..|intros H; discriminate H]. Qed.

Lemma annotate_no_panic msg e : is_panic e = false → is_panic (annotate msg e) = false.
Proof. intros H. rewrite annotate_error by exact H. reflexivity. Qed.

Lemma no_panic_ret {A} (a : A) : no_panic (mret a).
Proof. intros w e H. discriminate H. Qed.

Lemma no_panic_fail {A} e : is_panic e = false → no_panic (@fail A e).
Proof. intros He w e' [= <-]. exact He. Qed.

Lemma no_panic_bind {A B} (m : M A) (f : A → M B) :
  no_panic m → (∀ a, no_panic (f a)) → no_panic (m ≫= f).
Proof.
  intros Hm Hf w e. unfold mbind, M_bind.
  destruct (m w) as [[a|e1] w1] eqn:Hrun.
  - apply Hf.
  - intros [= <-]. apply (Hm w). by rewrite Hrun.
Qed.

Lemma no_panic_wrap {A} msg (m : M A) : no_panic m → no_panic (wrap msg m).
Proof.
  intros Hm w e. unfold wrap. destruct (m w) as [[a|e1] w1] eqn:Hrun;
    intros [= <-]. apply annotate_no_panic, (Hm w). by rewrite Hrun.
Qed.

Lemma no_panic_try {A} (m : M A) : no_panic m → no_panic (try m).
Proof.
  intros Hm w e. unfold try. destruct (m w) as [[a|e1] w1] eqn:Hrun;
    [intros H; discriminate H|].
  assert (He : is_panic e1 = false) by (apply (Hm w); by rewrite Hrun).
  destruct e1; first [discriminate He | intros H; discriminate H].
Qed.

Lemma no_panic_round_trip {A} rq (reply : world → result A) effect :
  (∀ w e, reply w = Err e → is_panic e = false) →
  no_panic (round_trip rq reply effect).
Proof.
  intros Hr w e. unfold round_trip.
  destruct (next_outcome w); cbn [fst]; [apply Hr|intros [= <-]; reflexivity..].
Qed.

Lemma no_panic_time_Now : no_panic time_Now.
Proof. intros w e H. discriminate H. Qed.

Lemma no_panic_uuid_New gen : no_panic (uuid_New gen).
Proof. intros w e H. discriminate H. Qed.

Lemma no_panic_run {A} (m : M A) w e w' :
  no_panic m → m w = (Err e, w') → is_panic e = false.
Proof. intros Hm Hrun. apply (Hm w). by rewrite Hrun. Qed.

(** The run of a wrapped operation that does not panic. *)
Lemma wrap_run {A} msg (m : M A) w :
  no_panic m →
  wrap msg m w =
    match m w with
    | (Ok a, w') => (Ok a, w')
    | (Err e, w') => (Err (Errorf msg e), w')
    end.
Proof.
  intros Hm. unfold wrap. destruct (m w) as [[a|e] w1] eqn:Hrun; [reflexivity|].
  by rewrite (annotate_error msg e (no_panic_run m w e w1 Hm Hrun)).
Qed.

Lemma try_run {A} (m : M A) w :
  no_panic m → try m w = (Ok (m w).1, (m w).2).
Proof.
  intros Hm. unfold try. destruct (m w) as [[a|e] w1] eqn:Hrun; [reflexivity|].
  pose proof (no_panic_run m w e w1 Hm Hrun) as He.
  destruct e; first [reflexivity | discriminate He].
Qed.

Create HintDb no_panic.
#[local] Hint Resolve no_panic_ret no_panic_bind no_panic_wrap no_panic_try
  no_panic_round_trip no_panic_time_Now no_panic_uuid_New : no_panic.
#[local] Hint Extern 1 (no_panic (fail _)) =>
  apply no_panic_fail; reflexivity : no_panic.
#[local] Hint Extern 1 (is_panic _ = false) => reflexivity : no_panic.

Ltac no_panic := solve [eauto 10 with no_panic].

(** The error of the run [H], wrapped: it is no panic. *)
Ltac plain_error H :=
  match type of H with
  | ?m ?w = (Err ?e, ?w') =>
      rewrite ?(annotate_error _ e (no_panic_run m w e w' ltac:(no_panic) H))
  end.

(** The requests to Redis, to the provider and to the index, and the
    operations made of them, end in a value or an error. *)
Lemma executeCommand_no_panic cmd : no_panic (RedisClient.executeCommand cmd).
Proof.
  apply no_panic_round_trip. intros w e.
  destruct (RedisClient.redis_exec cmd (redis w)).1; intros [= <-]. reflexivity.
Qed.
#[local] Hint Resolve executeCommand_no_panic : no_panic.

Lemma SaveSession_no_panic s : no_panic (RedisClient.SaveSession s).
Proof. unfold RedisClient.SaveSession. no_panic. Qed.

Lemma GetSession_no_panic sessionID : no_panic (RedisClient.GetSession sessionID).
Proof.
  unfold RedisClient.GetSession. apply no_panic_bind; [no_panic|].
  intros [|status|[sd|raw]|n]; unfold RedisClient.json_Unmarshal; no_panic.
Qed.

Lemma DeleteSession_no_panic sessionID :
  no_panic (RedisClient.DeleteSession sessionID).
Proof. unfold RedisClient.DeleteSession. no_panic. Qed.
#[local] Hint Resolve SaveSession_no_panic GetSession_no_panic
  DeleteSession_no_panic : no_panic.

Lemma UpdateSessionActivity_no_panic sessionID :
  no_panic (RedisClient.UpdateSessionActivity sessionID).
Proof.
  unfold RedisClient.UpdateSessionActivity. apply no_panic_bind; [no_panic|].
  intros session. apply no_panic_bind; [|no_panic].
  intros w e H. discriminate H.
Qed.

Lemma GenerateEmbedding_no_panic E text : no_panic (GenerateEmbedding E text).
Proof.
  unfold GenerateEmbedding. apply no_panic_round_trip. intros w e.
  destruct (provider_data E text); intros [= <-]. reflexivity.
Qed.

Lemma UpsertMemory_no_panic memory : no_panic (VectorClient.UpsertMemory memory).
Proof.
  unfold VectorClient.UpsertMemory. apply no_panic_wrap, no_panic_round_trip.
  intros w e H. discriminate H.
Qed.

Lemma QueryMemories_no_panic E userID queryVector limit minScore :
  no_panic (VectorClient.QueryMemories E userID queryVector limit minScore).
Proof.
  unfold VectorClient.QueryMemories. apply no_panic_bind; [|no_panic].
  apply no_panic_wrap, no_panic_round_trip. intros w e H. discriminate H.
Qed.

Lemma DeleteMemory_no_panic id : no_panic (VectorClient.DeleteMemory id).
Proof.
  unfold VectorClient.DeleteMemory. apply no_panic_wrap, no_panic_round_trip.
  intros w e H. discriminate H.
Qed.

Lemma GetDimensions_no_panic E : no_panic (VectorClient.GetDimensions E).
Proof.
  intros w e. unfold VectorClient.GetDimensions.
  destruct (0 <? vc_dimensions w); [intros H; discriminate H|].
  unfold mbind, M_bind, VectorClient.GetStats, wrap, round_trip, fail.
  destruct (next_outcome w), (index_dimension E) as [d|]; cbn;
    try (intros [= <-]; reflexivity).
  destruct (d =? 0); cbn; intros [= <-]; reflexivity.
Qed.
#[local] Hint Resolve UpdateSessionActivity_no_panic GenerateEmbedding_no_panic
  UpsertMemory_no_panic QueryMemories_no_panic DeleteMemory_no_panic
  GetDimensions_no_panic : no_panic.

Lemma next_outcome_at w : next_outcome w = outcome_at 0 w.
Proof. unfold next_outcome, outcome_at. destruct (upstream w); reflexivity. Qed.

Lemma outcome_at_tail i w w' :
  upstream w' = tail (upstream w) → outcome_at i w' = outcome_at (S i) w.
Proof.
  unfold outcome_at. intros ->. destruct (upstream w); simpl; [|reflexivity].
  destruct i; reflexivity.
Qed.

(** ** Redis round trips *)

Lemma redis_exec_other cmd db k :
  k ≠ cmd_key cmd → (RedisClient.redis_exec cmd db).2 !! k = db !! k.
Proof.
  intros Hk. destruct cmd as [key s v|key m|key s|key|key]; simpl in *.
  - destruct (s <=? 0); simpl; [reflexivity|]. by rewrite lookup_insert_ne.
  - destruct (db !! key) as [[[v|ms] t]|]; simpl; [reflexivity| |];
      by rewrite lookup_insert_ne.
  - destruct (db !! key); simpl; [|reflexivity]. by rewrite lookup_insert_ne.
  - destruct (db !! key) as [[[v|ms] t]|]; reflexivity.
  - by rewrite lookup_delete_ne.
Qed.

Lemma redis_exec_GET key db : (RedisClient.redis_exec (GET key) db).2 = db.
Proof. simpl. destruct (db !! key) as [[[v|ms] t]|]; reflexivity. Qed.

Lemma executeCommand_inv cmd w r w' :
  RedisClient.executeCommand cmd w = (r, w') →
  vectors w' = vectors w ∧ upstream w' = tail (upstream w) ∧
  trace w' = (trace w ++ [ReqRedis cmd])%list ∧
  (redis w' = redis w ∨ redis w' = (RedisClient.redis_exec cmd (redis w)).2) ∧
  (∀ a, r = Ok a →
     next_outcome w = Served ∧
     (RedisClient.redis_exec cmd (redis w)).1 = Some a ∧
     redis w' = (RedisClient.redis_exec cmd (redis w)).2).
Proof.
  unfold RedisClient.executeCommand, round_trip.
  destruct (next_outcome w) eqn:Ho; intros H; inversion H; subst; clear H; simpl;
    split_and!; auto; try discriminate.
  intros a Ha.
  destruct (RedisClient.redis_exec cmd (redis w)).1; inversion Ha; subst; auto.
Qed.

Lemma executeCommand_served cmd w :
  next_outcome w = Served →
  RedisClient.executeCommand cmd w =
    (match (RedisClient.redis_exec cmd (redis w)).1 with
     | Some r => Ok r
     | None => Err (errors_New "Redis error")
     end,
     set_redis (λ db, (RedisClient.redis_exec cmd db).2) (sent (ReqRedis cmd) w)).
Proof.
  intros Ho. unfold RedisClient.executeCommand, round_trip. rewrite Ho. reflexivity.
Qed.

Lemma keys_apart a b : RedisClient.session_key a ≠ RedisClient.user_sessions_key b.
Proof. unfold RedisClient.session_key, RedisClient.user_sessions_key. discriminate. Qed.


Lemma GetSession_run sessionID w :
  RedisClient.GetSession sessionID w =
    (match next_outcome w with
     | Served => decode (redis w !! RedisClient.session_key sessionID)
     | _ => Err (Errorf "failed to get session" (errors_New "request failed"))
     end,
     sent (ReqRedis (GET (RedisClient.session_key sessionID))) w).
Proof.
  unfold RedisClient.GetSession, RedisClient.executeCommand, round_trip,
    mbind, M_bind, wrap, fail, mret, M_ret.
  assert (Hid : ∀ k w0, set_redis (λ db, (RedisClient.redis_exec (GET k) db).2) w0 = w0).
  { intros k [rd vs vd ck un up tr]. unfold set_redis. simpl redis.
    rewrite redis_exec_GET. reflexivity. }
  destruct (next_outcome w); rewrite ?Hid; try reflexivity.
  simpl. destruct (redis w !! RedisClient.session_key sessionID)
    as [[[[sd|raw]|ms] t]|]; reflexivity.
Qed.

Lemma DeleteSession_run sessionID w :
  RedisClient.DeleteSession sessionID w =
    let key := RedisClient.session_key sessionID in
    match next_outcome w with
    | Served => (Ok (), set_redis (delete key) (sent (ReqRedis (DEL key)) w))
    | Rejected =>
        (Err (Errorf "failed to delete session" (errors_New "request failed")),
         sent (ReqRedis (DEL key)) w)
    | Unacked =>
        (Err (Errorf "failed to delete session" (errors_New "request failed")),
         set_redis (delete key) (sent (ReqRedis (DEL key)) w))
    end.
Proof.
  unfold RedisClient.DeleteSession, RedisClient.executeCommand, round_trip,
    mbind, M_bind, wrap, mret, M_ret.
  destruct (next_outcome w); reflexivity.
Qed.

(** ** Deleting a session *)

(** The service's [DeleteSession], whatever the flag, leaves the vector
    store alone, sends requests to Redis only and touches no key but the
    session's. *)
Lemma DeleteSession_frame sessionID deleteMemories w :
  let w' := (MemoryService.DeleteSession sessionID deleteMemories w).2 in
  vectors w' = vectors w ∧
  (∃ l, trace w' = (trace w ++ l)%list ∧ Forall is_redis l) ∧
  (redis w' = redis w ∨
   redis w' = delete (RedisClient.session_key sessionID) (redis w)).
Proof.
  unfold MemoryService.DeleteSession.
  destruct deleteMemories; unfold mbind, M_bind, wrap, mret, M_ret.
  - rewrite GetSession_run.
    destruct (match next_outcome w with Served => _ | _ => _ end) as [sd|e].
    + rewrite DeleteSession_run. cbv zeta.
      set (w1 := sent _ w).
      destruct (next_outcome w1); simpl; split_and!; auto;
        eexists [_; _]; rewrite <- app_assoc; (split; [reflexivity|]);
        repeat constructor.
    + simpl. split_and!; auto. eexists [_]. split; [reflexivity|].
      repeat constructor.
  - rewrite DeleteSession_run. cbv zeta.
    destruct (next_outcome w); simpl; split_and!; auto;
      eexists [_]; (split; [reflexivity|]); repeat constructor.
Qed.

(** C8. [DeleteSession] with the cascade flag set removes nothing but the
    session record: the vector store is the same afterwards, no request goes
    to the vector store, every other Redis key keeps its entry, and on
    success the session key is gone. *)
Theorem DeleteSession_cascade_is_noop sessionID w :
  let r := (MemoryService.DeleteSession sessionID true w).1 in
  let w' := (MemoryService.DeleteSession sessionID true w).2 in
  vectors w' = vectors w ∧
  (∃ l, trace w' = (trace w ++ l)%list ∧ Forall is_redis l) ∧
  (∀ k, k ≠ RedisClient.session_key sessionID → redis w' !! k = redis w !! k) ∧
  (r = Ok () →
   redis w' = delete (RedisClient.session_key sessionID) (redis w)).
Proof.
  intros r w'.
  destruct (DeleteSession_frame sessionID true w) as (Hv & Ht & Hr).
  fold w' in Hv, Ht, Hr. split_and!; auto.
  - intros k Hk. destruct Hr as [-> | ->]; [reflexivity|].
    by rewrite lookup_delete_ne.
  - subst r w'. unfold MemoryService.DeleteSession, mbind, M_bind, wrap, mret, M_ret.
    rewrite GetSession_run.
    destruct (match next_outcome w with Served => _ | _ => _ end) as [sd|e];
      [|discriminate].
    rewrite DeleteSession_run. cbv zeta.
    destruct (next_outcome (sent _ w)); simpl; [reflexivity|discriminate..].
Qed.

(** C10. When [GetSession] finds no readable record for the session,
    [DeleteSession] with the flag fails on that read: the only request is the
    GET, no DEL is issued and both stores are as before. Without the flag the
    DEL is sent at once and, when it is served, the call succeeds; on an
    absent key it changes nothing. *)
Theorem DeleteSession_of_unreadable_session sessionID w :
  is_Ok (RedisClient.GetSession sessionID w).1 = false →
  let key := RedisClient.session_key sessionID in
  (∃ e w',
     MemoryService.DeleteSession sessionID true w =
       (Err (Errorf "failed to get session" e), w') ∧
     trace w' = (trace w ++ [ReqRedis (GET key)])%list ∧
     redis w' = redis w ∧ vectors w' = vectors w) ∧
  (next_outcome w = Served →
   ∃ w',
     MemoryService.DeleteSession sessionID false w = (Ok (), w') ∧
     trace w' = (trace w ++ [ReqRedis (DEL key)])%list ∧
     redis w' = delete key (redis w) ∧ vectors w' = vectors w ∧
     (redis w !! key = None → redis w' = redis w)).
Proof.
  intros Hget key. split.
  - unfold MemoryService.DeleteSession, mbind, M_bind, wrap, mret, M_ret.
    destruct (RedisClient.GetSession sessionID w) as [[sd|e] w1] eqn:Hrun;
      [discriminate|].
    rewrite (annotate_error _ e
               (no_panic_run _ _ _ _ (GetSession_no_panic sessionID) Hrun)).
    rewrite GetSession_run in Hrun. inversion Hrun; subst.
    eexists _, _. split; [reflexivity|]. auto.
  - intros Ho.
    unfold MemoryService.DeleteSession, mbind, M_bind, wrap, mret, M_ret.
    rewrite DeleteSession_run, Ho. cbv zeta.
    eexists. split; [reflexivity|]. simpl. split_and!; auto.
    intros Hnone. by apply delete_id.
Qed.

(** ** Saving a session *)

Lemma redis_step_refl keys w : redis_step keys [] w w.
Proof.
  unfold redis_step. rewrite app_nil_r. split_and!; auto.
Qed.

Lemma redis_step_trans keys1 keys2 keys l1 l2 w1 w2 w3 :
  redis_step keys1 l1 w1 w2 → redis_step keys2 l2 w2 w3 →
  keys1 ⊆ keys → keys2 ⊆ keys →
  redis_step keys (l1 ++ l2) w1 w3.
Proof.
  intros (Hv1 & Ht1 & Hf1 & Hu1 & Hr1) (Hv2 & Ht2 & Hf2 & Hu2 & Hr2) Hs1 Hs2.
  unfold redis_step. split_and!.
  - congruence.
  - rewrite Ht2, Ht1. by rewrite app_assoc.
  - by apply Forall_app.
  - rewrite Hu2, Hu1, drop_drop, length_app. reflexivity.
  - intros k Hk. rewrite Hr2, Hr1; [reflexivity|..]; set_solver.
Qed.

Lemma executeCommand_step cmd w r w' :
  RedisClient.executeCommand cmd w = (r, w') →
  redis_step [cmd_key cmd] [ReqRedis cmd] w w'.
Proof.
  intros H. apply executeCommand_inv in H as (Hv & Hu & Ht & Hr & _).
  unfold redis_step. split_and!; [exact Hv|exact Ht|repeat constructor|..].
  - rewrite Hu. simpl. by destruct (upstream w).
  - intros k Hk. assert (k ≠ cmd_key cmd) by set_solver.
    destruct Hr as [-> | ->]; [reflexivity|]. by apply redis_exec_other.
Qed.

Lemma GetSession_step sessionID w :
  redis_step [] [ReqRedis (GET (RedisClient.session_key sessionID))] w
    (RedisClient.GetSession sessionID w).2.
Proof.
  rewrite GetSession_run. unfold redis_step. simpl.
  split_and!; [reflexivity|reflexivity|repeat constructor| |reflexivity].
  by destruct (upstream w).
Qed.

Lemma SaveSession_step s w r w' :
  RedisClient.SaveSession s w = (r, w') →
  ∃ l, redis_step [RedisClient.session_key (sd_SessionID s);
                   RedisClient.user_sessions_key (sd_UserID s)]
         (ReqRedis (SETEX (RedisClient.session_key (sd_SessionID s)) 86400
                      (Encoded s)) :: l) w w'.
Proof.
  unfold RedisClient.SaveSession. intros H.
  apply bind_inv in H as [(e & H1 & ->) | (a1 & w1 & H1 & H)];
    apply wrap_inv in H1 as [(b1 & H1 & ?) | (e1 & H1 & ?)]; simplify_eq;
    apply executeCommand_step in H1.
  { exists []. eapply (redis_step_trans _ _ _ [_] []);
      [exact H1|apply redis_step_refl|set_solver..]. }
  apply bind_inv in H as [(e & H2 & ->) | (a2 & w2 & H2 & H)];
    apply wrap_inv in H2 as [(b2 & H2 & ?) | (e2 & H2 & ?)]; simplify_eq;
    apply executeCommand_step in H2.
  { eexists [_]. eapply (redis_step_trans _ _ _ [_] [_]);
      [exact H1|exact H2|set_solver..]. }
  apply bind_inv in H as [(e & H3 & ->) | (a3 & w3 & H3 & H)];
    apply executeCommand_step in H3.
  - eexists [_; _]. eapply (redis_step_trans _ _ _ [_] [_; _]); [exact H1| |set_solver..].
    eapply (redis_step_trans _ _ _ [_] [_]); [exact H2|exact H3|set_solver..].
  - inversion H; subst.
    eexists [_; _]. eapply (redis_step_trans _ _ _ [_] [_; _]); [exact H1| |set_solver..].
    eapply (redis_step_trans _ _ _ [_] [_]); [exact H2|exact H3|set_solver..].
Qed.

(** A successful [SaveSession]: the three commands were served in turn and
    the session key holds the record with 86400 seconds to live. *)
Lemma SaveSession_Ok s w w' :
  RedisClient.SaveSession s w = (Ok (), w') →
  redis w' !! RedisClient.session_key (sd_SessionID s) = Some (stored s) ∧
  (∀ i, (i < 3)%nat → outcome_at i w = Served) ∧
  upstream w' = tail (tail (tail (upstream w))) ∧
  trace w' =
    (trace w ++
     [ReqRedis (SETEX (RedisClient.session_key (sd_SessionID s)) 86400 (Encoded s));
      ReqRedis (SADD (RedisClient.user_sessions_key (sd_UserID s)) (sd_SessionID s));
      ReqRedis (EXPIRE (RedisClient.user_sessions_key (sd_UserID s)) 86400)])%list.
Proof.
  unfold RedisClient.SaveSession. intros H.
  apply bind_inv in H as [(e & H1 & E1) | (a1 & w1 & H1 & H)]; [discriminate|].
  apply wrap_inv in H1 as [(b1 & H1 & E1) | (e1 & H1 & E1)]; [|discriminate].
  apply bind_inv in H as [(e & H2 & E2) | (a2 & w2 & H2 & H)]; [discriminate|].
  apply wrap_inv in H2 as [(b2 & H2 & E2) | (e2 & H2 & E2)]; [|discriminate].
  apply bind_inv in H as [(e & H3 & E3) | (a3 & w3 & H3 & H)]; [discriminate|].
  inversion H; subst; clear H.
  pose proof (executeCommand_step _ _ _ _ H2) as (_ & _ & _ & _ & Hk2).
  pose proof (executeCommand_step _ _ _ _ H3) as (_ & _ & _ & _ & Hk3).
  apply executeCommand_inv in H1 as (_ & Hu1 & Ht1 & _ & Hok1).
  apply executeCommand_inv in H2 as (_ & Hu2 & Ht2 & _ & Hok2).
  apply executeCommand_inv in H3 as (_ & Hu3 & Ht3 & _ & Hok3).
  destruct (Hok1 _ eq_refl) as (Ho1 & _ & Hr1).
  destruct (Hok2 _ eq_refl) as (Ho2 & _ & _).
  destruct (Hok3 _ eq_refl) as (Ho3 & _ & _).
  split_and!.
  - simpl in Hk2, Hk3. rewrite Hk3, Hk2, Hr1.
    + simpl. apply lookup_insert_eq.
    + pose proof (keys_apart (sd_SessionID s) (sd_UserID s)). set_solver.
    + pose proof (keys_apart (sd_SessionID s) (sd_UserID s)). set_solver.
  - rewrite next_outcome_at in Ho1, Ho2, Ho3.
    rewrite (outcome_at_tail _ _ _ Hu1) in Ho2.
    rewrite (outcome_at_tail _ _ _ Hu2), (outcome_at_tail _ _ _ Hu1) in Ho3.
    intros [|[|[|i]]] Hi; auto. lia.
  - congruence.
  - rewrite Ht3, Ht2, Ht1. by rewrite <- !app_assoc.
Qed.

(** ** Embedding and vector round trips *)

Lemma assign_all_lookup {V} (src dst : gmap string V) k :
  assign_all src dst !! k =
    match src !! k with
    | Some v => Some v
    | None => dst !! k
    end.
Proof.
  unfold assign_all. revert k.
  apply (map_fold_weak_ind
           (λ acc (m : gmap string V), ∀ k,
              acc !! k = match m !! k with Some v => Some v | None => dst !! k end)).
  - intros k. by rewrite lookup_empty.
  - intros i x m acc Hi IH k. destruct (decide (i = k)) as [->|Hne].
    + by rewrite !lookup_insert_eq.
    + rewrite !lookup_insert_ne by done. apply IH.
Qed.

Lemma GenerateEmbedding_run E text w :
  GenerateEmbedding E text w =
    (match next_outcome w with
     | Served =>
         match provider_data E text with
         | [] => Err (errors_New "no embeddings returned")
         | embedding :: _ => Ok embedding
         end
     | _ => Err (errors_New "request failed")
     end,
     sent (ReqEmbed text) w).
Proof.
  unfold GenerateEmbedding, round_trip. destruct (next_outcome w); reflexivity.
Qed.

Lemma UpsertMemory_inv memory w r w' :
  VectorClient.UpsertMemory memory w = (r, w') →
  redis w' = redis w ∧ upstream w' = tail (upstream w) ∧
  trace w' = (trace w ++ [ReqUpsert (upsert_request memory)])%list ∧
  (r = Ok () →
   next_outcome w = Served ∧
   vectors w' = VectorClient.index_upsert (upsert_request memory) (vectors w)).
Proof.
  unfold VectorClient.UpsertMemory, wrap, round_trip. fold (upsert_request memory).
  destruct (next_outcome w); intros H; inversion H; subst; simpl;
    split_and!; auto; discriminate.
Qed.

(** ** Saving a memory *)

Lemma SaveMemory_run E req w :
  let w2 := sent (ReqRedis (GET (RedisClient.session_key (smr_SessionID req))))
              (set_uuid_next (S (uuid_next w)) w) in
  MemoryService.SaveMemory E req w =
    match RedisClient.SaveSession (pending_session E req w) w2 with
    | (Err e, w3) => (Err (Errorf "failed to save session" e), w3)
    | (Ok _, w3) =>
        match GenerateEmbedding E (smr_Content req) w3 with
        | (Err e, w4) => (Err (Errorf "failed to generate embedding" e), w4)
        | (Ok embedding, w4) =>
            match VectorClient.UpsertMemory (pending_entry E req w embedding) w4 with
            | (Err e, w5) => (Err (Errorf "failed to save vector memory" e), w5)
            | (Ok _, w5) => (Ok (), w5)
            end
        end
    end.
Proof.
  intros w2.
  unfold MemoryService.SaveMemory, mbind, M_bind, mret, M_ret, time_Now, uuid_New.
  rewrite try_run by no_panic. rewrite GetSession_run. cbn [fst snd].
  unfold pending_session. rewrite GetSession_run. cbn [fst snd].
  fold w2. change (next_outcome (set_uuid_next (S (uuid_next w)) w))
    with (next_outcome w).
  change (redis (set_uuid_next (S (uuid_next w)) w)) with (redis w).
  unfold wrap.
  destruct (RedisClient.SaveSession _ w2) as [[[]|e] w3] eqn:H1;
    [|plain_error H1; reflexivity].
  destruct (GenerateEmbedding E (smr_Content req) w3) as [[emb|e] w4] eqn:H2;
    [|plain_error H2; reflexivity].
  change (30 * 24 * 60 * 60) with 2592000.
  fold (new_message E req w). fold (pending_entry E req w emb).
  destruct (VectorClient.UpsertMemory _ w4) as [[[]|e] w5] eqn:H3;
    [|plain_error H3]; reflexivity.
Qed.

Lemma SaveMemory_Ok_inv E req w w' :
  MemoryService.SaveMemory E req w = (Ok (), w') →
  let w2 := sent (ReqRedis (GET (RedisClient.session_key (smr_SessionID req))))
              (set_uuid_next (S (uuid_next w)) w) in
  ∃ w3 w4 embedding,
    RedisClient.SaveSession (pending_session E req w) w2 = (Ok (), w3) ∧
    GenerateEmbedding E (smr_Content req) w3 = (Ok embedding, w4) ∧
    VectorClient.UpsertMemory (pending_entry E req w embedding) w4 = (Ok (), w').
Proof.
  rewrite SaveMemory_run. cbv zeta.
  destruct (RedisClient.SaveSession _ _) as [[[]|e] w3] eqn:Hss; [|discriminate].
  destruct (GenerateEmbedding _ _ w3) as [[emb|e] w4] eqn:Hemb; [|discriminate].
  destruct (VectorClient.UpsertMemory _ w4) as [[[]|e] w5] eqn:Hup; [|discriminate].
  intros [= <-]. exists w3, w4, emb. auto.
Qed.

Lemma outcome_at_tail_eq i l w' :
  upstream w' = tail l → outcome_at i w' = nth (S i) l Served.
Proof.
  unfold outcome_at. intros ->. destruct l; simpl; [|reflexivity].
  destruct i; reflexivity.
Qed.

Lemma nth_tail {A} i (l : list A) d : nth i (tail l) d = nth (S i) l d.
Proof. destruct l; simpl; [|reflexivity]. destruct i; reflexivity. Qed.

(** A successful save was served at each of its five writes. *)
Lemma SaveMemory_Ok_served E req w w' :
  MemoryService.SaveMemory E req w = (Ok (), w') →
  ∀ i, (1 ≤ i ≤ 5)%nat → outcome_at i w = Served.
Proof.
  intros H. apply SaveMemory_Ok_inv in H as (w3 & w4 & emb & Hss & Hemb & Hup).
  apply SaveSession_Ok in Hss as (_ & Ho123 & Hu3 & _).
  rewrite GenerateEmbedding_run in Hemb.
  apply UpsertMemory_inv in Hup as (_ & _ & _ & Hok).
  destruct (Hok eq_refl) as (Ho5 & _). clear Hok.
  assert (Ho4 : next_outcome w3 = Served).
  { destruct (next_outcome w3); [reflexivity|inversion Hemb..]. }
  assert (Hw4 : w4 = sent (ReqEmbed (smr_Content req)) w3) by congruence.
  rewrite next_outcome_at in Ho4, Ho5. unfold outcome_at in *.
  rewrite Hw4 in Ho5. simpl in Ho5, Hu3, Ho123. rewrite Hu3 in Ho4, Ho5.
  rewrite !nth_tail in Ho4, Ho5.
  intros i Hi.
  assert (i = 1 ∨ i = 2 ∨ i = 3 ∨ i = 4 ∨ i = 5)%nat as [->|[->|[->|[->| ->]]]]
    by lia.
  - specialize (Ho123 0%nat ltac:(lia)). by rewrite nth_tail in Ho123.
  - specialize (Ho123 1%nat ltac:(lia)). by rewrite nth_tail in Ho123.
  - specialize (Ho123 2%nat ltac:(lia)). by rewrite nth_tail in Ho123.
  - exact Ho4.
  - by rewrite nth_tail in Ho5.
Qed.

Lemma pending_session_id E req w :
  session_consistent (smr_SessionID req) w →
  sd_SessionID (pending_session E req w) = smr_SessionID req.
Proof.
  intros Hc. unfold pending_session. rewrite GetSession_run. cbn [fst].
  destruct (next_outcome w); try reflexivity.
  destruct (decode _) as [sd|e] eqn:Hd; [|reflexivity]. simpl. by apply Hc.
Qed.

Lemma pending_session_messages E req w :
  ∃ prior, sd_Messages (pending_session E req w) =
           (prior ++ [new_message E req w])%list.
Proof. unfold pending_session. simpl. eauto. Qed.

(** C1. The failure semantics of a save. A write that is not served (the
    three Redis commands of [SaveSession], the embedding request, the
    upsert) makes the save fail. When the failure is that of persisting the
    session, the vector store is as before and the save has sent requests to
    Redis only: no embedding was asked for, nothing was upserted. When it is
    that of the embedding or of the upsert, the session key still holds the
    record that ends with the new message. There is no other error. *)
Theorem SaveMemory_failure_semantics E req w :
  let r := (MemoryService.SaveMemory E req w).1 in
  let w' := (MemoryService.SaveMemory E req w).2 in
  (∀ i, (1 ≤ i ≤ 5)%nat → outcome_at i w ≠ Served → is_Ok r = false) ∧
  (∀ e, r = Err (Errorf "failed to save session" e) →
     vectors w' = vectors w ∧
     ∃ l, trace w' = (trace w ++ l)%list ∧ Forall is_redis l) ∧
  (∀ e, r = Err (Errorf "failed to generate embedding" e) ∨
        r = Err (Errorf "failed to save vector memory" e) →
     ∃ session prior,
       redis w' !! RedisClient.session_key (sd_SessionID session) =
         Some {| re_value := RString (Encoded session); re_ttl := Some 86400 |} ∧
       sd_Messages session = (prior ++ [new_message E req w])%list ∧
       (session_consistent (smr_SessionID req) w →
        sd_SessionID session = smr_SessionID req)) ∧
  (∀ e, r = Err e →
     ∃ cause, e = Errorf "failed to save session" cause ∨
              e = Errorf "failed to generate embedding" cause ∨
              e = Errorf "failed to save vector memory" cause).
Proof.
  intros r w'. subst r w'. split.
  { intros i Hi Hne.
    destruct (MemoryService.SaveMemory E req w) as [[[]|e] w1] eqn:H;
      [|reflexivity].
    exfalso. apply Hne. eapply SaveMemory_Ok_served; eauto. }
  rewrite SaveMemory_run. cbv zeta.
  destruct (RedisClient.SaveSession _ _) as [[[]|e3] w3] eqn:Hss.
  2:{ (* the session was not persisted *)
    cbn [fst snd]. split_and!.
    - intros e _. apply SaveSession_step in Hss as (l & Hv & Ht & Hf & _).
      split; [exact Hv|]. eexists (_ :: _ :: l).
      split; [rewrite Ht; simpl; by rewrite <- app_assoc|].
      constructor; [exact I|exact Hf].
    - intros e [|]; discriminate.
    - intros e [= <-]. eauto. }
  apply SaveSession_Ok in Hss as (Hkey & _ & _ & _).
  rewrite GenerateEmbedding_run.
  assert (Hkeep : ∀ w5,
            redis w5 = redis w3 →
            ∃ session prior,
              redis w5 !! RedisClient.session_key (sd_SessionID session) =
                Some {| re_value := RString (Encoded session);
                        re_ttl := Some 86400 |} ∧
              sd_Messages session = (prior ++ [new_message E req w])%list ∧
              (session_consistent (smr_SessionID req) w →
               sd_SessionID session = smr_SessionID req)).
  { intros w5 Hr. destruct (pending_session_messages E req w) as [prior Hm].
    exists (pending_session E req w), prior. rewrite Hr.
    split_and!; [exact Hkey|exact Hm|apply pending_session_id]. }
  set (w4 := sent (ReqEmbed (smr_Content req)) w3).
  destruct (match next_outcome w3 with Served => _ | _ => _ end) as [emb|e4].
  2:{ cbn [fst snd]. split_and!.
      - intros e; discriminate.
      - intros e _. by apply (Hkeep w4).
      - intros e [= <-]. eauto. }
  destruct (VectorClient.UpsertMemory _ w4) as [[[]|e5] w5] eqn:Hup;
    cbn [fst snd]; apply UpsertMemory_inv in Hup as (Hr & _); split_and!.
  - intros e; discriminate.
  - intros e [|]; discriminate.
  - intros e; discriminate.
  - intros e; discriminate.
  - intros e _. apply (Hkeep w5). by rewrite Hr.
  - intros e [= <-]. eauto.
Qed.

(** Lookups of literal keys in maps built by inserts. *)
Ltac map_lookup :=
  repeat rewrite lookup_insert_ne
    by (let H := fresh in intros H; discriminate H);
  repeat rewrite lookup_insert_eq;
  repeat rewrite lookup_empty.

Lemma upsert_request_metadata E req w embedding :
  let md := ur_Metadata (upsert_request (pending_entry E req w embedding)) in
  md !! "session_id" = Some (JStr (smr_SessionID req)) ∧
  md !! "role" = Some (JStr (smr_Role req)) ∧
  md !! "ttl" = Some (JNum (inject_Z 2592000)) ∧
  md !! "user_id" = Some (JStr (smr_UserID req)) ∧
  md !! "content" = Some (JStr (smr_Content req)) ∧
  md !! "timestamp" = Some (JNum (inject_Z (Unix (clock w)))).
Proof.
  cbv zeta. unfold upsert_request, pending_entry. cbn [ur_Metadata me_Metadata
    me_TTL me_Timestamp me_Content me_UserID].
  rewrite !assign_all_lookup. split_and!; map_lookup; reflexivity.
Qed.

(** C3. After a successful save the vector store holds, under the id of
    the message appended to the session, the embedding of the content with
    metadata naming the session and the role and a ttl of 2592000 seconds
    (the entry handed to [UpsertMemory] has that id, embedding and ttl); the
    session key holds the record ending with that message, with 86400
    seconds to live. *)
Theorem SaveMemory_success E req w w' :
  MemoryService.SaveMemory E req w = (Ok (), w') →
  let id := uuid_gen E (uuid_next w) in
  ∃ (entry : MemoryEntry) (metadata : gmap string jvalue)
    (session : SessionData) (prior : list Message),
    head (provider_data E (smr_Content req)) = Some (me_Embedding entry) ∧
    me_ID entry = id ∧ me_TTL entry = 30 * 24 * 60 * 60 ∧
    me_TTL entry = 2592000 ∧
    me_Metadata entry !! "session_id" = Some (JStr (smr_SessionID req)) ∧
    me_Metadata entry !! "role" = Some (JStr (smr_Role req)) ∧
    last (trace w') =
      Some (ReqUpsert {| ur_ID := id; ur_Vector := me_Embedding entry;
                         ur_Metadata := metadata |}) ∧
    vectors w' !! id =
      Some {| ve_Vector := me_Embedding entry; ve_Metadata := Some metadata |} ∧
    metadata !! "session_id" = Some (JStr (smr_SessionID req)) ∧
    metadata !! "role" = Some (JStr (smr_Role req)) ∧
    metadata !! "ttl" = Some (JNum (inject_Z 2592000)) ∧
    redis w' !! RedisClient.session_key (sd_SessionID session) =
      Some {| re_value := RString (Encoded session); re_ttl := Some 86400 |} ∧
    sd_Messages session =
      (prior ++ [{| msg_ID := id; msg_Role := smr_Role req;
                    msg_Content := smr_Content req;
                    msg_Timestamp := clock w |}])%list.
Proof.
  intros H id.
  apply SaveMemory_Ok_inv in H as (w3 & w4 & emb & Hss & Hemb & Hup).
  apply SaveSession_Ok in Hss as (Hkey & _).
  rewrite GenerateEmbedding_run in Hemb.
  apply UpsertMemory_inv in Hup as (Hr & _ & Ht & Hok).
  destruct (Hok eq_refl) as (_ & Hv). clear Hok.
  destruct (upsert_request_metadata E req w emb) as (Hsid & Hrole & Httl & _).
  destruct (pending_session_messages E req w) as [prior Hm].
  exists (pending_entry E req w emb),
    (ur_Metadata (upsert_request (pending_entry E req w emb))),
    (pending_session E req w), prior.
  split_and!; [|reflexivity|reflexivity|reflexivity| | | | |
                exact Hsid|exact Hrole|exact Httl| |exact Hm].
  - destruct (next_outcome w3); [|discriminate Hemb..].
    destruct (provider_data E (smr_Content req)); [discriminate Hemb|].
    injection Hemb as -> _. reflexivity.
  - unfold pending_entry. cbn [me_Metadata]. map_lookup. reflexivity.
  - unfold pending_entry. cbn [me_Metadata]. map_lookup. reflexivity.
  - rewrite Ht, last_snoc. reflexivity.
  - rewrite Hv. unfold VectorClient.index_upsert.
    change (ur_ID (upsert_request (pending_entry E req w emb))) with id.
    rewrite lookup_insert_eq. cbn [ur_Vector upsert_request].
    destruct (map_to_list _) eqn:Hl; [|reflexivity].
    apply map_to_list_empty_iff in Hl. rewrite Hl, lookup_empty in Httl.
    discriminate Httl.
  - rewrite Hr. assert (w4 = sent (ReqEmbed (smr_Content req)) w3) as ->
      by congruence. exact Hkey.
Qed.




(** ** Querying memories *)

Lemma collect_spec minScore matches results :
  VectorClient.collect minScore matches results =
    (results ++
     (VectorClient.to_result <$>
        List.filter (λ m, Qle_bool minScore (qm_Score m)) matches))%list.
Proof.
  revert results. induction matches as [|m ms IH]; intros results; simpl.
  - by rewrite app_nil_r.
  - unfold Qltb. destruct (Qle_bool minScore (qm_Score m)); simpl.
    + rewrite IH, <- app_assoc. reflexivity.
    + apply IH.
Qed.

Lemma QueryMemories_run E userID queryVector limit minScore w :
  VectorClient.QueryMemories E userID queryVector limit minScore w =
    (match next_outcome w with
     | Served =>
         Ok (VectorClient.to_result <$>
               List.filter (λ m, Qle_bool minScore (qm_Score m))
                 (VectorClient.index_query E
                    (query_request userID queryVector limit) (vectors w)))
     | _ => Err (Errorf "failed to query memories" (errors_New "request failed"))
     end,
     sent (ReqQuery (query_request userID queryVector limit)) w).
Proof.
  unfold VectorClient.QueryMemories, mbind, M_bind, wrap, round_trip, mret, M_ret.
  fold (query_request userID queryVector limit).
  destruct (next_outcome w); try reflexivity.
  rewrite collect_spec. reflexivity.
Qed.

Lemma effective_limit_positive req : 0 < effective_limit req.
Proof. unfold effective_limit. destruct (Z.leb_spec (qmr_Limit req) 0); lia. Qed.

Lemma query_request_effective userID queryVector req :
  query_request userID queryVector (effective_limit req) =
    {| qr_Vector := queryVector; qr_TopK := effective_limit req;
       qr_IncludeMetadata := true; qr_IncludeVectors := false;
       qr_Filter := VectorClient.user_filter userID |}.
Proof.
  unfold query_request. pose proof (effective_limit_positive req).
  destruct (Z.leb_spec (effective_limit req) 0); [lia|reflexivity].
Qed.

Lemma QueryMemory_run E req w :
  MemoryService.QueryMemory E req w =
    match GenerateEmbedding E (qmr_Query req) w with
    | (Err e, w1) => (Err (Errorf "failed to generate query embedding" e), w1)
    | (Ok queryEmbedding, w1) =>
        match VectorClient.QueryMemories E (qmr_UserID req) queryEmbedding
                (effective_limit req) (effective_min_score req) w1 with
        | (Err e, w2) => (Err (Errorf "failed to query memories" e), w2)
        | (Ok results, w2) =>
            (Ok {| resp_Results := results;
                   resp_Total := Z.of_nat (length results) |}, w2)
        end
    end.
Proof.
  unfold MemoryService.QueryMemory, mbind, M_bind, wrap, mret, M_ret.
  fold (effective_limit req). unfold Qleb. fold (effective_min_score req).
  destruct (GenerateEmbedding E (qmr_Query req) w) as [[emb|e] w1] eqn:H1;
    [|plain_error H1; reflexivity].
  destruct (VectorClient.QueryMemories _ _ _ _ _ w1) as [[rs|e] w2] eqn:H2;
    [|plain_error H2]; reflexivity.
Qed.

(** The matches of the index carry distinct ids, each the key of a stored
    vector whose metadata the match carries. *)
Lemma index_query_sound E r idx m :
  m ∈ VectorClient.index_query E r idx →
  ∃ e, idx !! qm_ID m = Some e ∧
       m = VectorClient.to_match E r (qm_ID m, e).
Proof.
  unfold VectorClient.index_query. intros Hm.
  apply (λ H, elem_of_sublist _ _ _ H (sublist_take _ _)) in Hm.
  rewrite merge_sort_Permutation in Hm.
  apply list_elem_of_fmap in Hm as ([k e] & -> & Hin).
  apply list_elem_of_In, filter_In in Hin as [Hin _].
  apply list_elem_of_In, elem_of_map_to_list in Hin. simpl. eauto.
Qed.

Lemma filter_sublist {A} (p : A → bool) (l : list A) :
  List.filter p l `sublist_of` l.
Proof.
  induction l as [|x l IH]; simpl; [constructor|].
  destruct (p x); by constructor.
Qed.

Lemma index_query_NoDup E r idx :
  NoDup (qm_ID <$> VectorClient.index_query E r idx).
Proof.
  unfold VectorClient.index_query.
  eapply sublist_NoDup; [|apply fmap_sublist, sublist_take].
  rewrite merge_sort_Permutation, <- list_fmap_compose.
  eapply sublist_NoDup; [|apply fmap_sublist, filter_sublist].
  apply (NoDup_fst_map_to_list idx).
Qed.

Lemma to_result_id m :
  mr_Metadata (VectorClient.to_result m) !! "id" = Some (JStr (qm_ID m)).
Proof.
  unfold VectorClient.to_result. cbn [mr_Metadata].
  destruct (qm_Metadata m); simpl; apply lookup_insert_eq.
Qed.

Lemma results_NoDup (p : QueryMatch → bool) (matches : list QueryMatch) :
  NoDup (qm_ID <$> matches) →
  NoDup ((λ result, mr_Metadata result !! "id") <$>
           (VectorClient.to_result <$> List.filter p matches)).
Proof.
  intros Hnd. rewrite <- list_fmap_compose.
  rewrite (list_fmap_ext _ ((λ id, Some (JStr id)) ∘ qm_ID) (List.filter p matches))
    by (intros i m _; apply to_result_id).
  rewrite list_fmap_compose. apply NoDup_fmap_2.
  - intros a b [= ->]. reflexivity.
  - eapply sublist_NoDup; [exact Hnd|apply fmap_sublist, filter_sublist].
Qed.

(** C2. A successful query works with limit 10 when the requested limit is
    not positive and with threshold 0.5 when the requested threshold is not
    positive. It asks the index for that many matches of the embedding of the
    query text among the owner's vectors, and its results are the matches of
    the index whose score is not below the threshold, one result per match,
    in the order of the index: every score is at least the threshold and no
    id occurs twice. *)
Theorem QueryMemory_results E req w response w' :
  MemoryService.QueryMemory E req w = (Ok response, w') →
  let limit := if qmr_Limit req <=? 0 then 10 else qmr_Limit req in
  let minScore :=
    if Qle_bool (qmr_MinScore req) 0 then (1 # 2)%Q else qmr_MinScore req in
  ∃ (queryEmbedding : list Q) (matches : list QueryMatch),
    let request :=
      {| qr_Vector := queryEmbedding; qr_TopK := limit;
         qr_IncludeMetadata := true; qr_IncludeVectors := false;
         qr_Filter := VectorClient.user_filter (qmr_UserID req) |} in
    head (provider_data E (qmr_Query req)) = Some queryEmbedding ∧
    last (trace w') = Some (ReqQuery request) ∧
    matches = VectorClient.index_query E request (vectors w) ∧
    resp_Results response =
      (VectorClient.to_result <$>
         List.filter (λ m, Qle_bool minScore (qm_Score m)) matches) ∧
    mr_Score <$> resp_Results response =
      List.filter (Qle_bool minScore) (qm_Score <$> matches) ∧
    Forall (λ result, (minScore <= mr_Score result)%Q) (resp_Results response) ∧
    NoDup ((λ result, mr_Metadata result !! "id") <$> resp_Results response) ∧
    resp_Total response = Z.of_nat (length (resp_Results response)) ∧
    (length (resp_Results response) ≤ Z.to_nat limit)%nat.
Proof.
  rewrite QueryMemory_run, GenerateEmbedding_run. intros H limit minScore.
  set (w1 := sent (ReqEmbed (qmr_Query req)) w) in H.
  destruct (next_outcome w); [|discriminate H..].
  destruct (provider_data E (qmr_Query req)) as [|emb rest]; [discriminate H|].
  rewrite QueryMemories_run in H.
  destruct (next_outcome w1); [|discriminate H..].
  rewrite query_request_effective in H. injection H as <- <-.
  subst limit minScore.
  fold (effective_limit req) (effective_min_score req).
  set (limit := effective_limit req). set (minScore := effective_min_score req).
  set (request := {| qr_Vector := emb; qr_TopK := limit;
                     qr_IncludeMetadata := true; qr_IncludeVectors := false;
                     qr_Filter := VectorClient.user_filter (qmr_UserID req) |}).
  exists emb, (VectorClient.index_query E request (vectors w)).
  cbv zeta. fold request. cbn [resp_Results resp_Total].
  change (vectors w1) with (vectors w).
  set (matches := VectorClient.index_query E request (vectors w)).
  split_and!; try reflexivity.
  - simpl. apply last_snoc.
  - rewrite <- list_fmap_compose. clearbody matches.
    induction matches as [|m ms IH]; [reflexivity|].
    rewrite fmap_cons. cbn [List.filter].
    destruct (Qle_bool minScore (qm_Score m)); rewrite ?fmap_cons, IH;
      reflexivity.
  - apply Forall_fmap, Forall_forall. intros m Hm.
    apply list_elem_of_In, filter_In in Hm as [_ Hm]. simpl.
    by apply Qle_bool_iff.
  - apply results_NoDup, index_query_NoDup.
  - rewrite length_fmap.
    etransitivity; [apply sublist_length, filter_sublist|].
    unfold matches, VectorClient.index_query. rewrite length_take. simpl. lia.
Qed.

(** C9. A query fails exactly when generating the embedding fails or,
    the embedding generated, the query of the vector store fails. When both
    succeed and the index returns no match, or only matches below the
    threshold, the query succeeds with an empty result list and total 0. *)
Theorem QueryMemory_error_iff E req w :
  let r := (MemoryService.QueryMemory E req w).1 in
  let embedding := GenerateEmbedding E (qmr_Query req) w in
  let limit := if qmr_Limit req <=? 0 then 10 else qmr_Limit req in
  let minScore :=
    if Qle_bool (qmr_MinScore req) 0 then (1 # 2)%Q else qmr_MinScore req in
  (is_Ok r = false ↔
     is_Ok embedding.1 = false ∨
     ∃ queryEmbedding,
       embedding.1 = Ok queryEmbedding ∧
       is_Ok (VectorClient.QueryMemories E (qmr_UserID req) queryEmbedding
                limit minScore embedding.2).1 = false) ∧
  (∀ queryEmbedding,
     embedding.1 = Ok queryEmbedding →
     next_outcome embedding.2 = Served →
     let request :=
       {| qr_Vector := queryEmbedding; qr_TopK := limit;
          qr_IncludeMetadata := true; qr_IncludeVectors := false;
          qr_Filter := VectorClient.user_filter (qmr_UserID req) |} in
     Forall (λ m, (qm_Score m < minScore)%Q)
       (VectorClient.index_query E request (vectors w)) →
     MemoryService.QueryMemory E req w =
       (Ok {| resp_Results := []; resp_Total := 0 |},
        sent (ReqQuery request) embedding.2)).
Proof.
  intros r embedding limit minScore. subst r embedding limit minScore.
  fold (effective_limit req) (effective_min_score req).
  rewrite QueryMemory_run.
  destruct (GenerateEmbedding E (qmr_Query req) w) as [[emb|e] w1] eqn:Hemb;
    cbn [fst snd].
  2:{ split; [|intros q Hq; discriminate Hq].
      split; [by left|reflexivity]. }
  split.
  - destruct (VectorClient.QueryMemories _ _ _ _ _ w1) as [[rs|e] w2] eqn:Hq;
      cbn [fst snd]; split.
    + intros H; discriminate H.
    + intros [H|(q & [= <-] & H)]; [discriminate H|].
      rewrite Hq in H. discriminate H.
    + intros _. right. exists emb. rewrite Hq. auto.
    + reflexivity.
  - intros q [= <-] Ho. cbv zeta. intros Hlow.
    rewrite QueryMemories_run, Ho, query_request_effective.
    assert (w1 = sent (ReqEmbed (qmr_Query req)) w) as Hw1.
    { rewrite GenerateEmbedding_run in Hemb. congruence. }
    assert (Hv : vectors w1 = vectors w) by (rewrite Hw1; reflexivity).
    rewrite Hv.
    set (matches := VectorClient.index_query E _ (vectors w)) in *.
    assert (Hnone : List.filter
              (λ m, Qle_bool (effective_min_score req) (qm_Score m)) matches = []).
    { clearbody matches. induction Hlow as [|m ms Hm _ IH]; [reflexivity|].
      cbn [List.filter].
      destruct (Qle_bool _ (qm_Score m)) eqn:Hle; [|exact IH].
      apply Qle_bool_iff in Hle. exfalso. by apply (Qlt_not_le _ _ Hm). }
    rewrite Hnone. reflexivity.
Qed.

(** ** Session context *)

Lemma next_outcome_calm w : upstream w = [] → next_outcome w = Served.
Proof. unfold next_outcome. by intros ->. Qed.

(** With every round trip served, [SaveSession] succeeds unless the key of
    the owner's session set holds a string. *)
Lemma SaveSession_calm s w :
  upstream w = [] →
  (∀ v t, redis w !! RedisClient.user_sessions_key (sd_UserID s) ≠
          Some {| re_value := RString v; re_ttl := t |}) →
  ∃ w', RedisClient.SaveSession s w = (Ok (), w') ∧ upstream w' = [].
Proof.
  intros Hup Huser. unfold RedisClient.SaveSession.
  set (skey := RedisClient.session_key (sd_SessionID s)).
  set (ukey := RedisClient.user_sessions_key (sd_UserID s)).
  pose proof (executeCommand_served (SETEX skey 86400 (Encoded s)) w
                (next_outcome_calm w Hup)) as H1.
  set (w1 := set_redis _ (sent (ReqRedis (SETEX skey 86400 (Encoded s))) w)) in H1.
  cbn in H1.
  assert (Hup1 : upstream w1 = []) by (unfold w1; simpl; by rewrite Hup).
  assert (Hu1 : redis w1 !! ukey = redis w !! ukey).
  { unfold w1. simpl. rewrite lookup_insert_ne; [reflexivity|apply keys_apart]. }
  pose proof (executeCommand_served (SADD ukey (sd_SessionID s)) w1
                (next_outcome_calm w1 Hup1)) as H2.
  set (w2 := set_redis _ (sent (ReqRedis (SADD ukey (sd_SessionID s))) w1)) in H2.
  assert (Hup2 : upstream w2 = []) by (unfold w2, w1; simpl; by rewrite Hup).
  assert (H2' : ∃ a, RedisClient.executeCommand (SADD ukey (sd_SessionID s)) w1 =
                     (Ok a, w2)).
  { rewrite H2. cbn [RedisClient.redis_exec]. rewrite Hu1.
    destruct (redis w !! ukey) as [[[v|ms] t]|] eqn:Hk; cbn [fst]; eauto.
    exfalso. by apply (Huser v t). }
  destruct H2' as [a2 H2'].
  pose proof (executeCommand_served (EXPIRE ukey 86400) w2
                (next_outcome_calm w2 Hup2)) as H3.
  set (w3 := set_redis _ (sent (ReqRedis (EXPIRE ukey 86400)) w2)) in H3.
  assert (Hup3 : upstream w3 = []) by (unfold w3, w2, w1; simpl; by rewrite Hup).
  assert (H3' : ∃ a, RedisClient.executeCommand (EXPIRE ukey 86400) w2 =
                     (Ok a, w3)).
  { rewrite H3. cbn [RedisClient.redis_exec].
    destruct (redis w2 !! ukey); cbn [fst]; eauto. }
  destruct H3' as [a3 H3'].
  exists w3. split; [|exact Hup3].
  rewrite (bind_Ok _ _ _ _ _ (wrap_Ok _ _ _ _ _ H1)).
  rewrite (bind_Ok _ _ _ _ _ (wrap_Ok _ _ _ _ _ H2')).
  rewrite (bind_Ok _ _ _ _ _ H3'). reflexivity.
Qed.

Lemma SetSessionContext_run sessionID context w :
  RedisClient.SetSessionContext sessionID context w =
    let w1 := sent (ReqRedis (GET (RedisClient.session_key sessionID))) w in
    match (RedisClient.GetSession sessionID w).1 with
    | Err e => (Err e, w1)
    | Ok session =>
        RedisClient.SaveSession
          (with_merged_context context (clock w) session) w1
    end.
Proof.
  unfold RedisClient.SetSessionContext, mbind, M_bind, time_Now.
  rewrite GetSession_run. cbn [fst]. cbv zeta.
  destruct (match next_outcome w with Served => _ | _ => _ end) as [sd|e];
    [|reflexivity].
  unfold with_merged_context. destruct (sd_Context sd); reflexivity.
Qed.

(** C7. On a session whose record is stored under its key, with every round
    trip served, [SetSessionContext] succeeds and rewrites the record with
    86400 seconds to live; a [GetSession] that follows returns a context in
    which each key of the supplied map has the supplied value and each other
    key has what it had before (absent if it was absent). The messages, owner
    and creation time are as before. When the session key is absent,
    [SetSessionContext] fails with "session not found" after the one read and
    writes nothing. *)
Theorem SetSessionContext_GetSession sessionID context w :
  (∀ sd t,
     upstream w = [] →
     redis w !! RedisClient.session_key sessionID =
       Some {| re_value := RString (Encoded sd); re_ttl := t |} →
     sd_SessionID sd = sessionID →
     (∀ v t', redis w !! RedisClient.user_sessions_key (sd_UserID sd) ≠
              Some {| re_value := RString v; re_ttl := t' |}) →
     ∃ w1 w2 session merged,
       MemoryService.SetSessionContext sessionID context w = (Ok (), w1) ∧
       redis w1 !! RedisClient.session_key sessionID =
         Some {| re_value := RString (Encoded session); re_ttl := Some 86400 |} ∧
       MemoryService.GetSession sessionID w1 = (Ok session, w2) ∧
       sd_Context session = Some merged ∧
       (∀ k v, context !! k = Some v → merged !! k = Some v) ∧
       (∀ k, context !! k = None →
             merged !! k = default ∅ (sd_Context sd) !! k) ∧
       sd_Messages session = sd_Messages sd ∧
       sd_UserID session = sd_UserID sd ∧
       sd_CreatedAt session = sd_CreatedAt sd) ∧
  (redis w !! RedisClient.session_key sessionID = None →
   next_outcome w = Served →
   ∃ w1,
     MemoryService.SetSessionContext sessionID context w =
       (Err (errors_New "session not found"), w1) ∧
     redis w1 = redis w ∧
     trace w1 =
       (trace w ++ [ReqRedis (GET (RedisClient.session_key sessionID))])%list).
Proof.
  unfold MemoryService.SetSessionContext. rewrite SetSessionContext_run.
  cbv zeta. rewrite GetSession_run. cbn [fst]. split.
  - intros sd t Hup Hsd Hid Huser.
    rewrite (next_outcome_calm w Hup), Hsd. cbn [decode].
    set (session := with_merged_context context (clock w) sd).
    set (w0 := sent _ w).
    destruct (SaveSession_calm session w0) as (w1 & Hsave & Hup1).
    { unfold w0. simpl. by rewrite Hup. }
    { exact Huser. }
    pose proof (SaveSession_Ok _ _ _ Hsave) as (Hkey & _).
    change (sd_SessionID session) with (sd_SessionID sd) in Hkey.
    rewrite Hid in Hkey.
    eexists w1, _, session, _. split_and!.
    + exact Hsave.
    + exact Hkey.
    + unfold MemoryService.GetSession.
      erewrite bind_Ok.
      2:{ apply wrap_Ok. rewrite GetSession_run, (next_outcome_calm w1 Hup1), Hkey.
          reflexivity. }
      unfold mbind, M_bind. rewrite try_run by no_panic. reflexivity.
    + reflexivity.
    + intros k v Hk. by rewrite assign_all_lookup, Hk.
    + intros k Hk. by rewrite assign_all_lookup, Hk.
    + reflexivity.
    + reflexivity.
    + reflexivity.
  - intros Hnone Ho. rewrite Ho, Hnone. cbn [decode].
    eexists. split_and!; reflexivity.
Qed.

(** ** Deleting a memory *)

Lemma DeleteMemory_run id w :
  VectorClient.DeleteMemory id w =
    match next_outcome w with
    | Served => (Ok (), set_vectors (delete id) (sent (ReqDelete id) w))
    | Rejected =>
        (Err (Errorf "failed to delete memory" (errors_New "request failed")),
         sent (ReqDelete id) w)
    | Unacked =>
        (Err (Errorf "failed to delete memory" (errors_New "request failed")),
         set_vectors (delete id) (sent (ReqDelete id) w))
    end.
Proof.
  unfold VectorClient.DeleteMemory, wrap, round_trip.
  destruct (next_outcome w); reflexivity.
Qed.

(** A query changes neither store. *)
Lemma QueryMemory_frame E req w :
  vectors (MemoryService.QueryMemory E req w).2 = vectors w ∧
  redis (MemoryService.QueryMemory E req w).2 = redis w.
Proof.
  rewrite QueryMemory_run, GenerateEmbedding_run.
  destruct (match next_outcome w with Served => _ | _ => _ end) as [emb|e];
    [|split; reflexivity].
  rewrite QueryMemories_run.
  destruct (match next_outcome _ with Served => _ | _ => _ end);
    split; reflexivity.
Qed.

(** The results of a successful query stand for vectors of the store. *)
Lemma QueryMemory_Ok_sound E req w response w' result :
  MemoryService.QueryMemory E req w = (Ok response, w') →
  result ∈ resp_Results response →
  ∃ id e, vectors w !! id = Some e ∧
          mr_Metadata result !! "id" = Some (JStr id).
Proof.
  rewrite QueryMemory_run, GenerateEmbedding_run.
  destruct (match next_outcome w with Served => _ | _ => _ end) as [emb|e];
    [|intros H; discriminate H].
  rewrite QueryMemories_run.
  destruct (next_outcome _); [|intros H; discriminate H..].
  intros [= <- _]. cbn [resp_Results]. intros Hin.
  apply list_elem_of_fmap in Hin as (m & -> & Hm).
  apply list_elem_of_In, filter_In in Hm as [Hm _].
  apply list_elem_of_In, index_query_sound in Hm as (e & He & _).
  exists (qm_ID m), e. split; [exact He|apply to_result_id].
Qed.

Lemma service_QueryMemory_no_panic E req : no_panic (MemoryService.QueryMemory E req).
Proof. unfold MemoryService.QueryMemory. no_panic. Qed.
#[local] Hint Resolve service_QueryMemory_no_panic : no_panic.

Lemma service_DeleteMemory_run E memoryID userID w :
  MemoryService.DeleteMemory E memoryID userID w =
    match MemoryService.QueryMemory E
            {| qmr_UserID := userID; qmr_Query := "verify memory ownership";
               qmr_Limit := 100; qmr_MinScore := 0%Q |} w with
    | (Err e, w1) => (Err (Errorf "failed to verify memory ownership" e), w1)
    | (Ok response, w1) =>
        if existsb (MemoryService.names_memory memoryID) (resp_Results response)
        then
          match VectorClient.DeleteMemory memoryID w1 with
          | (Err e, w2) => (Err (Errorf "failed to delete memory" e), w2)
          | (Ok _, w2) => (Ok (), w2)
          end
        else (Err absent_report, w1)
    end.
Proof.
  unfold MemoryService.DeleteMemory, mbind, M_bind, wrap, mret, M_ret, fail.
  destruct (MemoryService.QueryMemory E _ w) as [[resp|e] w1] eqn:H1;
    [|plain_error H1; reflexivity].
  destruct (existsb _ _); [|reflexivity]. simpl.
  destruct (VectorClient.DeleteMemory memoryID w1) as [[[]|e] w2] eqn:H2;
    [|plain_error H2]; reflexivity.
Qed.

(** On an id the store does not hold, the service sends no delete: it
    reports the memory absent, or fails at verifying. *)
Lemma service_DeleteMemory_absent E memoryID userID w :
  vectors w !! memoryID = None →
  let r := (MemoryService.DeleteMemory E memoryID userID w).1 in
  let w' := (MemoryService.DeleteMemory E memoryID userID w).2 in
  vectors w' = vectors w ∧
  (r = Err absent_report ∨
   ∃ e, r = Err (Errorf "failed to verify memory ownership" e)) ∧
  (upstream w = [] → provider_data E "verify memory ownership" ≠ [] →
   r = Err absent_report).
Proof.
  intros Habs. cbv zeta. rewrite service_DeleteMemory_run.
  set (req := {| qmr_UserID := userID |}).
  pose proof (QueryMemory_frame E req w) as [Hv _].
  destruct (MemoryService.QueryMemory E req w) as [[resp|e] w1] eqn:Hq;
    cbn [fst snd] in *.
  - assert (Hno : existsb (MemoryService.names_memory memoryID)
                    (resp_Results resp) = false).
    { apply not_true_is_false. intros Hex.
      apply existsb_exists in Hex as (result & Hin & Hname).
      apply list_elem_of_In in Hin.
      destruct (QueryMemory_Ok_sound _ _ _ _ _ _ Hq Hin) as (id & e & He & Hid).
      unfold MemoryService.names_memory in Hname. rewrite Hid in Hname.
      apply String.eqb_eq in Hname. subst id. congruence. }
    rewrite Hno. cbn [fst snd]. split_and!; auto.
  - split_and!; [exact Hv|right; eauto|].
    intros Hup Hdata. exfalso.
    rewrite QueryMemory_run, GenerateEmbedding_run, (next_outcome_calm w Hup) in Hq.
    destruct (provider_data E (qmr_Query req)) as [|emb rest] eqn:Hd;
      [by apply Hdata|].
    rewrite QueryMemories_run, next_outcome_calm in Hq;
      [discriminate Hq|simpl; by rewrite Hup].
Qed.

(** C6. Deleting a memory that the store does not hold, or deleting one a
    second time, changes nothing and is an error at the service. At the
    vector client the delete of a missing id is served like any other and
    leaves the store as it was. At the service the store is not touched and
    the call fails: with the not-found report or, when the ownership cannot
    be verified against the store, with that failure; with every round trip
    served and an embedding provided it is the not-found report. After a
    delete that returned success the id is gone, so a second delete is such
    a delete of an absent id: it returns that error where the first returned
    success, and leaves the store as the first delete left it. *)
Theorem DeleteMemory_idempotent E memoryID userID :
  (∀ w, vectors w !! memoryID = None →
        next_outcome w = Served →
        ∃ w', VectorClient.DeleteMemory memoryID w = (Ok (), w') ∧
              vectors w' = vectors w) ∧
  (∀ w, vectors w !! memoryID = None →
        let r := (MemoryService.DeleteMemory E memoryID userID w).1 in
        let w' := (MemoryService.DeleteMemory E memoryID userID w).2 in
        vectors w' = vectors w ∧
        (r = Err absent_report ∨
         ∃ e, r = Err (Errorf "failed to verify memory ownership" e)) ∧
        (upstream w = [] → provider_data E "verify memory ownership" ≠ [] →
         r = Err absent_report)) ∧
  (∀ w w1, MemoryService.DeleteMemory E memoryID userID w = (Ok (), w1) →
        let r := (MemoryService.DeleteMemory E memoryID userID w1).1 in
        let w2 := (MemoryService.DeleteMemory E memoryID userID w1).2 in
        vectors w1 = delete memoryID (vectors w) ∧
        vectors w2 = vectors w1 ∧
        (r = Err absent_report ∨
         ∃ e, r = Err (Errorf "failed to verify memory ownership" e)) ∧
        (upstream w1 = [] → provider_data E "verify memory ownership" ≠ [] →
         r = Err absent_report)).
Proof.
  split_and!.
  - intros w Habs Ho. rewrite DeleteMemory_run, Ho. eexists.
    split; [reflexivity|]. simpl. by apply delete_id.
  - intros w Habs. by apply service_DeleteMemory_absent.
  - intros w w1 Hdel.
    assert (Hv1 : vectors w1 = delete memoryID (vectors w)).
    { rewrite service_DeleteMemory_run in Hdel.
      set (req := {| qmr_UserID := userID |}) in Hdel.
      pose proof (QueryMemory_frame E req w) as [Hv _].
      destruct (MemoryService.QueryMemory E req w) as [[resp|e] w0];
        [|discriminate Hdel].
      destruct (existsb _ _); [|discriminate Hdel].
      rewrite DeleteMemory_run in Hdel. cbn [snd] in Hv.
      destruct (next_outcome w0); [|discriminate Hdel..].
      injection Hdel as <-. simpl. by rewrite Hv. }
    cbv zeta. split; [exact Hv1|].
    apply service_DeleteMemory_absent. rewrite Hv1. apply lookup_delete_eq.
Qed.

(** ** The expiration sweep *)










Lemma int64_of_float_inject z :
  Z.abs z ≤ 2 ^ 53 → int64_of_float (inject_Z z) = z.
Proof.
  intros Hz. unfold int64_of_float, inject_Z, int64_min, int64_max. simpl.
  rewrite Z.quot_1_r.
  destruct (Z.leb_spec (- 2 ^ 63) z), (Z.leb_spec z (2 ^ 63 - 1));
    simpl; lia.
Qed.





(** * Further properties of the clients, the service and the handlers *)

(** ** Sessions in Redis *)

(** X1. A session saved with every round trip served is read back as it
    was saved, and its key has 86400 seconds to live. *)
Theorem SaveSession_then_GetSession s w :
  upstream w = [] →
  set_key_free (sd_UserID s) w →
  ∃ w1 w2,
    RedisClient.SaveSession s w = (Ok (), w1) ∧
    redis w1 !! RedisClient.session_key (sd_SessionID s) =
      Some {| re_value := RString (Encoded s); re_ttl := Some 86400 |} ∧
    RedisClient.GetSession (sd_SessionID s) w1 = (Ok s, w2).
Proof.
  intros Hup Hfree.
  destruct (SaveSession_calm s w Hup Hfree) as (w1 & Hsave & Hup1).
  pose proof (SaveSession_Ok _ _ _ Hsave) as (Hkey & _).
  exists w1, (sent (ReqRedis (GET (RedisClient.session_key (sd_SessionID s)))) w1).
  split_and!; [exact Hsave|exact Hkey|].
  rewrite GetSession_run, (next_outcome_calm w1 Hup1), Hkey. reflexivity.
Qed.

(** The last two commands of a successful [SaveSession] on the owner's key. *)
Lemma SaveSession_Ok_set s w w' :
  RedisClient.SaveSession s w = (Ok (), w') →
  redis w' !! RedisClient.user_sessions_key (sd_UserID s) =
    Some {| re_value := RSet ({[ sd_SessionID s ]} ∪ listed (sd_UserID s) w);
            re_ttl := Some 86400 |}.
Proof.
  unfold RedisClient.SaveSession. intros H.
  set (skey := RedisClient.session_key (sd_SessionID s)) in *.
  set (ukey := RedisClient.user_sessions_key (sd_UserID s)) in *.
  apply bind_inv in H as [(e & H1 & E1) | (a1 & w1 & H1 & H)]; [discriminate E1|].
  apply wrap_inv in H1 as [(b1 & H1 & E1) | (e1 & H1 & E1)]; [|discriminate E1].
  apply bind_inv in H as [(e & H2 & E2) | (a2 & w2 & H2 & H)]; [discriminate E2|].
  apply wrap_inv in H2 as [(b2 & H2 & E2) | (e2 & H2 & E2)]; [|discriminate E2].
  apply bind_inv in H as [(e & H3 & E3) | (a3 & w3 & H3 & H)]; [discriminate E3|].
  injection H as <-.
  apply executeCommand_inv in H1 as (_ & _ & _ & _ & Hok1).
  apply executeCommand_inv in H2 as (_ & _ & _ & _ & Hok2).
  apply executeCommand_inv in H3 as (_ & _ & _ & _ & Hok3).
  destruct (Hok1 _ eq_refl) as (_ & _ & Hr1).
  destruct (Hok2 _ eq_refl) as (_ & Ha2 & Hr2).
  destruct (Hok3 _ eq_refl) as (_ & _ & Hr3).
  assert (Hu1 : redis w1 !! ukey = redis w !! ukey).
  { rewrite Hr1. cbn [RedisClient.redis_exec Z.leb Z.compare snd].
    rewrite lookup_insert_ne; [reflexivity|apply keys_apart]. }
  assert (Hu2 : redis w2 !! ukey =
                Some {| re_value := RSet ({[ sd_SessionID s ]} ∪ listed (sd_UserID s) w);
                        re_ttl := match redis w !! ukey with
                                  | Some e => re_ttl e
                                  | None => None
                                  end |}).
  { rewrite Hr2. unfold listed. fold ukey.
    cbn [RedisClient.redis_exec] in Ha2 |- *. rewrite Hu1 in Ha2 |- *.
    destruct (redis w !! ukey) as [[[v|ms] t]|]; cbn [fst snd] in Ha2 |- *.
    - discriminate Ha2.
    - by rewrite lookup_insert_eq.
    - rewrite lookup_insert_eq. by rewrite (right_id_L ∅ (∪)). }
  rewrite Hr3. cbn [RedisClient.redis_exec]. rewrite Hu2. cbn [snd].
  by rewrite lookup_insert_eq.
Qed.

(** X2. A successful [SaveSession] adds the session to the set of its owner,
    keeps the ids already in the set, and gives the set 86400 seconds to live;
    saving a session twice lists it once. *)
Theorem SaveSession_registers_session s w w' :
  RedisClient.SaveSession s w = (Ok (), w') →
  redis w' !! RedisClient.user_sessions_key (sd_UserID s) =
    Some {| re_value := RSet (listed (sd_UserID s) w');
            re_ttl := Some 86400 |} ∧
  listed (sd_UserID s) w' = {[ sd_SessionID s ]} ∪ listed (sd_UserID s) w ∧
  (sd_SessionID s ∈ listed (sd_UserID s) w →
   listed (sd_UserID s) w' = listed (sd_UserID s) w).
Proof.
  intros H. pose proof (SaveSession_Ok_set _ _ _ H) as Hset.
  assert (Hl : listed (sd_UserID s) w' =
               {[ sd_SessionID s ]} ∪ listed (sd_UserID s) w).
  { unfold listed at 1. by rewrite Hset. }
  split_and!.
  - by rewrite Hl.
  - exact Hl.
  - intros Hin. rewrite Hl. set_solver.
Qed.

Lemma GetUserSessions_run userID w :
  RedisSessions.GetUserSessions userID w =
    (match next_outcome w with
     | Served =>
         match redis w !! RedisClient.user_sessions_key userID with
         | Some {| re_value := RString _ |} =>
             Err (Errorf "failed to get user sessions" (errors_New "Redis error"))
         | _ => Ok (elements (listed userID w))
         end
     | _ =>
         Err (Errorf "failed to get user sessions" (errors_New "request failed"))
     end,
     RedisSessions.unlogged w).
Proof.
  unfold RedisSessions.GetUserSessions, RedisSessions.executeSMEMBERS,
    RedisSessions.smembers, listed, mbind, M_bind, wrap, mret, M_ret.
  destruct (next_outcome w); try reflexivity.
  destruct (redis w !! RedisClient.user_sessions_key userID) as [[[v|ms] t]|];
    try reflexivity.
  - rewrite <- list_fmap_compose.
    rewrite (list_fmap_ext _ id (elements ms)) by (intros; reflexivity).
    by rewrite list_fmap_id.
Qed.

(** X3. The sessions of an owner are the members of the owner's set, each
    listed once; for an owner without a set the list is empty and there is no
    error; a key that holds a string is an error. No store changes. *)
Theorem GetUserSessions_lists_members userID w :
  next_outcome w = Served →
  let r := (RedisSessions.GetUserSessions userID w).1 in
  let w' := (RedisSessions.GetUserSessions userID w).2 in
  redis w' = redis w ∧ vectors w' = vectors w ∧
  (set_key_free userID w →
   ∃ sessions, r = Ok sessions ∧ NoDup sessions ∧
               ∀ id, id ∈ sessions ↔ id ∈ listed userID w) ∧
  (redis w !! RedisClient.user_sessions_key userID = None → r = Ok []) ∧
  (∀ v t, redis w !! RedisClient.user_sessions_key userID =
            Some {| re_value := RString v; re_ttl := t |} →
          is_Ok r = false).
Proof.
  intros Ho. cbv zeta. rewrite GetUserSessions_run, Ho. cbn [fst snd].
  split_and!; try reflexivity.
  - intros Hfree.
    destruct (redis w !! RedisClient.user_sessions_key userID)
      as [[[v|ms] t]|] eqn:Hk.
    + exfalso. by apply (Hfree v t).
    + eexists. split_and!; [reflexivity|apply NoDup_elements|].
      intros id. apply elem_of_elements.
    + eexists. split_and!; [reflexivity|apply NoDup_elements|].
      intros id. apply elem_of_elements.
  - intros Hk. unfold listed. rewrite Hk. reflexivity.
  - intros v t ->. reflexivity.
Qed.

(** X4. Deleting a session does not unlist it: after a save and a delete of
    the session, with every round trip served, reading the session reports
    "session not found" while the sessions of the owner still name it. *)
Theorem deleted_session_stays_listed s w w1 :
  RedisClient.SaveSession s w = (Ok (), w1) →
  upstream w1 = [] →
  ∃ w2 w3 w4 sessions,
    RedisClient.DeleteSession (sd_SessionID s) w1 = (Ok (), w2) ∧
    RedisClient.GetSession (sd_SessionID s) w2 =
      (Err (errors_New "session not found"), w3) ∧
    RedisSessions.GetUserSessions (sd_UserID s) w3 = (Ok sessions, w4) ∧
    sd_SessionID s ∈ sessions.
Proof.
  intros Hsave Hup1.
  pose proof (SaveSession_Ok_set _ _ _ Hsave) as Hset.
  set (skey := RedisClient.session_key (sd_SessionID s)).
  set (w2 := set_redis (delete skey) (sent (ReqRedis (DEL skey)) w1)).
  set (w3 := sent (ReqRedis (GET skey)) w2).
  assert (Hup2 : upstream w2 = []) by (unfold w2; simpl; by rewrite Hup1).
  assert (Hup3 : upstream w3 = []) by (unfold w3, w2; simpl; by rewrite Hup1).
  assert (Hset3 : redis w3 !! RedisClient.user_sessions_key (sd_UserID s) =
                  redis w1 !! RedisClient.user_sessions_key (sd_UserID s)).
  { unfold w3, w2. simpl. rewrite lookup_delete_ne; [reflexivity|].
    apply keys_apart. }
  exists w2, w3, (RedisSessions.unlogged w3),
    (elements ({[ sd_SessionID s ]} ∪ listed (sd_UserID s) w)).
  split_and!.
  - rewrite DeleteSession_run, (next_outcome_calm w1 Hup1). reflexivity.
  - rewrite GetSession_run, (next_outcome_calm w2 Hup2).
    unfold w2. simpl. fold skey. by rewrite lookup_delete_eq.
  - rewrite GetUserSessions_run, (next_outcome_calm w3 Hup3).
    unfold listed at 1. rewrite Hset3, Hset. reflexivity.
  - apply elem_of_elements. set_solver.
Qed.

Lemma AddMessageToSession_run sessionID message w :
  RedisSessions.AddMessageToSession sessionID message w =
    let w1 := sent (ReqRedis (GET (RedisClient.session_key sessionID))) w in
    match (RedisClient.GetSession sessionID w).1 with
    | Err e => (Err e, w1)
    | Ok session =>
        RedisClient.SaveSession
          (with_LastActivity (clock w)
             (with_Messages (sd_Messages session ++ [message]) session)) w1
    end.
Proof.
  unfold RedisSessions.AddMessageToSession, mbind, M_bind, time_Now.
  rewrite GetSession_run. cbn [fst]. cbv zeta.
  destruct (match next_outcome w with Served => _ | _ => _ end); reflexivity.
Qed.

(** X5. [AddMessageToSession] appends to a stored session: with every round
    trip served the record under the key is the prior one with the message at
    the end of its sequence and the last activity set to now. Unlike a save
    of a memory it creates nothing: on an absent key it fails with "session
    not found" and Redis is as before. *)
Theorem AddMessageToSession_appends sessionID message w :
  (∀ sd t,
     upstream w = [] →
     redis w !! RedisClient.session_key sessionID =
       Some {| re_value := RString (Encoded sd); re_ttl := t |} →
     sd_SessionID sd = sessionID →
     set_key_free (sd_UserID sd) w →
     ∃ w1 session,
       RedisSessions.AddMessageToSession sessionID message w = (Ok (), w1) ∧
       redis w1 !! RedisClient.session_key sessionID =
         Some {| re_value := RString (Encoded session); re_ttl := Some 86400 |} ∧
       sd_Messages session = (sd_Messages sd ++ [message])%list ∧
       sd_LastActivity session = clock w ∧
       sd_Context session = sd_Context sd ∧
       sd_CreatedAt session = sd_CreatedAt sd) ∧
  (redis w !! RedisClient.session_key sessionID = None →
   next_outcome w = Served →
   ∃ w1,
     RedisSessions.AddMessageToSession sessionID message w =
       (Err (errors_New "session not found"), w1) ∧
     redis w1 = redis w).
Proof.
  rewrite AddMessageToSession_run. cbv zeta. rewrite GetSession_run. cbn [fst].
  split.
  - intros sd t Hup Hsd Hid Hfree.
    rewrite (next_outcome_calm w Hup), Hsd. cbn [decode].
    set (session := with_LastActivity _ _). set (w0 := sent _ w).
    destruct (SaveSession_calm session w0) as (w1 & Hsave & _).
    { unfold w0. simpl. by rewrite Hup. }
    { exact Hfree. }
    pose proof (SaveSession_Ok _ _ _ Hsave) as (Hkey & _).
    change (sd_SessionID session) with (sd_SessionID sd) in Hkey.
    rewrite Hid in Hkey.
    exists w1, session. split_and!; [exact Hsave|exact Hkey|reflexivity..].
  - intros Hnone Ho. rewrite Ho, Hnone. cbn [decode].
    eexists. split; reflexivity.
Qed.

Lemma UpdateSessionActivity_run sessionID w :
  RedisClient.UpdateSessionActivity sessionID w =
    let w1 := sent (ReqRedis (GET (RedisClient.session_key sessionID))) w in
    match (RedisClient.GetSession sessionID w).1 with
    | Err e => (Err e, w1)
    | Ok session =>
        RedisClient.SaveSession (with_LastActivity (clock w) session) w1
    end.
Proof.
  unfold RedisClient.UpdateSessionActivity, mbind, M_bind, time_Now.
  rewrite GetSession_run. cbn [fst]. cbv zeta.
  destruct (match next_outcome w with Served => _ | _ => _ end); reflexivity.
Qed.

Lemma service_GetSession_run sessionID w :
  MemoryService.GetSession sessionID w =
    let w1 := sent (ReqRedis (GET (RedisClient.session_key sessionID))) w in
    match (RedisClient.GetSession sessionID w).1 with
    | Err e => (Err (Errorf "failed to get session" e), w1)
    | Ok session =>
        (Ok session, (RedisClient.UpdateSessionActivity sessionID w1).2)
    end.
Proof.
  unfold MemoryService.GetSession, mbind, M_bind, wrap, mret, M_ret.
  destruct (RedisClient.GetSession sessionID w) as [[session|e] w1] eqn:Hrun;
    [|plain_error Hrun]; rewrite GetSession_run in Hrun;
    injection Hrun as _ <-; cbn [fst]; cbv zeta; [|reflexivity].
  rewrite try_run by no_panic. reflexivity.
Qed.

(** X6. The service's [GetSession] returns the record as it was read,
    whatever becomes of the refresh that follows: once the first read is
    served a readable record is returned even if every later round trip
    fails. A record that is absent or cannot be read is an error, reported
    after that one read with the stores as they were. With every round trip
    served the refresh leaves under the key the same record with the last
    activity set to now and 86400 seconds to live. *)
Theorem GetSession_best_effort_refresh sessionID w :
  let key := RedisClient.session_key sessionID in
  let r := (MemoryService.GetSession sessionID w).1 in
  let w' := (MemoryService.GetSession sessionID w).2 in
  vectors w' = vectors w ∧
  (∀ sd t,
     next_outcome w = Served →
     redis w !! key = Some {| re_value := RString (Encoded sd); re_ttl := t |} →
     r = Ok sd ∧
     (upstream w = [] → sd_SessionID sd = sessionID →
      set_key_free (sd_UserID sd) w →
      redis w' !! key =
        Some {| re_value := RString (Encoded (with_LastActivity (clock w) sd));
                re_ttl := Some 86400 |})) ∧
  (is_Ok (RedisClient.GetSession sessionID w).1 = false →
   is_Ok r = false ∧ redis w' = redis w ∧
   trace w' = (trace w ++ [ReqRedis (GET key)])%list).
Proof.
  cbv zeta. rewrite service_GetSession_run. cbv zeta.
  set (key := RedisClient.session_key sessionID).
  set (w1 := sent (ReqRedis (GET key)) w).
  split_and!.
  - destruct ((RedisClient.GetSession sessionID w).1); [|reflexivity].
    cbn [snd]. rewrite UpdateSessionActivity_run. cbv zeta.
    destruct ((RedisClient.GetSession sessionID w1).1); [|reflexivity].
    destruct (RedisClient.SaveSession _ _) as [r3 w3] eqn:Hs.
    apply SaveSession_step in Hs as (l & Hv & _). cbn [snd]. by rewrite Hv.
  - intros sd t Ho Hsd. rewrite GetSession_run, Ho. fold key. rewrite Hsd.
    cbn [fst snd decode]. split; [reflexivity|].
    intros Hup Hid Hfree.
    rewrite UpdateSessionActivity_run. cbv zeta. rewrite GetSession_run.
    assert (Hup1 : upstream w1 = []) by (unfold w1; simpl; by rewrite Hup).
    rewrite (next_outcome_calm w1 Hup1). cbn [fst]. fold key.
    change (redis w1) with (redis w). rewrite Hsd. cbn [decode].
    set (session := with_LastActivity (clock w1) sd).
    destruct (SaveSession_calm session (sent (ReqRedis (GET key)) w1))
      as (w2 & Hsave & _).
    { simpl. by rewrite Hup. }
    { exact Hfree. }
    rewrite Hsave. cbn [snd].
    pose proof (SaveSession_Ok _ _ _ Hsave) as (Hkey & _).
    change (sd_SessionID session) with (sd_SessionID sd) in Hkey.
    rewrite Hid in Hkey. exact Hkey.
  - intros Hbad. destruct ((RedisClient.GetSession sessionID w).1);
      [discriminate Hbad|]. cbn [fst snd]. split_and!; reflexivity.
Qed.

(** ** Dimensions *)

Lemma GetDimensions_run E w :
  VectorClient.GetDimensions E w =
    if 0 <? vc_dimensions w then (Ok (vc_dimensions w), w)
    else
      match next_outcome w with
      | Served =>
          let dimensions := default 0 (index_dimension E) in
          if dimensions =? 0 then
            (Err (errors_New
                    "could not determine vector dimensions from database"),
             sent ReqInfo w)
          else (Ok dimensions, set_vc_dimensions dimensions (sent ReqInfo w))
      | _ =>
          (Err (Errorf "failed to get vector stats"
                  (Errorf "failed to get vector stats"
                     (errors_New "request failed"))),
           sent ReqInfo w)
      end.
Proof.
  unfold VectorClient.GetDimensions.
  destruct (0 <? vc_dimensions w); [reflexivity|].
  unfold mbind, M_bind, VectorClient.GetStats, wrap, round_trip, fail.
  destruct (next_outcome w), (index_dimension E) as [d|]; cbn;
    try destruct (d =? 0); reflexivity.
Qed.

(** X7. The vector client keeps the dimension it fetched: a dimension it
    returns is not 0 and is stored in the client. A positive one is served
    from then on without a round trip. A negative one, which the client
    takes from the index as it takes any other, is returned as a success
    and stored, but it is never served: the next call asks the index again.
    A client that holds a positive dimension answers at once. A call that
    fails stores nothing and has made the one request. *)
Theorem GetDimensions_caches E w :
  let r := (VectorClient.GetDimensions E w).1 in
  let w1 := (VectorClient.GetDimensions E w).2 in
  (∀ d, r = Ok d →
        d ≠ 0 ∧ vc_dimensions w1 = d ∧
        (0 < d → VectorClient.GetDimensions E w1 = (Ok d, w1)) ∧
        (d < 0 →
         index_dimension E = Some d ∧
         trace (VectorClient.GetDimensions E w1).2 =
           (trace w1 ++ [ReqInfo])%list)) ∧
  (0 < vc_dimensions w → r = Ok (vc_dimensions w) ∧ w1 = w) ∧
  (is_Ok r = false → vc_dimensions w1 = vc_dimensions w ∧
                     trace w1 = (trace w ++ [ReqInfo])%list).
Proof.
  cbv zeta. rewrite (GetDimensions_run E w).
  destruct (0 <? vc_dimensions w) eqn:Hc.
  - pose proof Hc as Hpos. apply Z.ltb_lt in Hpos. cbn [fst snd]. split_and!.
    + intros d [= <-]. split_and!; [lia|reflexivity| |lia].
      intros _. by rewrite GetDimensions_run, Hc.
    + intros _. split; reflexivity.
    + intros H; discriminate H.
  - apply Z.ltb_ge in Hc.
    destruct (next_outcome w) eqn:Ho.
    2,3: (cbn [fst snd]; split_and!;
          [ intros d Hd; discriminate Hd
          | intros; lia
          | intros _; split; reflexivity ]).
    cbv zeta. destruct (index_dimension E) as [n|] eqn:Hn; cbn [default from_option id].
    2: { cbn [fst snd]. split_and!;
           [ intros d Hd; discriminate Hd | intros; lia
           | intros _; split; reflexivity ]. }
    destruct (Z.eqb_spec n 0) as [->|Hne]; cbn [fst snd].
    { split_and!;
        [ intros d Hd; discriminate Hd | intros; lia
        | intros _; split; reflexivity ]. }
    split_and!; [|intros; lia|intros H; cbn in H; discriminate H].
    intros d [= <-]. split_and!; [exact Hne|reflexivity| |].
    + intros Hpos. rewrite GetDimensions_run. cbn [vc_dimensions set_vc_dimensions].
      apply Z.ltb_lt in Hpos. by rewrite Hpos.
    + intros Hneg. split; [reflexivity|].
      rewrite GetDimensions_run. cbn [vc_dimensions set_vc_dimensions].
      assert (Hc' : (0 <? n) = false) by (apply Z.ltb_ge; lia).
      rewrite Hc'.
      destruct (next_outcome (set_vc_dimensions n (sent ReqInfo w)));
        [|reflexivity..].
      rewrite Hn. cbn [default from_option id]. destruct (n =? 0); reflexivity.
Qed.

(** X8. The dimension the configuration gives is 1024, 1536 or 3072, and
    it is the dimension the embedding client of that provider reports: 1024
    for jina, that of the model (1536 when the model is unknown or not set)
    for openai. *)
Theorem GetEmbeddingDimensions_agrees E :
  (GetEmbeddingDimensions E = 1024 ∨ GetEmbeddingDimensions E = 1536 ∨
   GetEmbeddingDimensions E = 3072) ∧
  (cfg_EmbeddingProvider E = "jina" →
   GetEmbeddingDimensions E = EmbeddingDims.Jina_GetDimensions) ∧
  (cfg_EmbeddingProvider E = "openai" →
   GetEmbeddingDimensions E =
     EmbeddingDims.OpenAI_GetDimensions (EmbeddingDims.NewOpenAIClient_model E)).
Proof.
  unfold GetEmbeddingDimensions, EmbeddingDims.Jina_GetDimensions,
    EmbeddingDims.OpenAI_GetDimensions, EmbeddingDims.NewOpenAIClient_model.
  split_and!.
  - repeat match goal with
           | |- context [String.eqb ?a ?b] => destruct (String.eqb a b)
           end; auto.
  - intros ->. reflexivity.
  - intros ->. cbn [String.eqb Ascii.eqb Bool.eqb].
    destruct (String.eqb_spec (cfg_OpenAIEmbeddingModel E) "") as [->|_];
      reflexivity.
Qed.



(** ** Upserts and queries *)

Lemma user_filter_not_empty userID :
  String.eqb (VectorClient.user_filter userID) "" = false.
Proof. reflexivity. Qed.

(** A page at least the size of the index holds a match for every vector
    that passes the filter. *)
Lemma index_query_complete_filter E r idx id e :
  (size idx ≤ Z.to_nat (qr_TopK r))%nat →
  idx !! id = Some e →
  VectorClient.passes_filter E r (id, e) = true →
  VectorClient.to_match E r (id, e) ∈ VectorClient.index_query E r idx.
Proof.
  intros Hsize Hid Hpass. unfold VectorClient.index_query.
  rewrite take_ge.
  - rewrite merge_sort_Permutation. apply list_elem_of_fmap.
    exists (id, e). split; [reflexivity|].
    apply list_elem_of_In, filter_In. split; [|exact Hpass].
    by apply list_elem_of_In, elem_of_map_to_list.
  - rewrite merge_sort_Permutation, length_fmap.
    etransitivity; [apply sublist_length, filter_sublist|].
    by rewrite length_map_to_list.
Qed.

(** The results of a successful query, from the matches of the index. *)
Lemma QueryMemory_Ok_shape E req w response w' :
  MemoryService.QueryMemory E req w = (Ok response, w') →
  ∃ queryEmbedding,
    head (provider_data E (qmr_Query req)) = Some queryEmbedding ∧
    resp_Results response =
      VectorClient.to_result <$>
        List.filter (λ m, Qle_bool (effective_min_score req) (qm_Score m))
          (VectorClient.index_query E
             (query_request (qmr_UserID req) queryEmbedding (effective_limit req))
             (vectors w)) ∧
    vectors w' = vectors w ∧ redis w' = redis w.
Proof.
  rewrite QueryMemory_run, GenerateEmbedding_run.
  destruct (next_outcome w); [|intros H; discriminate H..].
  destruct (provider_data E (qmr_Query req)) as [|emb rest];
    [intros H; discriminate H|].
  rewrite QueryMemories_run.
  destruct (next_outcome _); [|intros H; discriminate H..].
  intros [= <- <-]. exists emb. split_and!; reflexivity.
Qed.

(** What a successful upsert leaves under the id of the entry. *)
Lemma UpsertMemory_Ok_entry memory w w' :
  VectorClient.UpsertMemory memory w = (Ok (), w') →
  (∃ k, is_Some (ur_Metadata (upsert_request memory) !! k)) ∧
  vectors w' =
    <[me_ID memory :=
        {| ve_Vector := me_Embedding memory;
           ve_Metadata := Some (ur_Metadata (upsert_request memory)) |}]>
      (vectors w).
Proof.
  intros H. apply UpsertMemory_inv in H as (_ & _ & _ & Hok).
  destruct (Hok eq_refl) as [_ Hv]. clear Hok.
  assert (Httl : is_Some (ur_Metadata (upsert_request memory) !! "ttl")).
  { unfold upsert_request. cbn [ur_Metadata]. rewrite assign_all_lookup.
    destruct (me_Metadata memory !! "ttl"); [eauto|].
    rewrite lookup_insert_eq. eauto. }
  split; [eauto|].
  rewrite Hv. unfold VectorClient.index_upsert.
  destruct (map_to_list _) eqn:Hl; [|reflexivity].
  apply map_to_list_empty_iff in Hl. rewrite Hl, lookup_empty in Httl.
  by destruct Httl.
Qed.

(** X10. What the caller puts in the metadata of an entry goes before the
    fields the client fills in: after a successful upsert the vector stored
    under the id of the entry has the embedding of the entry, every key of the
    caller's metadata with the caller's value, and user_id, content, timestamp
    (in whole seconds) and ttl from the entry only where the caller's metadata
    has no such key. Every other vector of the index is as it was. *)
Theorem UpsertMemory_metadata_precedence memory w w' :
  VectorClient.UpsertMemory memory w = (Ok (), w') →
  ∃ md,
    vectors w' !! me_ID memory =
      Some {| ve_Vector := me_Embedding memory; ve_Metadata := Some md |} ∧
    (∀ k v, me_Metadata memory !! k = Some v → md !! k = Some v) ∧
    (me_Metadata memory !! "user_id" = None →
     md !! "user_id" = Some (JStr (me_UserID memory))) ∧
    (me_Metadata memory !! "content" = None →
     md !! "content" = Some (JStr (me_Content memory))) ∧
    (me_Metadata memory !! "timestamp" = None →
     md !! "timestamp" = Some (JNum (inject_Z (Unix (me_Timestamp memory))))) ∧
    (me_Metadata memory !! "ttl" = None →
     md !! "ttl" = Some (JNum (inject_Z (me_TTL memory)))) ∧
    (∀ id, id ≠ me_ID memory → vectors w' !! id = vectors w !! id).
Proof.
  intros H. apply UpsertMemory_Ok_entry in H as [_ Hv].
  exists (ur_Metadata (upsert_request memory)). rewrite Hv.
  unfold upsert_request. cbn [ur_Metadata].
  split_and!.
  - apply lookup_insert_eq.
  - intros k v Hk. by rewrite assign_all_lookup, Hk.
  - intros Hk. rewrite assign_all_lookup, Hk. by map_lookup.
  - intros Hk. rewrite assign_all_lookup, Hk. by map_lookup.
  - intros Hk. rewrite assign_all_lookup, Hk. by map_lookup.
  - intros Hk. rewrite assign_all_lookup, Hk. by map_lookup.
  - intros id Hne. by rewrite lookup_insert_ne.
Qed.

(** X11. The results of a query stand for vectors of the store, and their
    [ID] field is never filled in: it is empty in every result. The id of the
    vector is under the key "id" of the result's metadata, the other keys of
    the metadata are those stored with the vector. *)
Theorem QueryMemory_result_identity E req w response w' result :
  MemoryService.QueryMemory E req w = (Ok response, w') →
  result ∈ resp_Results response →
  mr_ID result = "" ∧
  ∃ id e,
    vectors w !! id = Some e ∧
    mr_Metadata result !! "id" = Some (JStr id) ∧
    (∀ k, k ≠ "id" →
          mr_Metadata result !! k = default ∅ (ve_Metadata e) !! k).
Proof.
  intros Hq Hin.
  apply QueryMemory_Ok_shape in Hq as (emb & _ & Hres & _).
  rewrite Hres in Hin.
  apply list_elem_of_fmap in Hin as (m & -> & Hm).
  apply list_elem_of_In, filter_In in Hm as [Hm _].
  apply list_elem_of_In, index_query_sound in Hm as (e & He & Hm).
  split; [reflexivity|]. exists (qm_ID m), e.
  split_and!; [exact He|apply to_result_id|].
  intros k Hk. rewrite Hm. unfold VectorClient.to_result, VectorClient.to_match.
  cbn [mr_Metadata qm_Metadata qm_ID qr_IncludeMetadata query_request fst snd].
  destruct (ve_Metadata e); cbn [fmap option_fmap option_map default];
    by rewrite lookup_insert_ne.
Qed.

(** The result made of a match that carries metadata. *)
Lemma to_result_fields m md :
  qm_Metadata m = Some md →
  mr_Score (VectorClient.to_result m) = qm_Score m ∧
  mr_Content (VectorClient.to_result m) =
    match md !! "content" with Some (JStr content) => content | _ => "" end ∧
  mr_Timestamp (VectorClient.to_result m) =
    match md !! "timestamp" with
    | Some (JNum t) => time_Unix (int64_of_float t)
    | _ => zero_Time
    end ∧
  ∀ k, k ≠ "id" → mr_Metadata (VectorClient.to_result m) !! k = md !! k.
Proof.
  intros Hmd. unfold VectorClient.to_result. rewrite Hmd.
  cbn [mr_Score mr_Content mr_Timestamp mr_Metadata fmap option_fmap option_map
       mbind option_bind].
  rewrite !lookup_insert_ne by (let H := fresh in intros H; discriminate H).
  split_and!; try reflexivity. intros k Hk. by rewrite lookup_insert_ne.
Qed.

(** X12. A memory that was saved is found again. After a successful save,
    a query by the same owner that is served finds the memory, provided the
    index keeps the owner's vectors under the owner filter, the index fits in
    the page asked for and the score of the saved embedding reaches the
    threshold: one of the results has the saved content, that score, the id
    of the saved message and its session under "id" and "session_id", and the
    time of the save in whole seconds. *)
Theorem SaveMemory_then_QueryMemory E req qreq w w1 embedding queryEmbedding :
  MemoryService.SaveMemory E req w = (Ok (), w1) →
  upstream w1 = [] →
  qmr_UserID qreq = smr_UserID req →
  (∀ md, md !! "user_id" = Some (JStr (smr_UserID req)) →
         filter_holds E (VectorClient.user_filter (smr_UserID req)) (Some md) = true) →
  Z.of_nat (size (vectors w1)) ≤
    (if qmr_Limit qreq <=? 0 then 10 else qmr_Limit qreq) →
  Z.abs (Unix (clock w)) ≤ 2 ^ 53 →
  head (provider_data E (smr_Content req)) = Some embedding →
  head (provider_data E (qmr_Query qreq)) = Some queryEmbedding →
  ((if Qle_bool (qmr_MinScore qreq) 0 then 1 # 2 else qmr_MinScore qreq)
     <= similarity E queryEmbedding embedding)%Q →
  ∃ response w2 result,
    MemoryService.QueryMemory E qreq w1 = (Ok response, w2) ∧
    result ∈ resp_Results response ∧
    mr_Content result = smr_Content req ∧
    mr_Score result = similarity E queryEmbedding embedding ∧
    mr_Metadata result !! "id" = Some (JStr (uuid_gen E (uuid_next w))) ∧
    mr_Metadata result !! "session_id" = Some (JStr (smr_SessionID req)) ∧
    mr_Timestamp result = time_Unix (Unix (clock w)).
Proof.
  intros Hsave Hup1 Huser Hfilter Hsize Hclock Hemb Hqemb Hscore.
  fold (effective_limit qreq) in Hsize. fold (effective_min_score qreq) in Hscore.
  apply SaveMemory_Ok_inv in Hsave as (w3 & w4 & emb & _ & Hgen & Hupsert).
  rewrite GenerateEmbedding_run in Hgen.
  assert (emb = embedding) as ->.
  { destruct (next_outcome w3); [|discriminate Hgen..].
    destruct (provider_data E (smr_Content req)); [discriminate Hgen|].
    injection Hgen as -> _. by injection Hemb. }
  clear Hgen. apply UpsertMemory_Ok_entry in Hupsert as [_ Hv].
  set (entry := pending_entry E req w embedding) in *.
  set (md := ur_Metadata (upsert_request entry)) in *.
  set (stored_vector := {| ve_Vector := me_Embedding entry;
                           ve_Metadata := Some md |}) in *.
  change (me_ID entry) with (uuid_gen E (uuid_next w)) in Hv.
  set (id := uuid_gen E (uuid_next w)) in *.
  destruct (upsert_request_metadata E req w embedding)
    as (Hsid & _ & _ & Huid & Hcontent & Hts).
  fold entry in Hsid, Huid, Hcontent, Hts. fold md in Hsid, Huid, Hcontent, Hts.
  set (request := query_request (qmr_UserID qreq) queryEmbedding
                    (effective_limit qreq)).
  set (m := VectorClient.to_match E request (id, stored_vector)).
  assert (Hm : m ∈ VectorClient.index_query E request (vectors w1)).
  { apply index_query_complete_filter.
    - unfold request. rewrite query_request_effective. cbn [qr_TopK]. lia.
    - rewrite Hv. apply lookup_insert_eq.
    - unfold VectorClient.passes_filter, request, query_request.
      cbn [qr_Filter snd]. rewrite user_filter_not_empty, Huser.
      apply Hfilter. exact Huid. }
  destruct (to_result_fields m md eq_refl) as (Hscore' & Hc & Ht & Hk).
  eexists _, _, (VectorClient.to_result m).
  split_and!.
  - rewrite QueryMemory_run, GenerateEmbedding_run, (next_outcome_calm w1 Hup1).
    destruct (provider_data E (qmr_Query qreq)) as [|q rest]; [discriminate Hqemb|].
    injection Hqemb as ->.
    rewrite QueryMemories_run, next_outcome_calm by (simpl; by rewrite Hup1).
    reflexivity.
  - cbn [resp_Results]. apply list_elem_of_fmap. exists m. split; [reflexivity|].
    apply list_elem_of_In, filter_In. split; [by apply list_elem_of_In|].
    apply Qle_bool_iff. exact Hscore.
  - rewrite Hc, Hcontent. reflexivity.
  - exact Hscore'.
  - apply to_result_id.
  - rewrite Hk by (let H := fresh in intros H; discriminate H). exact Hsid.
  - rewrite Ht, Hts, int64_of_float_inject by exact Hclock. reflexivity.
Qed.

(** ** The memories and sessions of one owner *)














Lemma GetUserSessions_no_panic userID :
  no_panic (RedisSessions.GetUserSessions userID).
Proof.
  unfold RedisSessions.GetUserSessions. apply no_panic_bind.
  - apply no_panic_wrap. intros w e. unfold RedisSessions.executeSMEMBERS.
    destruct (next_outcome w); cbn [fst]; [|intros [= <-]; reflexivity..].
    destruct (RedisSessions.smembers _ _); intros [= <-]. reflexivity.
  - intros resp. destruct resp; no_panic.
Qed.
#[local] Hint Resolve GetUserSessions_no_panic : no_panic.



(** ** The two searches of the service *)

Lemma index_query_passes E r idx m :
  m ∈ VectorClient.index_query E r idx →
  ∃ e, idx !! qm_ID m = Some e ∧
       m = VectorClient.to_match E r (qm_ID m, e) ∧
       VectorClient.passes_filter E r (qm_ID m, e) = true.
Proof.
  unfold VectorClient.index_query. intros Hm.
  apply (λ H, elem_of_sublist _ _ _ H (sublist_take _ _)) in Hm.
  rewrite merge_sort_Permutation in Hm.
  apply list_elem_of_fmap in Hm as ([k e] & -> & Hin).
  apply list_elem_of_In, filter_In in Hin as [Hin Hpass].
  apply list_elem_of_In, elem_of_map_to_list in Hin. simpl. eauto.
Qed.

Lemma index_query_length E r idx :
  (length (VectorClient.index_query E r idx) ≤ Z.to_nat (qr_TopK r))%nat.
Proof. unfold VectorClient.index_query. rewrite length_take. lia. Qed.

(** What a successful query returns, in terms of the index before it. *)
Lemma QueryMemory_Ok_bounds E req w response w' :
  MemoryService.QueryMemory E req w = (Ok response, w') →
  (length (resp_Results response) ≤ Z.to_nat (effective_limit req))%nat ∧
  (∀ result, result ∈ resp_Results response →
     (effective_min_score req <= mr_Score result)%Q ∧
     ∃ id e, vectors w !! id = Some e ∧
             mr_Metadata result !! "id" = Some (JStr id) ∧
             filter_holds E (VectorClient.user_filter (qmr_UserID req))
               (ve_Metadata e) = true) ∧
  vectors w' = vectors w ∧ redis w' = redis w.
Proof.
  intros H. apply QueryMemory_Ok_shape in H as (emb & _ & -> & Hv & Hr).
  split_and!; [| |exact Hv|exact Hr].
  - rewrite length_fmap.
    etransitivity; [apply sublist_length, filter_sublist|].
    pose proof (index_query_length E
                  (query_request (qmr_UserID req) emb (effective_limit req))
                  (vectors w)) as Hlen.
    rewrite query_request_effective in Hlen at 2. exact Hlen.
  - intros result Hin.
    apply list_elem_of_fmap in Hin as (m & -> & Hm).
    apply list_elem_of_In, filter_In in Hm as [Hm Hscore].
    split; [by apply Qle_bool_iff|].
    apply list_elem_of_In, index_query_passes in Hm as (e & He & _ & Hpass).
    exists (qm_ID m), e. split_and!; [exact He|apply to_result_id|].
    unfold VectorClient.passes_filter, query_request in Hpass.
    cbn [qr_Filter snd] in Hpass.
    by rewrite user_filter_not_empty in Hpass.
Qed.

(** X15. The recent memories of an owner are no listing by time: they are
    the matches of the fixed text "recent conversation". A successful call
    returns at most [limit] results, 20 when the limit is not positive;
    every result scores at least 0.1 (as a float64) and stands for a vector
    of the index that the owner filter keeps; the call changes neither
    store. *)
Theorem GetRecentMemories_bounds E userID limit w results w' :
  MemoryOwner.GetRecentMemories E userID limit w = (Ok results, w') →
  head (provider_data E "recent conversation") ≠ None ∧
  Z.of_nat (length results) ≤ (if limit <=? 0 then 20 else limit) ∧
  (∀ result, result ∈ results →
     (float64_0_1 <= mr_Score result)%Q ∧
     ∃ id e, vectors w !! id = Some e ∧
             mr_Metadata result !! "id" = Some (JStr id) ∧
             filter_holds E (VectorClient.user_filter userID)
               (ve_Metadata e) = true) ∧
  vectors w' = vectors w ∧ redis w' = redis w.
Proof.
  unfold MemoryOwner.GetRecentMemories. intros H.
  apply bind_inv in H as [(e & _ & He)|(response & w1 & Hq & [= <- <-])];
    [discriminate He|].
  pose proof (QueryMemory_Ok_shape _ _ _ _ _ Hq) as (emb & Hemb & _).
  apply QueryMemory_Ok_bounds in Hq as (Hlen & Hall & Hv & Hr).
  cbn [qmr_Query] in Hemb.
  split_and!; [by rewrite Hemb| |exact Hall|exact Hv|exact Hr].
  unfold effective_limit in Hlen. cbn [qmr_Limit] in Hlen.
  destruct (limit <=? 0) eqn:Hl; [simpl in Hlen; lia|].
  rewrite Hl in Hlen. apply Z.leb_gt in Hl. lia.
Qed.

(** X16. A search by keyword embeds the keyword itself. A successful call
    returns at most [limit] results, 10 when the limit is not positive;
    every result scores at least 0.6 (as a float64) and stands for a vector
    of the index that the owner filter keeps; the call changes neither
    store. *)
Theorem SearchMemoriesByKeyword_bounds E userID keyword limit w results w' :
  MemoryOwner.SearchMemoriesByKeyword E userID keyword limit w = (Ok results, w') →
  head (provider_data E keyword) ≠ None ∧
  Z.of_nat (length results) ≤ (if limit <=? 0 then 10 else limit) ∧
  (∀ result, result ∈ results →
     (float64_0_6 <= mr_Score result)%Q ∧
     ∃ id e, vectors w !! id = Some e ∧
             mr_Metadata result !! "id" = Some (JStr id) ∧
             filter_holds E (VectorClient.user_filter userID)
               (ve_Metadata e) = true) ∧
  vectors w' = vectors w ∧ redis w' = redis w.
Proof.
  unfold MemoryOwner.SearchMemoriesByKeyword. intros H.
  apply bind_inv in H as [(e & _ & He)|(response & w1 & Hq & [= <- <-])];
    [discriminate He|].
  pose proof (QueryMemory_Ok_shape _ _ _ _ _ Hq) as (emb & Hemb & _).
  apply QueryMemory_Ok_bounds in Hq as (Hlen & Hall & Hv & Hr).
  cbn [qmr_Query] in Hemb.
  split_and!; [by rewrite Hemb| |exact Hall|exact Hv|exact Hr].
  unfold effective_limit in Hlen. cbn [qmr_Limit] in Hlen.
  destruct (limit <=? 0) eqn:Hl; [lia|]. apply Z.leb_gt in Hl. lia.
Qed.

(** ** The cleanup webhook and the tasks sent to it *)

Lemma respond_snd {A} failure (run : result A * world) :
  (respond failure run).2 = run.2.
Proof. by destruct run as [[a|[]] w]. Qed.

Lemma respond_server_error {A} (run : result A * world) :
  (respond StatusInternalServerError run).1 ≠ StatusBadRequest.
Proof. destruct run as [[a|[]] w]; simpl; discriminate. Qed.

Lemma respond_status {A} (run : result A * world) :
  ((respond StatusInternalServerError run).1 = StatusOK ↔ ∃ a, run.1 = Ok a) ∧
  ((respond StatusInternalServerError run).1 = StatusInternalServerError ↔
     ∃ e, run.1 = Err e).
Proof.
  destruct run as [[a|[]] w]; simpl; split; split;
    first [ by eauto | intros H; discriminate H
          | intros [? H]; discriminate H ].
Qed.

(** The answer to an error that is no panic. *)
Lemma respond_error {A} failure (e : error) w :
  is_panic e = false → @respond A failure (Err e, w) = (failure, w).
Proof. destruct e; [reflexivity..|intros H; discriminate H]. Qed.

(** X17. The cleanup webhook answers 400 exactly when the body is no task,
    the task type is none of the three it knows, or a task for an owner or
    a session names none; it then has made no round trip and both stores
    are as they were. Every other task is answered 200 or 500. *)
Theorem HandleCleanupWebhook_bad_request E body w :
  let status := (WebhookHandler.HandleCleanupWebhook E body w).1 in
  let w' := (WebhookHandler.HandleCleanupWebhook E body w).2 in
  (status = StatusBadRequest ↔
     match body with
     | None => True
     | Some task =>
         ct_TaskType task ≠ "cleanup_expired_memories" ∧
         (ct_TaskType task = "cleanup_user_memories" ∨
          ct_TaskType task = "cleanup_session" → ct_UserID task = "")
     end) ∧
  (status = StatusBadRequest → w' = w) ∧
  (status = StatusBadRequest ∨ status = StatusOK ∨
   status = StatusInternalServerError).
Proof.
  cbv zeta. unfold WebhookHandler.HandleCleanupWebhook.
  destruct body as [task|]; [|by split_and!; [|intros _|left]].
  destruct (String.eqb_spec (ct_TaskType task) "cleanup_expired_memories")
    as [Ht|Ht].
  { pose proof (respond_server_error
                  (MemoryService.CleanupExpiredMemories E w)) as Hne.
    split_and!.
    - split; [intros H; by destruct Hne|intros [H _]; by destruct H].
    - intros H. by destruct Hne.
    - destruct (MemoryService.CleanupExpiredMemories E w) as [[|[]] ?]; simpl; auto. }
  destruct (String.eqb_spec (ct_TaskType task) "cleanup_user_memories")
    as [Hu|Hu].
  { destruct (String.eqb_spec (ct_UserID task) "") as [Hid|Hid].
    - split_and!; [|done|by left]. split; [intros _|done]. split; [done|].
      intros _. exact Hid.
    - pose proof (respond_server_error
                    (MemoryOwner.CleanupUserMemories E (ct_UserID task) w)) as Hne.
      split_and!.
      + split; [intros H; by destruct Hne|]. intros [_ H]. destruct Hid. by auto.
      + intros H. by destruct Hne.
      + destruct (MemoryOwner.CleanupUserMemories E (ct_UserID task) w)
          as [[|[]] ?]; simpl; auto. }
  destruct (String.eqb_spec (ct_TaskType task) "cleanup_session") as [Hs|Hs].
  { destruct (String.eqb_spec (ct_UserID task) "") as [Hid|Hid].
    - split_and!; [|done|by left]. split; [intros _|done]. split; [done|].
      intros _. exact Hid.
    - pose proof (respond_server_error
                    (MemoryService.DeleteSession (ct_UserID task) false w)) as Hne.
      split_and!.
      + split; [intros H; by destruct Hne|]. intros [_ H]. destruct Hid. by auto.
      + intros H. by destruct Hne.
      + destruct (MemoryService.DeleteSession (ct_UserID task) false w)
          as [[|[]] ?]; simpl; auto. }
  split_and!; [|done|by left]. split; [intros _|done]. split; [done|].
  intros [H|H]; contradiction.
Qed.

Lemma service_DeleteSession_plain sessionID w :
  MemoryService.DeleteSession sessionID false w =
    let key := RedisClient.session_key sessionID in
    match next_outcome w with
    | Served => (Ok (), set_redis (delete key) (sent (ReqRedis (DEL key)) w))
    | Rejected =>
        (Err (Errorf "failed to delete session from Redis"
                (Errorf "failed to delete session" (errors_New "request failed"))),
         sent (ReqRedis (DEL key)) w)
    | Unacked =>
        (Err (Errorf "failed to delete session from Redis"
                (Errorf "failed to delete session" (errors_New "request failed"))),
         set_redis (delete key) (sent (ReqRedis (DEL key)) w))
    end.
Proof.
  unfold MemoryService.DeleteSession, mbind, M_bind, wrap, mret, M_ret.
  rewrite DeleteSession_run. cbv zeta.
  destruct (next_outcome w); reflexivity.
Qed.

(** X18. A session task makes one round trip, the [DEL] of the record of
    the session it names. It is answered 200 exactly when that round trip
    is served, and the record is then gone; whatever the answer, no other
    key of Redis changes, so the session stays in its owner's set, and no
    vector is removed: the memories of the session outlive it. *)
Theorem HandleCleanupWebhook_session_task E task w :
  ct_TaskType task = "cleanup_session" →
  ct_UserID task ≠ "" →
  let key := RedisClient.session_key (ct_UserID task) in
  let status := (WebhookHandler.HandleCleanupWebhook E (Some task) w).1 in
  let w' := (WebhookHandler.HandleCleanupWebhook E (Some task) w).2 in
  trace w' = (trace w ++ [ReqRedis (DEL key)])%list ∧
  vectors w' = vectors w ∧
  (∀ k, k ≠ key → redis w' !! k = redis w !! k) ∧
  (∀ userID, listed userID w' = listed userID w) ∧
  (status = StatusOK ↔ next_outcome w = Served) ∧
  (status = StatusOK → redis w' !! key = None) ∧
  (status = StatusOK ∨ status = StatusInternalServerError).
Proof.
  intros Ht Hid. cbv zeta. unfold WebhookHandler.HandleCleanupWebhook.
  rewrite Ht. cbn [String.eqb Ascii.eqb Bool.eqb].
  destruct (String.eqb_spec (ct_UserID task) "") as [H|_]; [contradiction|].
  rewrite service_DeleteSession_plain. cbv zeta.
  set (key := RedisClient.session_key (ct_UserID task)).
  assert (Hset : ∀ userID (w1 : world),
            (redis w1 = redis w ∨ redis w1 = delete key (redis w)) →
            listed userID w1 = listed userID w).
  { intros userID w1 [Hr|Hr]; unfold listed; rewrite Hr; [reflexivity|].
    rewrite lookup_delete_ne; [reflexivity|apply keys_apart]. }
  destruct (next_outcome w); cbn [respond fst snd]; simpl;
    (split_and!;
     [ reflexivity
     | reflexivity
     | intros k Hk; first [reflexivity | by rewrite lookup_delete_ne]
     | intros userID; apply Hset; simpl; auto
     | split; intros H; first [reflexivity | discriminate H]
     | intros H; first [apply lookup_delete_eq | discriminate H]
     | first [by left | by right] ]).
Qed.

Lemma q_wrap_Ok msg m q id q' :
  QStashClient.q_wrap msg m q = (Ok id, q') → m q = (Ok id, q').
Proof.
  unfold QStashClient.q_wrap.
  destruct (m q) as [[a|e] q1]; intros H; [exact H|discriminate H].
Qed.

Lemma q_round_trip_Ok effect q id q' :
  QStashClient.q_round_trip effect q = (Ok id, q') →
  QStashClient.q_next_outcome q = Served ∧
  id = QStashClient.q_fresh q ∧ q' = effect (QStashClient.q_used q).
Proof.
  unfold QStashClient.q_round_trip.
  destruct (QStashClient.q_next_outcome q); intros H;
    [|discriminate H..].
  injection H as <- <-. by split_and!.
Qed.

(** X19. The periodic cleanup the service schedules: one schedule is added
    and nothing is published; it fires at 02:00 every day, is retried three
    times, and carries the time of scheduling. Delivered to the webhook,
    whenever and however often, its task runs the sweep of the expired
    memories and is answered 200 or 500 by its result; the time the task
    carries plays no part. *)
Theorem ScheduleCleanup_task E callbackURL q scheduleID q' :
  QStashClient.ScheduleCleanup callbackURL q = (Ok scheduleID, q') →
  ∃ r,
    q_scheduled q' = (q_scheduled q ++ [r])%list ∧
    q_published q' = q_published q ∧
    sr_Destination r = callbackURL ∧
    sr_Cron r = "0 2 * * *" ∧
    sr_Retries r = 3 ∧
    ct_Timestamp (sr_Body r) = q_clock q ∧
    ∀ w, WebhookHandler.HandleCleanupWebhook E (Some (sr_Body r)) w =
           respond StatusInternalServerError
             (MemoryService.CleanupExpiredMemories E w).
Proof.
  unfold QStashClient.ScheduleCleanup, QStashClient.ScheduleCleanupTask.
  intros H. apply q_wrap_Ok, q_wrap_Ok, q_round_trip_Ok in H as (_ & _ & ->).
  eexists. split_and!; reflexivity.
Qed.

(** X20. Scheduling the cleanup of an owner through the handler: a body
    that is no request, or a request without a callback or without an
    owner, is answered 400 and nothing is published. Otherwise at most one
    message is published, and on 200 exactly one: it is delayed by the
    seconds asked for, by an hour when they are not positive, is retried
    three times, and its task, delivered to the webhook, runs the cleanup
    of that owner. No schedule is added. *)
Theorem ScheduleUserCleanup_task E body q :
  let status := (WebhookHandler.ScheduleUserCleanup body q).1 in
  let q' := (WebhookHandler.ScheduleUserCleanup body q).2 in
  (status = StatusBadRequest ↔
     match body with
     | None => True
     | Some req => sucr_CallbackURL req = "" ∨ sucr_UserID req = ""
     end) ∧
  (status = StatusBadRequest → q' = q) ∧
  q_scheduled q' = q_scheduled q ∧
  (∀ req, body = Some req → status = StatusOK →
   let delay :=
     if sucr_DelaySeconds req <=? 0 then 3600 else sucr_DelaySeconds req in
   ∃ r,
     q_published q' = (q_published q ++ [r])%list ∧
     pr_URL r = sucr_CallbackURL req ∧ pr_Delay r = delay ∧
     pr_Retries r = 3 ∧
     ct_TTL (pr_Body r) = delay ∧
     ∀ w, WebhookHandler.HandleCleanupWebhook E (Some (pr_Body r)) w =
            respond StatusInternalServerError
              (MemoryOwner.CleanupUserMemories E (sucr_UserID req) w)).
Proof.
  cbv zeta. unfold WebhookHandler.ScheduleUserCleanup,
    WebhookHandler.schedule_request_bound.
  destruct body as [req|];
    [|split_and!; [done|done|done|intros req H; discriminate H]].
  destruct (String.eqb_spec (sucr_CallbackURL req) "") as [Hc|Hc];
    cbn [negb andb].
  { split_and!; [split; auto|done|done|intros ? _ H; discriminate H]. }
  destruct (String.eqb_spec (sucr_UserID req) "") as [Hu|Hu]; cbn [negb andb].
  { split_and!; [split; auto|done|done|intros ? _ H; discriminate H]. }
  set (delay := if sucr_DelaySeconds req <=? 0 then 3600
                else sucr_DelaySeconds req).
  unfold QStashClient.ScheduleDelayedUserCleanup,
    QStashClient.PublishDelayedMemoryCleanup, QStashClient.PublishCleanupTask,
    QStashClient.q_wrap, QStashClient.q_round_trip.
  destruct (QStashClient.q_next_outcome q); cbn [fst snd].
  - split_and!; try done.
    + split; [intros H; discriminate H|intros [H|H]; contradiction].
    + intros req' [= <-] _. fold delay. eexists. split_and!; try reflexivity.
      intros w. unfold WebhookHandler.HandleCleanupWebhook.
      cbn [pr_Body ct_TaskType ct_UserID String.eqb Ascii.eqb Bool.eqb].
      destruct (String.eqb_spec (sucr_UserID req) "") as [H|_];
        [contradiction|].
      reflexivity.
  - split_and!;
      [ split; [intros H; discriminate H|intros [H|H]; contradiction]
      | intros H; discriminate H
      | reflexivity
      | intros ? _ H; discriminate H ].
  - split_and!;
      [ split; [intros H; discriminate H|intros [H|H]; contradiction]
      | intros H; discriminate H
      | reflexivity
      | intros ? _ H; discriminate H ].
Qed.

(** X21. The delayed cleanup of a session: a published message carries a
    task that, delivered to the webhook, deletes the record of that session
    and none of its memories; for an empty session id the webhook refuses
    the task with 400. *)
Theorem PublishSessionCleanup_task E callbackURL sessionID delaySeconds q
    messageID q' :
  QStashClient.PublishSessionCleanup callbackURL sessionID delaySeconds q =
    (Ok messageID, q') →
  ∃ r,
    q_published q' = (q_published q ++ [r])%list ∧
    q_scheduled q' = q_scheduled q ∧
    pr_URL r = callbackURL ∧ pr_Delay r = delaySeconds ∧ pr_Retries r = 3 ∧
    ∀ w, WebhookHandler.HandleCleanupWebhook E (Some (pr_Body r)) w =
           if String.eqb sessionID "" then (StatusBadRequest, w)
           else respond StatusInternalServerError
                  (MemoryService.DeleteSession sessionID false w).
Proof.
  unfold QStashClient.PublishSessionCleanup, QStashClient.PublishCleanupTask.
  intros H. apply q_wrap_Ok, q_round_trip_Ok in H as (_ & _ & ->).
  eexists. split_and!; reflexivity.
Qed.

(** ** What a save leaves alone *)

Lemma UpsertMemory_vectors memory w :
  let w' := (VectorClient.UpsertMemory memory w).2 in
  redis w' = redis w ∧ uuid_next w' = uuid_next w ∧ clock w' = clock w ∧
  ∀ id, id ≠ me_ID memory → vectors w' !! id = vectors w !! id.
Proof.
  unfold VectorClient.UpsertMemory, wrap, round_trip, VectorClient.index_upsert.
  destruct (next_outcome w); simpl; split_and!; try reflexivity;
    intros id Hid; by rewrite lookup_insert_ne.
Qed.

Lemma executeCommand_keeps cmd w :
  uuid_next (RedisClient.executeCommand cmd w).2 = uuid_next w ∧
  clock (RedisClient.executeCommand cmd w).2 = clock w.
Proof.
  unfold RedisClient.executeCommand, round_trip.
  destruct (next_outcome w); split; reflexivity.
Qed.

Lemma SaveSession_keeps s w :
  uuid_next (RedisClient.SaveSession s w).2 = uuid_next w ∧
  clock (RedisClient.SaveSession s w).2 = clock w.
Proof.
  unfold RedisClient.SaveSession, mbind, M_bind, wrap, mret, M_ret.
  set (c1 := SETEX _ _ _).
  destruct (executeCommand_keeps c1 w) as [Hu1 Hc1].
  destruct (RedisClient.executeCommand c1 w) as [[a1|e1] w1]; [|by split].
  set (c2 := SADD _ _).
  destruct (executeCommand_keeps c2 w1) as [Hu2 Hc2].
  destruct (RedisClient.executeCommand c2 w1) as [[a2|e2] w2];
    cbn [snd] in *; [|split; congruence].
  set (c3 := EXPIRE _ _).
  destruct (executeCommand_keeps c3 w2) as [Hu3 Hc3].
  destruct (RedisClient.executeCommand c3 w2) as [[a3|e3] w3];
    cbn [snd] in *; split; congruence.
Qed.

(** X22. A save, whatever its result, changes at most two keys of Redis
    and at most one vector, and draws exactly one id. The keys are those of
    the record it hands to [SaveSession] (the record read under the session
    id of the request, or a new one): the key of that record's session id
    and the session set of that record's owner, which is the owner named in
    the request only when the record is new. The vector is the one under the
    id drawn for the message. Every other record and every memory stored
    before are as they were, also when the save fails half way. *)
Theorem SaveMemory_frame E req w :
  let w' := (MemoryService.SaveMemory E req w).2 in
  let session := pending_session E req w in
  (∀ k, k ≠ RedisClient.session_key (sd_SessionID session) →
        k ≠ RedisClient.user_sessions_key (sd_UserID session) →
        redis w' !! k = redis w !! k) ∧
  (∀ id, id ≠ uuid_gen E (uuid_next w) → vectors w' !! id = vectors w !! id) ∧
  uuid_next w' = S (uuid_next w) ∧
  clock w' = clock w ∧
  match (RedisClient.GetSession (smr_SessionID req) w).1 with
  | Ok read =>
      sd_SessionID session = sd_SessionID read ∧
      sd_UserID session = sd_UserID read
  | Err _ =>
      sd_SessionID session = smr_SessionID req ∧
      sd_UserID session = smr_UserID req
  end.
Proof.
  cbv zeta. rewrite SaveMemory_run. cbv zeta.
  set (w2 := sent _ (set_uuid_next _ w)).
  set (session := pending_session E req w).
  destruct (RedisClient.SaveSession session w2) as [r3 w3] eqn:Hsave.
  assert (Hfr : (∀ k, k ≠ RedisClient.session_key (sd_SessionID session) →
                   k ≠ RedisClient.user_sessions_key (sd_UserID session) →
                   redis w3 !! k = redis w !! k) ∧
                vectors w3 = vectors w ∧ uuid_next w3 = S (uuid_next w) ∧
                clock w3 = clock w).
  { pose proof Hsave as Hstep.
    apply SaveSession_step in Hstep as (l & Hv & _ & _ & _ & Hk).
    split_and!.
    - intros k H1 H2. rewrite Hk; [reflexivity|]. set_solver.
    - exact Hv.
    - pose proof (SaveSession_keeps session w2) as [Hu _].
      rewrite Hsave in Hu. exact Hu.
    - pose proof (SaveSession_keeps session w2) as [_ Hc].
      rewrite Hsave in Hc. exact Hc. }
  destruct Hfr as (Hk & Hv & Hu & Hc).
  assert (Hrec : match (RedisClient.GetSession (smr_SessionID req) w).1 with
                 | Ok read =>
                     sd_SessionID session = sd_SessionID read ∧
                     sd_UserID session = sd_UserID read
                 | Err _ =>
                     sd_SessionID session = smr_SessionID req ∧
                     sd_UserID session = smr_UserID req
                 end).
  { unfold session, pending_session.
    destruct (RedisClient.GetSession (smr_SessionID req) w).1; by split. }
  destruct r3 as [[]|e];
    [|by split_and!; [|intros id _; cbn [snd]; rewrite Hv|..]].
  rewrite GenerateEmbedding_run.
  destruct (match next_outcome w3 with Served => _ | _ => _ end) as [emb|e];
    [|by split_and!; [|intros id _; simpl; rewrite Hv|..]].
  set (w4 := sent (ReqEmbed (smr_Content req)) w3).
  destruct (UpsertMemory_vectors (pending_entry E req w emb) w4)
    as (Hr5 & Hu5 & Hc5 & Hv5).
  destruct (VectorClient.UpsertMemory (pending_entry E req w emb) w4)
    as [[[]|e] w5] eqn:Hup; cbn [fst snd] in *;
    (split_and!;
     [ intros k H1 H2; rewrite Hr5; by apply Hk
     | intros id Hid; rewrite (Hv5 id Hid); simpl; by rewrite Hv
     | by rewrite Hu5
     | by rewrite Hc5
     | exact Hrec ]).
Qed.

(** ** The handlers of the memory API *)

(** X23. The save handler answers 400 exactly when the body is no request
    or one of the owner, the session, the content and the role is empty; it
    then has made no round trip and both stores are as they were. Every
    other request reaches the service and is answered 200 when the save
    succeeds and 500 when it fails. *)
Theorem handler_SaveMemory_status E body w :
  let status := (MemoryHandler.SaveMemory E body w).1 in
  let w' := (MemoryHandler.SaveMemory E body w).2 in
  (status = StatusBadRequest ↔
     match body with
     | None => True
     | Some req =>
         smr_UserID req = "" ∨ smr_SessionID req = "" ∨
         smr_Content req = "" ∨ smr_Role req = ""
     end) ∧
  (status = StatusBadRequest → w' = w) ∧
  (∀ req, body = Some req → status ≠ StatusBadRequest →
     w' = (MemoryService.SaveMemory E req w).2 ∧
     (status = StatusOK ↔ (MemoryService.SaveMemory E req w).1 = Ok ()) ∧
     (status = StatusInternalServerError ↔
        ∃ e, (MemoryService.SaveMemory E req w).1 = Err e)).
Proof.
  cbv zeta. unfold MemoryHandler.SaveMemory, MemoryHandler.save_request_bound.
  destruct body as [req|]; [|by split_and!].
  destruct (String.eqb_spec (smr_UserID req) "") as [H1|H1]; cbn [negb andb].
  { split_and!; [split; auto|done|intros ? _ H; by destruct H]. }
  destruct (String.eqb_spec (smr_SessionID req) "") as [H2|H2]; cbn [negb andb].
  { split_and!; [split; auto|done|intros ? _ H; by destruct H]. }
  destruct (String.eqb_spec (smr_Content req) "") as [H3|H3]; cbn [negb andb].
  { split_and!; [split; auto|done|intros ? _ H; by destruct H]. }
  destruct (String.eqb_spec (smr_Role req) "") as [H4|H4]; cbn [negb andb].
  { split_and!; [split; auto|done|intros ? _ H; by destruct H]. }
  pose proof (respond_server_error (MemoryService.SaveMemory E req w)) as Hne.
  split_and!.
  - split; [intros H; by destruct Hne|]. intros [H|[H|[H|H]]]; contradiction.
  - intros H. by destruct Hne.
  - intros req' [= <-] _. rewrite respond_snd.
    destruct (respond_status (MemoryService.SaveMemory E req w)) as [Hok Herr].
    split_and!; [reflexivity| |exact Herr].
    rewrite Hok. split; [intros [[] H]; exact H|intros H; by eexists].
Qed.

(** X24. The session handler knows no 500: every failure of the service is
    answered 404, the failed round trip to Redis and the record that cannot
    be decoded as much as the missing record. It answers 200 exactly when
    the read is served and the record under the key can be decoded; on 404
    one round trip was made and Redis is as it was. *)
Theorem handler_GetSession_status sessionID w :
  sessionID ≠ "" →
  let status := (MemoryHandler.GetSession sessionID w).1 in
  let w' := (MemoryHandler.GetSession sessionID w).2 in
  let key := RedisClient.session_key sessionID in
  (status = StatusOK ∨ status = StatusNotFound) ∧
  (status = StatusOK ↔
     next_outcome w = Served ∧ ∃ session, decode (redis w !! key) = Ok session) ∧
  (status = StatusNotFound →
     redis w' = redis w ∧ trace w' = (trace w ++ [ReqRedis (GET key)])%list).
Proof.
  intros Hid. cbv zeta. unfold MemoryHandler.GetSession.
  destruct (String.eqb_spec sessionID "") as [H|_]; [contradiction|].
  rewrite service_GetSession_run, GetSession_run. cbv zeta. cbn [fst].
  destruct (next_outcome w).
  - destruct (decode (redis w !! RedisClient.session_key sessionID))
      as [session|e]; cbn [respond fst snd].
    + split_and!; [by left| |intros H; discriminate H].
      split; [intros _|done]. split; [done|by eexists].
    + split_and!; [by right| |done].
      split; [intros H; discriminate H|]. intros [_ [s H]]. discriminate H.
  - cbn [respond fst snd]. split_and!; [by right| |done].
    split; [intros H; discriminate H|]. intros [H _]. discriminate H.
  - cbn [respond fst snd]. split_and!; [by right| |done].
    split; [intros H; discriminate H|]. intros [H _]. discriminate H.
Qed.

(** X25. The delete handler answers a memory that is not in the index with
    500, as it answers any failure of the service: there is no 404 for it,
    and nothing is deleted. Without a memory id or without an owner it
    answers 400 and makes no round trip. *)
Theorem handler_DeleteMemory_absent E memoryID userID w :
  let status := (MemoryHandler.DeleteMemory E memoryID userID w).1 in
  let w' := (MemoryHandler.DeleteMemory E memoryID userID w).2 in
  (status = StatusBadRequest ↔ memoryID = "" ∨ userID = "") ∧
  (status = StatusBadRequest → w' = w) ∧
  (vectors w !! memoryID = None →
   vectors w' = vectors w ∧
   (status = StatusBadRequest ∨ status = StatusInternalServerError)).
Proof.
  cbv zeta. unfold MemoryHandler.DeleteMemory.
  destruct (String.eqb_spec memoryID "") as [Hm|Hm].
  { split_and!; [split; auto|done|intros _; split; [done|by left]]. }
  destruct (String.eqb_spec userID "") as [Hu|Hu].
  { split_and!; [split; auto|done|intros _; split; [done|by left]]. }
  pose proof (respond_server_error
                (MemoryService.DeleteMemory E memoryID userID w)) as Hne.
  split_and!.
  - split; [intros H; by destruct Hne|intros [H|H]; contradiction].
  - intros H. by destruct Hne.
  - intros Habs.
    destruct (service_DeleteMemory_absent E memoryID userID w Habs)
      as (Hv & Herr & _).
    rewrite respond_snd. split; [exact Hv|right].
    destruct (MemoryService.DeleteMemory E memoryID userID w) as [[[]|e] w1];
      [|destruct e; reflexivity].
    cbn [fst] in Herr. destruct Herr as [H|[e H]]; discriminate H.
Qed.

Lemma service_DeleteSession_Ok sessionID deleteMemories w w' :
  MemoryService.DeleteSession sessionID deleteMemories w = (Ok (), w') →
  redis w' !! RedisClient.session_key sessionID = None.
Proof.
  unfold MemoryService.DeleteSession, mbind, M_bind, wrap, mret, M_ret.
  destruct deleteMemories.
  - rewrite GetSession_run.
    destruct (match next_outcome w with Served => _ | _ => _ end) as [s|e];
      [|intros H; discriminate H].
    rewrite DeleteSession_run. cbv zeta.
    destruct (next_outcome _); intros H; [|discriminate H..].
    injection H as <-. simpl. apply lookup_delete_eq.
  - rewrite DeleteSession_run. cbv zeta.
    destruct (next_outcome _); intros H; [|discriminate H..].
    injection H as <-. simpl. apply lookup_delete_eq.
Qed.

(** X26. The handler that deletes a session never removes a memory, with
    or without the flag: whatever the query string says, the index is as it
    was, every round trip goes to Redis and no key but the record of the
    session changes. It answers 200 only when the record is gone. Only the
    exact text "true" asks for the deletion of the memories; with any other
    text the handler makes one round trip, the [DEL] of the record. *)
Theorem handler_DeleteSession_effect sessionID deleteMemoriesStr w :
  sessionID ≠ "" →
  let key := RedisClient.session_key sessionID in
  let status := (MemoryHandler.DeleteSession sessionID deleteMemoriesStr w).1 in
  let w' := (MemoryHandler.DeleteSession sessionID deleteMemoriesStr w).2 in
  vectors w' = vectors w ∧
  (∃ l, trace w' = (trace w ++ l)%list ∧ Forall is_redis l) ∧
  (∀ k, k ≠ key → redis w' !! k = redis w !! k) ∧
  (status = StatusOK ∨ status = StatusInternalServerError) ∧
  (status = StatusOK → redis w' !! key = None) ∧
  (deleteMemoriesStr ≠ "true" →
   trace w' = (trace w ++ [ReqRedis (DEL key)])%list ∧
   (status = StatusOK ↔ next_outcome w = Served)).
Proof.
  intros Hid. cbv zeta. unfold MemoryHandler.DeleteSession.
  destruct (String.eqb_spec sessionID "") as [H|_]; [contradiction|].
  set (flag := String.eqb deleteMemoriesStr "true").
  destruct (DeleteSession_frame sessionID flag w) as (Hv & Htr & Hr).
  rewrite respond_snd.
  split_and!; [exact Hv|exact Htr| | | |].
  - intros k Hk. destruct Hr as [->| ->]; [reflexivity|].
    by rewrite lookup_delete_ne.
  - destruct (MemoryService.DeleteSession sessionID flag w) as [[[]|[]] w1];
      simpl; auto.
  - destruct (MemoryService.DeleteSession sessionID flag w) as [[[]|[]] w1] eqn:Hd;
      cbn [respond fst snd]; [|intros H; discriminate H..].
    intros _. by apply service_DeleteSession_Ok in Hd.
  - intros Hflag. subst flag.
    destruct (String.eqb_spec deleteMemoriesStr "true") as [H|_];
      [contradiction|].
    rewrite service_DeleteSession_plain. cbv zeta.
    destruct (next_outcome w); cbn [respond fst snd]; simpl;
      (split; [reflexivity|]); split; intros H;
      first [reflexivity | discriminate H].
Qed.

(** * The properties on the scenarios *)

Section OnScenarios.
Import Scenario.

(** A save whose SETEX is rejected fails and leaves the vector store as it
    was; a save whose embedding request is rejected fails with the message
    already in the stored session. *)
Lemma SaveMemory_failure_semantics_witness :
  outcome_at 1 (with_upstream [Served; Rejected] w0) ≠ Served ∧
  is_Ok (MemoryService.SaveMemory E0 alice_cat
           (with_upstream [Served; Rejected] w0)).1 = false ∧
  vectors (MemoryService.SaveMemory E0 alice_cat
             (with_upstream [Served; Rejected] w0)).2 = ∅ ∧
  ∃ session prior,
    redis (MemoryService.SaveMemory E0 alice_cat
             (with_upstream [Served; Served; Served; Served; Rejected] w0)).2
      !! RedisClient.session_key (sd_SessionID session) =
      Some {| re_value := RString (Encoded session); re_ttl := Some 86400 |} ∧
    sd_Messages session =
      (prior ++ [new_message E0 alice_cat
                   (with_upstream [Served; Served; Served; Served; Rejected] w0)])%list.
Proof.
  destruct (SaveMemory_failure_semantics E0 alice_cat
              (with_upstream [Served; Rejected] w0)) as (H1 & H2 & _ & _).
  destruct (SaveMemory_failure_semantics E0 alice_cat
              (with_upstream [Served; Served; Served; Served; Rejected] w0))
    as (_ & _ & H3 & _).
  assert (Hne : outcome_at 1 (with_upstream [Served; Rejected] w0) ≠ Served)
    by (vm_compute; discriminate).
  split_and!.
  - exact Hne.
  - apply (H1 1%nat); [lia|exact Hne].
  - destruct (H2 (Errorf "failed to save session" (errors_New "request failed")))
      as [Hv _]; [vm_compute; reflexivity|].
    rewrite Hv. reflexivity.
  - destruct (H3 (errors_New "request failed")) as (session & prior & Hk & Hm & _);
      [left; vm_compute; reflexivity|].
    exists session, prior. split; assumption.
Defined.

(** alice's query for "pet" after her save returns the one memory. *)
Lemma QueryMemory_results_witness :
  ∃ response w',
    MemoryService.QueryMemory E0 query_pet w1 = (Ok response, w') ∧
    Forall (λ result, (1 # 10 <= mr_Score result)%Q) (resp_Results response) ∧
    resp_Total response = Z.of_nat (length (resp_Results response)).
Proof.
  destruct (MemoryService.QueryMemory E0 query_pet w1) as [[response|e] w']
    eqn:Hrun; [|vm_compute in Hrun; discriminate Hrun].
  exists response, w'. split; [reflexivity|].
  destruct (QueryMemory_results E0 query_pet w1 response w' Hrun)
    as (emb & ms & _ & _ & _ & _ & _ & Hmin & _ & Htotal & _).
  split; [exact Hmin|exact Htotal].
Defined.

(** alice's first save: the vector store holds the embedding under the id
    of the message, with the ttl of 30 days. *)
Lemma SaveMemory_success_witness :
  MemoryService.SaveMemory E0 alice_cat w0 = (Ok (), w1) ∧
  ∃ metadata,
    vectors w1 !! "memory-0" =
      Some {| ve_Vector := [1%Q; 0%Q]; ve_Metadata := Some metadata |} ∧
    metadata !! "ttl" = Some (JNum (inject_Z 2592000)).
Proof.
  assert (Hrun : MemoryService.SaveMemory E0 alice_cat w0 = (Ok (), w1))
    by (vm_compute; reflexivity).
  split; [exact Hrun|].
  destruct (SaveMemory_success E0 alice_cat w0 w1 Hrun)
    as (entry & metadata & session & prior & Hhead & _ & _ & _ & _ & _ & _ &
        Hv & _ & _ & Httl & _).
  exists metadata. split; [|exact Httl].
  injection Hhead as Hemb. rewrite <- Hemb in Hv. exact Hv.
Defined.



(** Deleting an id that alice's store does not hold reports it absent and
    changes nothing; deleting her memory twice reports it absent the second
    time. *)
Lemma DeleteMemory_idempotent_witness :
  vectors w1 !! "ghost" = None ∧
  upstream w1 = [] ∧
  (MemoryService.DeleteMemory E0 "ghost" "alice" w1).1 = Err absent_report ∧
  vectors (MemoryService.DeleteMemory E0 "ghost" "alice" w1).2 = vectors w1 ∧
  (MemoryService.DeleteMemory E0 "memory-0" "alice" w1).1 = Ok () ∧
  (MemoryService.DeleteMemory E0 "memory-0" "alice"
     (MemoryService.DeleteMemory E0 "memory-0" "alice" w1).2).1 =
    Err absent_report.
Proof.
  destruct (DeleteMemory_idempotent E0 "ghost" "alice") as (_ & Habs & _).
  destruct (DeleteMemory_idempotent E0 "memory-0" "alice") as (_ & _ & Htwice).
  assert (Hg : vectors w1 !! "ghost" = None) by (vm_compute; reflexivity).
  assert (Hup : upstream w1 = []) by (vm_compute; reflexivity).
  assert (Hdata : provider_data E0 "verify memory ownership" ≠ [])
    by (vm_compute; discriminate).
  destruct (Habs w1 Hg) as (Hv & _ & Hr).
  assert (Hfirst : MemoryService.DeleteMemory E0 "memory-0" "alice" w1 =
                   (Ok (), (MemoryService.DeleteMemory E0 "memory-0" "alice" w1).2))
    by (vm_compute; reflexivity).
  destruct (Htwice w1 _ Hfirst) as (_ & _ & _ & Hr2).
  split_and!; [exact Hg|exact Hup|exact (Hr Hup Hdata)|exact Hv| |].
  - vm_compute; reflexivity.
  - apply Hr2; [vm_compute; reflexivity|exact Hdata].
Defined.

(** Setting a key of the context of alice's session and reading the
    session back. *)
Lemma SetSessionContext_GetSession_witness :
  upstream w1 = [] ∧
  redis w1 !! RedisClient.session_key "s1" =
    Some {| re_value := RString (Encoded s1); re_ttl := Some 86400 |} ∧
  ∃ w2 w3 session merged,
    MemoryService.SetSessionContext "s1" {[ "mood" := JStr "curious" ]} w1 =
      (Ok (), w2) ∧
    MemoryService.GetSession "s1" w2 = (Ok session, w3) ∧
    sd_Context session = Some merged ∧
    merged !! "mood" = Some (JStr "curious").
Proof.
  assert (Hup : upstream w1 = []) by (vm_compute; reflexivity).
  assert (Hs : redis w1 !! RedisClient.session_key "s1" =
               Some {| re_value := RString (Encoded s1); re_ttl := Some 86400 |})
    by (vm_compute; reflexivity).
  split_and!; [exact Hup|exact Hs|].
  destruct (SetSessionContext_GetSession "s1" {[ "mood" := JStr "curious" ]} w1)
    as [Hset _].
  destruct (Hset s1 (Some 86400) Hup Hs eq_refl)
    as (w2 & w3 & session & merged & Hrun & _ & Hget & Hctx & Hnew & _).
  { intros v t' Hbad. vm_compute in Hbad. discriminate Hbad. }
  exists w2, w3, session, merged. split_and!; [exact Hrun|exact Hget|exact Hctx|].
  apply Hnew. vm_compute. reflexivity.
Defined.

(** Deleting alice's session with the cascade flag: the session key is
    gone, her memory is still in the vector store. *)
Lemma DeleteSession_cascade_is_noop_witness :
  (MemoryService.DeleteSession "s1" true w1).1 = Ok () ∧
  redis (MemoryService.DeleteSession "s1" true w1).2 =
    delete (RedisClient.session_key "s1") (redis w1) ∧
  vectors (MemoryService.DeleteSession "s1" true w1).2 = vectors w1.
Proof.
  destruct (DeleteSession_cascade_is_noop "s1" w1) as (Hv & _ & _ & Hr).
  assert (Hok : (MemoryService.DeleteSession "s1" true w1).1 = Ok ())
    by (vm_compute; reflexivity).
  split_and!; [exact Hok|exact (Hr Hok)|exact Hv].
Defined.

(** A query on the empty store succeeds with no result; a query whose
    embedding request is rejected fails. *)
Lemma QueryMemory_error_iff_witness :
  MemoryService.QueryMemory E0 query_pet w0 =
    (Ok {| resp_Results := []; resp_Total := 0 |},
     (MemoryService.QueryMemory E0 query_pet w0).2) ∧
  is_Ok (GenerateEmbedding E0 (qmr_Query query_pet)
           (with_upstream [Rejected] w0)).1 = false ∧
  is_Ok (MemoryService.QueryMemory E0 query_pet
           (with_upstream [Rejected] w0)).1 = false.
Proof.
  destruct (QueryMemory_error_iff E0 query_pet w0) as [_ Hzero].
  destruct (QueryMemory_error_iff E0 query_pet (with_upstream [Rejected] w0))
    as [Hiff _].
  assert (Hdown : is_Ok (GenerateEmbedding E0 (qmr_Query query_pet)
                           (with_upstream [Rejected] w0)).1 = false)
    by (vm_compute; reflexivity).
  split_and!; [|exact Hdown|apply Hiff; left; exact Hdown].
  rewrite (Hzero [1%Q; 0%Q]); [vm_compute; reflexivity|vm_compute; reflexivity..|].
  vm_compute. constructor.
Defined.

(** No session "s9" is stored: deleting it with the flag fails after the
    read, deleting it without the flag succeeds. *)
Lemma DeleteSession_of_unreadable_session_witness :
  is_Ok (RedisClient.GetSession "s9" w1).1 = false ∧
  next_outcome w1 = Served ∧
  is_Ok (MemoryService.DeleteSession "s9" true w1).1 = false ∧
  redis (MemoryService.DeleteSession "s9" true w1).2 = redis w1 ∧
  (MemoryService.DeleteSession "s9" false w1).1 = Ok () ∧
  redis (MemoryService.DeleteSession "s9" false w1).2 = redis w1.
Proof.
  assert (Hget : is_Ok (RedisClient.GetSession "s9" w1).1 = false)
    by (vm_compute; reflexivity).
  assert (Ho : next_outcome w1 = Served) by (vm_compute; reflexivity).
  destruct (DeleteSession_of_unreadable_session "s9" w1 Hget)
    as [(e & w' & Hrun & _ & Hr & _) Hplain].
  destruct (Hplain Ho) as (w'' & Hrun2 & _ & _ & _ & Hsame).
  split_and!; [exact Hget|exact Ho|..].
  - rewrite Hrun. reflexivity.
  - rewrite Hrun. exact Hr.
  - rewrite Hrun2. reflexivity.
  - rewrite Hrun2. apply Hsame. vm_compute. reflexivity.
Defined.


(** Deleting alice's memory twice: the first delete succeeds and is
    answered 200, the second fails and is answered 500, as does the delete
    of an id that was never stored. *)
Lemma DeleteMemory_twice_differs :
  (MemoryService.DeleteMemory E0 "memory-0" "alice" w1).1 = Ok () ∧
  (MemoryService.DeleteMemory E0 "memory-0" "alice"
     (MemoryService.DeleteMemory E0 "memory-0" "alice" w1).2).1 =
    Err absent_report ∧
  (MemoryHandler.DeleteMemory E0 "memory-0" "alice" w1).1 = StatusOK ∧
  (MemoryHandler.DeleteMemory E0 "memory-0" "alice"
     (MemoryHandler.DeleteMemory E0 "memory-0" "alice" w1).2).1 =
    StatusInternalServerError ∧
  (MemoryHandler.DeleteMemory E0 "ghost" "alice" w1).1 =
    StatusInternalServerError.
Proof. split_and!; vm_compute; reflexivity. Qed.

(** Two behaviours next to the properties above, on the scenarios. *)

(** When the read of an existing session is rejected, the save takes the
    session for a new one: the record it persists holds the new message
    alone. *)
Example SaveMemory_after_rejected_read :
  match (RedisClient.GetSession "s1"
           (MemoryService.SaveMemory E0 alice_grey
              (with_upstream [Rejected] w1)).2).1 with
  | Ok session => sd_Messages session
  | Err _ => []
  end
  = [{| msg_ID := "memory-1"; msg_Role := "user"; msg_Content := "It is grey";
        msg_Timestamp := 1700000000000000000 |}].
Proof. vm_compute. reflexivity. Qed.

(** The service verifies ownership with a query of threshold 0, which the
    query turns into 0.5: a memory of the owner that scores below it is
    reported absent and stays. *)
Example DeleteMemory_low_score :
  let w := set_vectors
             (λ _, {[ "far" := {| ve_Vector := [0%Q; 1%Q];
                                  ve_Metadata :=
                                    Some {[ "user_id" := JStr "alice" ]} |} ]})
             w0 in
  (MemoryService.DeleteMemory E0 "far" "alice" w).1 = Err absent_report ∧
  is_Some (vectors (MemoryService.DeleteMemory E0 "far" "alice" w).2 !! "far").
Proof. split; [vm_compute; reflexivity|]. vm_compute. eauto. Qed.


(** ** The further properties on the scenarios *)

(** alice's session record, saved on the empty store, is read back. *)
Lemma SaveSession_then_GetSession_witness :
  ∃ wa wb,
    RedisClient.SaveSession s1 w0 = (Ok (), wa) ∧
    RedisClient.GetSession (sd_SessionID s1) wa = (Ok s1, wb).
Proof.
  assert (Hup : upstream w0 = []) by reflexivity.
  assert (Hfree : set_key_free (sd_UserID s1) w0).
  { intros v t H. vm_compute in H. discriminate H. }
  destruct (SaveSession_then_GetSession s1 w0 Hup Hfree)
    as (wa & wb & Hsave & _ & Hget).
  exists wa, wb. split; [exact Hsave|exact Hget].
Defined.

(** Saving alice's record lists "s1" for her. *)
Lemma SaveSession_registers_session_witness :
  listed (sd_UserID s1) (RedisClient.SaveSession s1 w0).2 =
    {[ sd_SessionID s1 ]} ∪ listed (sd_UserID s1) w0.
Proof.
  assert (Hrun : RedisClient.SaveSession s1 w0 =
                 (Ok (), (RedisClient.SaveSession s1 w0).2))
    by (vm_compute; reflexivity).
  destruct (SaveSession_registers_session s1 w0 _ Hrun) as (_ & Hl & _).
  exact Hl.
Defined.

(** After her save alice has her sessions listed without repetition; bob,
    who has no set, has none. *)
Lemma GetUserSessions_lists_members_witness :
  (∃ sessions,
     (RedisSessions.GetUserSessions "alice" w1).1 = Ok sessions ∧
     NoDup sessions) ∧
  (RedisSessions.GetUserSessions "bob" w1).1 = Ok [].
Proof.
  assert (Ho : next_outcome w1 = Served) by (vm_compute; reflexivity).
  destruct (GetUserSessions_lists_members "alice" w1 Ho) as (_ & _ & Hset & _).
  destruct (GetUserSessions_lists_members "bob" w1 Ho) as (_ & _ & _ & Hnone & _).
  split.
  - destruct Hset as (sessions & Hr & Hnd & _).
    { intros v t H. vm_compute in H. discriminate H. }
    exists sessions. split; [exact Hr|exact Hnd].
  - apply Hnone. vm_compute. reflexivity.
Defined.

(** alice's session, saved and then deleted, is not found and is still
    listed. *)
Lemma deleted_session_stays_listed_witness :
  ∃ w2 w3 w4 sessions,
    RedisClient.DeleteSession (sd_SessionID s1)
      (RedisClient.SaveSession s1 w0).2 = (Ok (), w2) ∧
    RedisClient.GetSession (sd_SessionID s1) w2 =
      (Err (errors_New "session not found"), w3) ∧
    RedisSessions.GetUserSessions (sd_UserID s1) w3 = (Ok sessions, w4) ∧
    sd_SessionID s1 ∈ sessions.
Proof.
  assert (Hrun : RedisClient.SaveSession s1 w0 =
                 (Ok (), (RedisClient.SaveSession s1 w0).2))
    by (vm_compute; reflexivity).
  assert (Hup : upstream (RedisClient.SaveSession s1 w0).2 = [])
    by (vm_compute; reflexivity).
  exact (deleted_session_stays_listed s1 w0 _ Hrun Hup).
Defined.

(** A message added to alice's session comes after her own; added to a
    session that is not stored it is refused. *)
Lemma AddMessageToSession_appends_witness :
  (∃ wa session,
     RedisSessions.AddMessageToSession "s1" hello w1 = (Ok (), wa) ∧
     sd_Messages session = (sd_Messages s1 ++ [hello])%list ∧
     redis wa !! RedisClient.session_key "s1" =
       Some {| re_value := RString (Encoded session); re_ttl := Some 86400 |}) ∧
  (∃ wa,
     RedisSessions.AddMessageToSession "s9" hello w1 =
       (Err (errors_New "session not found"), wa) ∧
     redis wa = redis w1).
Proof.
  destruct (AddMessageToSession_appends "s1" hello w1) as [Hadd _].
  destruct (AddMessageToSession_appends "s9" hello w1) as [_ Hnone].
  split.
  - destruct (Hadd s1 (Some 86400)) as (wa & session & Hrun & Hk & Hm & _).
    + vm_compute. reflexivity.
    + vm_compute. reflexivity.
    + reflexivity.
    + intros v t H. vm_compute in H. discriminate H.
    + exists wa, session. split_and!; [exact Hrun|exact Hm|exact Hk].
  - apply Hnone; vm_compute; reflexivity.
Defined.

(** Reading alice's session while the refresh is rejected still returns the
    record. *)
Lemma GetSession_best_effort_refresh_witness :
  (MemoryService.GetSession "s1"
     (with_upstream [Served; Served; Rejected] w1)).1 = Ok s1 ∧
  redis (MemoryService.GetSession "s1" w1).2 !! RedisClient.session_key "s1" =
    Some {| re_value := RString (Encoded (with_LastActivity (clock w1) s1));
            re_ttl := Some 86400 |}.
Proof.
  destruct (GetSession_best_effort_refresh "s1"
              (with_upstream [Served; Served; Rejected] w1)) as (_ & Hread & _).
  destruct (GetSession_best_effort_refresh "s1" w1) as (_ & Hcalm & _).
  split.
  - refine (proj1 (Hread s1 (Some 86400) _ _)); vm_compute; reflexivity.
  - refine (proj2 (Hcalm s1 (Some 86400) _ _) _ _ _);
      try (vm_compute; reflexivity).
    intros v t H. vm_compute in H. discriminate H.
Defined.

(** The dimension 2 is fetched once and served from the client from then
    on; the dimension -3 is returned and stored, and fetched again by the
    next call. *)
Lemma GetDimensions_caches_witness :
  VectorClient.GetDimensions E0 (VectorClient.GetDimensions E0 w0).2 =
    (Ok 2, (VectorClient.GetDimensions E0 w0).2) ∧
  (VectorClient.GetDimensions E_negative w0).1 = Ok (-3) ∧
  vc_dimensions (VectorClient.GetDimensions E_negative w0).2 = -3 ∧
  trace (VectorClient.GetDimensions E_negative
           (VectorClient.GetDimensions E_negative w0).2).2 =
    (trace (VectorClient.GetDimensions E_negative w0).2 ++ [ReqInfo])%list.
Proof.
  destruct (GetDimensions_caches E0 w0) as [Hpos _].
  destruct (GetDimensions_caches E_negative w0) as [Hneg _].
  assert (H2 : (VectorClient.GetDimensions E0 w0).1 = Ok 2)
    by (vm_compute; reflexivity).
  assert (H3 : (VectorClient.GetDimensions E_negative w0).1 = Ok (-3))
    by (vm_compute; reflexivity).
  destruct (Hpos 2 H2) as (_ & _ & Hhit & _).
  destruct (Hneg (-3) H3) as (_ & Hstored & _ & Hagain).
  split_and!; [apply Hhit; lia|exact H3|exact Hstored|].
  apply Hagain. lia.
Defined.


(** An entry whose own metadata names mallory is stored as mallory's,
    though the entry is alice's. *)
Lemma UpsertMemory_metadata_precedence_witness :
  ∃ md,
    vectors (VectorClient.UpsertMemory forged w0).2 !! "m-forged" =
      Some {| ve_Vector := [1%Q; 0%Q]; ve_Metadata := Some md |} ∧
    md !! "user_id" = Some (JStr "mallory") ∧
    md !! "content" = Some (JStr "note").
Proof.
  assert (Hrun : VectorClient.UpsertMemory forged w0 =
                 (Ok (), (VectorClient.UpsertMemory forged w0).2))
    by (vm_compute; reflexivity).
  destruct (UpsertMemory_metadata_precedence forged w0 _ Hrun)
    as (md & Hv & Hown & _ & Hcontent & _).
  exists md. split_and!; [exact Hv| |].
  - apply Hown. vm_compute. reflexivity.
  - apply Hcontent. vm_compute. reflexivity.
Defined.

(** The result of alice's query names a vector of her store in its
    metadata and has no id of its own. *)
Lemma QueryMemory_result_identity_witness :
  ∃ response w' result,
    MemoryService.QueryMemory E0 query_pet w1 = (Ok response, w') ∧
    result ∈ resp_Results response ∧
    mr_ID result = "" ∧
    ∃ id e, vectors w1 !! id = Some e ∧
            mr_Metadata result !! "id" = Some (JStr id).
Proof.
  destruct (MemoryService.QueryMemory E0 query_pet w1) as [[response|e] w']
    eqn:Hrun; [|vm_compute in Hrun; discriminate Hrun].
  assert (Hne : resp_Results response ≠ []).
  { pose proof Hrun as Hc. vm_compute in Hc. injection Hc as <- _.
    intros H. discriminate H. }
  destruct (resp_Results response) as [|result rest] eqn:Hres;
    [contradiction|].
  assert (Hin : result ∈ resp_Results response) by (rewrite Hres; left).
  destruct (QueryMemory_result_identity E0 query_pet w1 response w' result
              Hrun Hin) as (Hid & id & entry & He & Hmd & _).
  exists response, w', result.
  split_and!; [reflexivity|exact Hin|exact Hid|].
  exists id, entry. split; [exact He|exact Hmd].
Defined.

(** alice's memory is found by her query right after the save. *)
Lemma SaveMemory_then_QueryMemory_witness :
  ∃ response w2 result,
    MemoryService.QueryMemory E0 query_pet w1 = (Ok response, w2) ∧
    result ∈ resp_Results response ∧
    mr_Content result = "I have a cat" ∧
    mr_Metadata result !! "session_id" = Some (JStr "s1").
Proof.
  destruct (SaveMemory_then_QueryMemory E0 alice_cat query_pet w0 w1
              [1%Q; 0%Q] [1%Q; 0%Q])
    as (response & w2 & result & Hrun & Hin & Hcontent & _ & _ & Hsid & _).
  - vm_compute. reflexivity.
  - vm_compute. reflexivity.
  - reflexivity.
  - intros md Hmd. unfold E0. cbn [filter_holds mbind option_bind].
    rewrite Hmd. reflexivity.
  - vm_compute. discriminate.
  - vm_compute. discriminate.
  - reflexivity.
  - reflexivity.
  - vm_compute. discriminate.
  - exists response, w2, result.
    split_and!; [exact Hrun|exact Hin|exact Hcontent|exact Hsid].
Defined.



(** alice's recent memories, asked for without a limit. *)
Lemma GetRecentMemories_bounds_witness :
  ∃ results w',
    MemoryOwner.GetRecentMemories E0 "alice" 0 w1 = (Ok results, w') ∧
    results ≠ [] ∧
    Z.of_nat (length results) ≤ 20 ∧
    (∀ result, result ∈ results → (float64_0_1 <= mr_Score result)%Q) ∧
    vectors w' = vectors w1.
Proof.
  destruct (MemoryOwner.GetRecentMemories E0 "alice" 0 w1) as [[results|e] w']
    eqn:Hrun; [|vm_compute in Hrun; discriminate Hrun].
  assert (Hne : results ≠ []).
  { pose proof Hrun as Hc. vm_compute in Hc. injection Hc as <- _.
    intros H. discriminate H. }
  destruct (GetRecentMemories_bounds E0 "alice" 0 w1 results w' Hrun)
    as (_ & Hlen & Hall & Hv & _).
  exists results, w'. split_and!; [reflexivity|exact Hne|exact Hlen| |exact Hv].
  intros result Hin. exact (proj1 (Hall result Hin)).
Defined.

(** alice's search for "cat", asked for without a limit. *)
Lemma SearchMemoriesByKeyword_bounds_witness :
  ∃ results w',
    MemoryOwner.SearchMemoriesByKeyword E0 "alice" "cat" 0 w1 = (Ok results, w') ∧
    results ≠ [] ∧
    Z.of_nat (length results) ≤ 10 ∧
    (∀ result, result ∈ results → (float64_0_6 <= mr_Score result)%Q) ∧
    vectors w' = vectors w1.
Proof.
  destruct (MemoryOwner.SearchMemoriesByKeyword E0 "alice" "cat" 0 w1)
    as [[results|e] w'] eqn:Hrun; [|vm_compute in Hrun; discriminate Hrun].
  assert (Hne : results ≠ []).
  { pose proof Hrun as Hc. vm_compute in Hc. injection Hc as <- _.
    intros H. discriminate H. }
  destruct (SearchMemoriesByKeyword_bounds E0 "alice" "cat" 0 w1 results w' Hrun)
    as (_ & Hlen & Hall & Hv & _).
  exists results, w'. split_and!; [reflexivity|exact Hne|exact Hlen| |exact Hv].
  intros result Hin. exact (proj1 (Hall result Hin)).
Defined.

(** The task for alice's session is answered 200: her record is gone, her
    memory is not. *)
Lemma HandleCleanupWebhook_session_task_witness :
  (WebhookHandler.HandleCleanupWebhook E0 (Some session_task) w1).1 = StatusOK ∧
  redis (WebhookHandler.HandleCleanupWebhook E0 (Some session_task) w1).2
    !! RedisClient.session_key "s1" = None ∧
  vectors (WebhookHandler.HandleCleanupWebhook E0 (Some session_task) w1).2 =
    vectors w1.
Proof.
  destruct (HandleCleanupWebhook_session_task E0 session_task w1)
    as (_ & Hv & _ & _ & Hiff & Hgone & _).
  - reflexivity.
  - intros H. discriminate H.
  - assert (Hok : (WebhookHandler.HandleCleanupWebhook E0 (Some session_task)
                     w1).1 = StatusOK)
      by (apply Hiff; vm_compute; reflexivity).
    split_and!; [exact Hok|exact (Hgone Hok)|exact Hv].
Defined.

(** The schedule made on the idle dispatcher, and its task delivered to the
    store with an expired entry. *)
Lemma ScheduleCleanup_task_witness :
  ∃ r,
    q_scheduled (QStashClient.ScheduleCleanup callback q0).2 = [r] ∧
    sr_Cron r = "0 2 * * *" ∧
    sr_Retries r = 3 ∧
    (WebhookHandler.HandleCleanupWebhook E0 (Some (sr_Body r)) w_sweep).1 =
      StatusOK.
Proof.
  assert (Hrun : QStashClient.ScheduleCleanup callback q0 =
                 (Ok (q_id q0 0%nat), (QStashClient.ScheduleCleanup callback q0).2))
    by (vm_compute; reflexivity).
  destruct (ScheduleCleanup_task E0 callback q0 _ _ Hrun)
    as (r & Hs & _ & _ & Hcron & Hretries & _ & Hrun').
  exists r. split_and!; [exact Hs|exact Hcron|exact Hretries|].
  rewrite Hrun'. vm_compute. reflexivity.
Defined.

(** A cleanup of alice asked for without a delay is published with a delay
    of an hour; for a body that is no request, and for a request without an
    owner, nothing is published. *)
Lemma ScheduleUserCleanup_task_witness :
  (∃ r,
     q_published (WebhookHandler.ScheduleUserCleanup (Some cleanup_alice) q0).2 =
       [r] ∧
     pr_Delay r = 3600 ∧
     (WebhookHandler.HandleCleanupWebhook E0 (Some (pr_Body r)) w_both).1 =
       StatusOK) ∧
  WebhookHandler.ScheduleUserCleanup None q0 = (StatusBadRequest, q0) ∧
  WebhookHandler.ScheduleUserCleanup (Some cleanup_nobody) q0 =
    (StatusBadRequest, q0).
Proof.
  destruct (ScheduleUserCleanup_task E0 (Some cleanup_alice) q0)
    as (_ & _ & _ & Hok).
  destruct (ScheduleUserCleanup_task E0 None q0) as (Hbad0 & Hsame0 & _).
  destruct (ScheduleUserCleanup_task E0 (Some cleanup_nobody) q0)
    as (Hbad & Hsame & _).
  split_and!.
  - destruct (Hok cleanup_alice eq_refl) as (r & Hp & _ & Hdelay & _ & _ & Hrun);
      [vm_compute; reflexivity|].
    exists r. split_and!; [exact Hp|exact Hdelay|].
    rewrite Hrun. vm_compute. reflexivity.
  - assert (Hs : (WebhookHandler.ScheduleUserCleanup None q0).1 =
                 StatusBadRequest) by (by apply Hbad0).
    specialize (Hsame0 Hs).
    destruct (WebhookHandler.ScheduleUserCleanup None q0) as [st q1].
    simpl in *. by subst.
  - assert (Hs : (WebhookHandler.ScheduleUserCleanup (Some cleanup_nobody) q0).1 =
                 StatusBadRequest) by (apply Hbad; by right).
    specialize (Hsame Hs).
    destruct (WebhookHandler.ScheduleUserCleanup (Some cleanup_nobody) q0)
      as [st q1].
    simpl in *. by subst.
Defined.

(** The delayed cleanup of alice's session, published and delivered. *)
Lemma PublishSessionCleanup_task_witness :
  ∃ r,
    q_published (QStashClient.PublishSessionCleanup callback "s1" 60 q0).2 =
      [r] ∧
    pr_Delay r = 60 ∧
    (WebhookHandler.HandleCleanupWebhook E0 (Some (pr_Body r)) w1).1 = StatusOK.
Proof.
  assert (Hrun : QStashClient.PublishSessionCleanup callback "s1" 60 q0 =
                 (Ok (q_id q0 0%nat),
                  (QStashClient.PublishSessionCleanup callback "s1" 60 q0).2))
    by (vm_compute; reflexivity).
  destruct (PublishSessionCleanup_task E0 callback "s1" 60 q0 _ _ Hrun)
    as (r & Hp & _ & _ & Hdelay & _ & Hrun').
  exists r. split_and!; [exact Hp|exact Hdelay|].
  rewrite Hrun'. vm_compute. reflexivity.
Defined.

(** alice's session is answered 200; a session that is not stored and a
    read that is rejected are both answered 404. *)
Lemma handler_GetSession_status_witness :
  (MemoryHandler.GetSession "s1" w1).1 = StatusOK ∧
  (MemoryHandler.GetSession "s9" w1).1 = StatusNotFound ∧
  (MemoryHandler.GetSession "s1" (with_upstream [Rejected] w1)).1 =
    StatusNotFound.
Proof.
  destruct (handler_GetSession_status "s1" w1) as (_ & Hok & _);
    [intros H; discriminate H|].
  destruct (handler_GetSession_status "s9" w1) as (Hor9 & Hiff9 & _);
    [intros H; discriminate H|].
  destruct (handler_GetSession_status "s1" (with_upstream [Rejected] w1))
    as (HorR & HiffR & _); [intros H; discriminate H|].
  split_and!.
  - apply Hok. split; [vm_compute; reflexivity|].
    exists s1. vm_compute. reflexivity.
  - destruct Hor9 as [H|H]; [|exact H].
    apply Hiff9 in H as [_ [session H]]. vm_compute in H. discriminate H.
  - destruct HorR as [H|H]; [|exact H].
    apply HiffR in H as [H _]. vm_compute in H. discriminate H.
Defined.

(** The flag spelt "True" is no flag: one [DEL], the record gone, the
    memory kept. *)
Lemma handler_DeleteSession_effect_witness :
  trace (MemoryHandler.DeleteSession "s1" "True" w1).2 =
    (trace w1 ++ [ReqRedis (DEL (RedisClient.session_key "s1"))])%list ∧
  (MemoryHandler.DeleteSession "s1" "True" w1).1 = StatusOK ∧
  redis (MemoryHandler.DeleteSession "s1" "True" w1).2
    !! RedisClient.session_key "s1" = None ∧
  vectors (MemoryHandler.DeleteSession "s1" "True" w1).2 = vectors w1.
Proof.
  destruct (handler_DeleteSession_effect "s1" "True" w1)
    as (Hv & _ & _ & _ & Hgone & Hplain); [intros H; discriminate H|].
  destruct Hplain as [Htrace Hiff]; [intros H; discriminate H|].
  assert (Hok : (MemoryHandler.DeleteSession "s1" "True" w1).1 = StatusOK)
    by (apply Hiff; vm_compute; reflexivity).
  split_and!; [exact Htrace|exact Hok|exact (Hgone Hok)|exact Hv].
Defined.
End OnScenarios.
